(** * hast-util-to-parse5: the conversion of [lib/index.js], embedded in Rocq

    The JavaScript module converts a hast tree into a parse5 tree.  Both trees
    are graphs of mutable objects: produced nodes point back to their parent
    through [parentNode], and the input is handed over by reference.  The
    embedding therefore keeps one store of objects, addresses into it, and a
    state-and-exception monad; every assignment of the source is a store
    update, every object literal an allocation. *)

From Stdlib Require Import Ascii.
From stdpp Require Import base option strings numbers pretty relations list.

Local Open Scope string_scope.
Local Open Scope list_scope.
Local Open Scope nat_scope.

(** ** Addresses and results *)

Abbreviation loc := nat (only parsing).

(** A JavaScript string-valued expression that may evaluate to [undefined]. *)
Definition JsString := option string.

Inductive Error :=
| TypeError_set_of_undefined      (* [child.parentNode = p5] with [child] undefined *)
| TypeError_read_of_undefined     (* [node.children] with [node] undefined *)
| Error_expected_element.         (* raised by the external [toH] *)

Inductive Outcome (A : Type) :=
| Ok (a : A)
| Throw (e : Error)
| OutOfFuel.
Arguments Ok {A} a.
Arguments Throw {A} e.
Arguments OutOfFuel {A}.

(** ** property-information: the two schemas and the shape of [Info] *)

Inductive Schema := html | svg.

Definition space (schema : Schema) : string :=
  match schema with html => "html" | svg => "svg" end.

Record Info := mkInfo {
  boolean : bool;
  info_space : option string
}.

(** ** Attribute objects of parse5 *)

Record P5Attribute := mkAttr {
  name : string;
  value : string;
  prefix : option string;            (* [None]: the field is absent *)
  namespace : option JsString        (* [None]: the field is absent *)
}.

Section Conversion.

(** JavaScript numbers with their built-in conversions. *)
Variable number : Type.
Variable String_number : number → string.
Variable ToBoolean_number : number → bool.

(** The [properties] object of a hast element; only the external [toH]
    looks inside it. *)
Variable Properties : Type.

(** ** External collaborators *)

(** [find(schema, key)] of property-information. *)
Variable find : Schema → string → Info.

(** [ns[key]]: the table of web-namespaces; [None] is [undefined]. *)
Variable ns : string → JsString.

(** The attribute object that [toH] builds from the element's properties
    and hands to its callback, in [for ... in] order. *)
Inductive AttrValue :=
| VBool (b : bool)
| VString (s : string)
| VNumber (n : number).

Definition Attrs := list (string * AttrValue).

Variable toH_attributes : string → string → Properties → Attrs.

(** How many times [toH] calls its callback as [h('div', {})] before the
    call that builds the element.  hast-to-hyperscript tries the callback
    out on a [div] to learn which hyperscript dialect it was given (three
    times: for React, for Vue and for virtual-dom); every such call runs [h]
    on the element at hand, and so allocates an object and passes through
    the reassignment of [schema].  [0] would be a helper that calls back
    once. *)
Variable probes : nat.

(** ** hast: the source objects *)

Record Point := mkPoint {
  line : number;
  column : number;
  offset : option number
}.

Record Position := mkPosition {
  start : option Point;
  end_ : option Point
}.

Record Data := mkData { quirksMode : option bool }.

Inductive Hast :=
| HRoot (data : option Data) (children : option (list loc)) (position : option Position)
| HElement (tagName : string) (properties : Properties)
           (children : option (list loc)) (content : option loc)
           (position : option Position)
| HText (value : string) (position : option Position)
| HComment (value : string) (position : option Position)
| HDoctype (position : option Position)
| HOther (type : string).

Definition type_of (n : Hast) : string :=
  match n with
  | HRoot _ _ _ => "root"
  | HElement _ _ _ _ _ => "element"
  | HText _ _ => "text"
  | HComment _ _ => "comment"
  | HDoctype _ => "doctype"
  | HOther t => t
  end.

Definition data_of (n : Hast) : option Data :=
  match n with HRoot d _ _ => d | _ => None end.

Definition children_of (n : Hast) : option (list loc) :=
  match n with
  | HRoot _ c _ | HElement _ _ c _ _ => c
  | _ => None
  end.

Definition content_of (n : Hast) : option loc :=
  match n with HElement _ _ _ c _ => c | _ => None end.

Definition tagName_of (n : Hast) : JsString :=
  match n with HElement t _ _ _ _ => Some t | _ => None end.

Definition value_of (n : Hast) : JsString :=
  match n with HText v _ | HComment v _ => Some v | _ => None end.

Definition position_of (n : Hast) : option Position :=
  match n with
  | HRoot _ _ p | HElement _ _ _ _ p | HText _ p | HComment _ p | HDoctype p => p
  | HOther _ => None
  end.

(** ** parse5: the produced objects *)

Record Location := mkLocation {
  startLine : number;
  startCol : number;
  startOffset : option number;
  endLine : number;
  endCol : number;
  endOffset : option number
}.

Inductive P5Kind :=
| KDocument (mode : string)
| KFragment
| KDoctype (name publicId systemId : string)
| KText (value : JsString)
| KComment (data : JsString)
| KElement (tagName : string) (attrs : list P5Attribute) (namespaceURI : JsString).

Record P5 := mkP5 {
  nodeName : string;
  kind : P5Kind;
  childNodes : option (list loc);
  content : option loc;
  parentNode : option loc;
  sourceCodeLocation : option Location
}.

Definition set_childNodes (cs : list loc) (p : P5) : P5 :=
  mkP5 (nodeName p) (kind p) (Some cs) (content p) (parentNode p) (sourceCodeLocation p).

Definition set_content (c : loc) (p : P5) : P5 :=
  mkP5 (nodeName p) (kind p) (childNodes p) (Some c) (parentNode p) (sourceCodeLocation p).

Definition set_parentNode (q : loc) (p : P5) : P5 :=
  mkP5 (nodeName p) (kind p) (childNodes p) (content p) (Some q) (sourceCodeLocation p).

Definition set_sourceCodeLocation (l : Location) (p : P5) : P5 :=
  mkP5 (nodeName p) (kind p) (childNodes p) (content p) (parentNode p) (Some l).

(** ** The store *)

(** A cell holds a hast object, a produced parse5 object, or a hast
    object that has been assigned parse5 fields: to JavaScript the three are
    plain objects, and an assignment [o.f = v] goes through on any of them.
    [OHastAssigned] keeps the node and the assignments it received, the
    latest first. *)
Inductive Obj :=
| OHast (n : Hast)
| OP5 (p : P5)
| OHastAssigned (n : Hast) (assigned : list (P5 → P5)).

(** [plog] is ghost state: one entry [(child, parent)] for every execution
    of the assignment [child.parentNode = p5]. *)
Record State := mkState {
  objs : list Obj;
  plog : list (loc * loc)
}.

Definition M (A : Type) : Type := State → State * Outcome A.

Definition ret {A} (a : A) : M A := λ σ, (σ, Ok a).

Definition bind {A B} (m : M A) (k : A → M B) : M B :=
  λ σ, match m σ with
       | (σ', Ok a) => k a σ'
       | (σ', Throw e) => (σ', Throw e)
       | (σ', OutOfFuel) => (σ', OutOfFuel)
       end.

#[local] Instance M_ret : MRet M := @ret.
#[local] Instance M_bind : MBind M := λ A B k m, bind m k.

Definition throw {A} (e : Error) : M A := λ σ, (σ, Throw e).

Definition out_of_fuel {A} : M A := λ σ, (σ, OutOfFuel).

(** An object literal. *)
Definition alloc (o : Obj) : M loc :=
  λ σ, (mkState (objs σ ++ [o]) (plog σ), Ok (length (objs σ))).

Definition read (l : loc) : M (option Obj) :=
  λ σ, (σ, Ok (objs σ !! l)).

Definition hast_at (os : list Obj) (l : loc) : option Hast :=
  match os !! l with
  | Some (OHast n) | Some (OHastAssigned n _) => Some n
  | _ => None
  end.

Definition p5_at (os : list Obj) (l : loc) : option P5 :=
  match os !! l with Some (OP5 p) => Some p | _ => None end.

(** [node.f] for a hast field [f]; [None] is [undefined]. *)
Definition field {A} (f : Hast → option A) (node : loc) : M (option A) :=
  λ σ, (σ, Ok (hast_at (objs σ) node ≫= f)).

(** [p5.f = v]: the assignment changes the object that [p5] refers to,
    whichever kind of object that is. *)
Definition assign (p5 : loc) (f : P5 → P5) : M unit :=
  λ σ, match objs σ !! p5 with
       | Some (OP5 p) => (mkState (<[p5 := OP5 (f p)]> (objs σ)) (plog σ), Ok tt)
       | Some (OHast n) =>
           (mkState (<[p5 := OHastAssigned n [f]]> (objs σ)) (plog σ), Ok tt)
       | Some (OHastAssigned n fs) =>
           (mkState (<[p5 := OHastAssigned n (f :: fs)]> (objs σ)) (plog σ), Ok tt)
       | None => (σ, Ok tt)
       end.

Definition log_parent (child p5 : loc) : M unit :=
  λ σ, (mkState (objs σ) (plog σ ++ [(child, p5)]), Ok tt).

(** A handler takes the node and the schema and returns a produced node or
    [undefined]. *)
Definition Handle := loc → Schema → M (option loc).

(** ** zwitch *)

Fixpoint handler_for (id : string) (handlers : list (string * Handle)) : option Handle :=
  match handlers with
  | [] => None
  | (k, fn) :: rest => if String.eqb k id then Some fn else handler_for id rest
  end.

(** [zwitch(key, {handlers, unknown, invalid})] on the key ['type']: the
    handler of the value's own [type], else [unknown], else (no own [type])
    [invalid]; without a handler to call the result is [undefined]. *)
Definition zwitch (handlers : list (string * Handle)) (unknown invalid : option Handle) : Handle :=
  λ value schema,
    ty ← field (λ n, Some (type_of n)) value;
    let fn := match ty with
              | Some id => match handler_for id handlers with
                           | Some f => Some f
                           | None => unknown
                           end
              | None => invalid
              end in
    match fn with
    | Some f => f value schema
    | None => ret None
    end.

(** ** [patch] *)

Definition patch (node : loc) (p5 : loc) : M loc :=
  position ← field position_of node;
  match position with
  | Some (mkPosition (Some s) (Some e)) =>
      assign p5 (set_sourceCodeLocation
                   (mkLocation (line s) (column s) (offset s)
                               (line e) (column e) (offset e)));;
      ret p5
  | _ => ret p5
  end.

(** ** [all] *)

Fixpoint all_loop (one : Handle) (children : list loc) (p5 : loc) (schema : Schema)
    (result : list loc) : M (list loc) :=
  match children with
  | [] => ret result
  | c :: rest =>
      child ← one c schema;
      match child with
      | None => throw TypeError_set_of_undefined
      | Some ch =>
          assign ch (set_parentNode p5);;
          log_parent ch p5;;
          all_loop one rest p5 schema (result ++ [ch])
      end
  end.

Definition all (one : Handle) (children : option (list loc)) (p5 : loc) (schema : Schema)
    : M (list loc) :=
  match children with
  | Some cs => all_loop one cs p5 schema []
  | None => ret []
  end.

(** ** [root], [fragment], [doctype], [text], [comment] *)

Definition mode_of (data : option Data) : string :=
  match data ≫= quirksMode with
  | Some true => "quirks"
  | _ => "no-quirks"
  end.

Definition root (one : Handle) : Handle := λ node schema,
  data ← field data_of node;
  p5 ← alloc (OP5 (mkP5 "#document" (KDocument (mode_of data)) (Some []) None None None));
  children ← field children_of node;
  cs ← all one children p5 schema;
  assign p5 (set_childNodes cs);;
  r ← patch node p5;
  ret (Some r).

Definition fragment (one : Handle) (node : option loc) (schema : Schema) : M loc :=
  p5 ← alloc (OP5 (mkP5 "#document-fragment" KFragment (Some []) None None None));
  match node with
  | None => throw TypeError_read_of_undefined
  | Some node =>
      children ← field children_of node;
      cs ← all one children p5 schema;
      assign p5 (set_childNodes cs);;
      patch node p5
  end.

Definition doctype : Handle := λ node _,
  p5 ← alloc (OP5 (mkP5 "#documentType" (KDoctype "html" "" "") None None None None));
  r ← patch node p5;
  ret (Some r).

Definition text : Handle := λ node _,
  v ← field value_of node;
  p5 ← alloc (OP5 (mkP5 "#text" (KText v) None None None None));
  r ← patch node p5;
  ret (Some r).

Definition comment : Handle := λ node _,
  v ← field value_of node;
  p5 ← alloc (OP5 (mkP5 "#comment" (KComment v) None None None None));
  r ← patch node p5;
  ret (Some r).

(** ** [element] and its builder [h] *)

(** [String(v)] *)
Definition String_ (v : AttrValue) : string :=
  match v with
  | VBool true => "true"
  | VBool false => "false"
  | VString s => s
  | VNumber n => String_number n
  end.

(** [!!v] *)
Definition ToBoolean (v : AttrValue) : bool :=
  match v with
  | VBool b => b
  | VString s => negb (String.eqb s "")
  | VNumber n => ToBoolean_number n
  end.

Definition is_false (v : AttrValue) : bool :=
  match v with VBool false => true | _ => false end.

Definition is_true (v : AttrValue) : bool :=
  match v with VBool true => true | _ => false end.

(** [info.space && info.space !== 'html' && info.space !== 'svg'] *)
Definition foreign_space (info : Info) : option string :=
  match info_space info with
  | Some sp =>
      if String.eqb sp "" || String.eqb sp "html" || String.eqb sp "svg"
      then None else Some sp
  | None => None
  end.

(** [key.slice(from)] and [key.slice(0, to)] for indices within [key]. *)
Definition slice_from (from : nat) (key : string) : string :=
  String.substring from (String.length key - from) key.

Definition slice_to (to : nat) (key : string) : string :=
  String.substring 0 to key.

(** One turn of the [for (key in attrs)] loop of [h]: the attribute that is
    pushed, or [None] after a [continue]. *)
Definition h_attribute (schema : Schema) (key : string) (v : AttrValue) : option P5Attribute :=
  if is_false v then None
  else
    let info := find schema key in
    if boolean info && negb (ToBoolean v) then None
    else
      let value := if is_true v then "" else String_ v in
      match foreign_space info with
      | Some sp =>
          match String.index 0 ":" key with
          | None => Some (mkAttr key value (Some "") (Some (ns sp)))
          | Some index =>
              Some (mkAttr (slice_from (index + 1) key) value
                           (Some (slice_to index key)) (Some (ns sp)))
          end
      | None => Some (mkAttr key value None None)
      end.

(** The whole loop: [values] when it ends. *)
Definition h_values (schema : Schema) (attrs : Attrs) : list P5Attribute :=
  omap (λ kv, h_attribute schema kv.1 kv.2) attrs.

(** [if (schema.space === 'html' && node.tagName === 'svg') schema = svg] *)
Definition switch_schema (schema : Schema) (tagName : JsString) : Schema :=
  if String.eqb (space schema) "html" && bool_decide (tagName = Some "svg")
  then svg else schema.

(** [h] closes over [node] and over the variable [schema] of [element],
    which it reassigns; the variable is passed in and handed back. *)
Definition h (one : Handle) (node : loc) (schema : Schema) (name : string) (attrs : Attrs)
    : M (loc * Schema) :=
  let values := h_values schema attrs in
  tagName ← field tagName_of node;
  let schema := switch_schema schema tagName in
  p5 ← alloc (OP5 (mkP5 name (KElement name values (ns (space schema)))
                         (Some []) None None None));
  p5 ← patch node p5;
  children ← field children_of node;
  cs ← all one children p5 schema;
  assign p5 (set_childNodes cs);;
  (if String.eqb name "template"
   then content ← field content_of node;
        c ← fragment one content schema;
        assign p5 (set_content c)
   else ret tt);;
  ret (p5, schema).

(** External: [toH(h, tree, {space})] of hast-to-hyperscript, as far as
    this module uses it.  It first calls the builder [probes] times as
    [h('div', {})], then once with the tag name and the attribute object of
    [tree], and returns what that call returns. *)
Fixpoint toH_probe {S : Type} (h : S → string → Attrs → M (loc * S)) (n : nat) (s : S) : M S :=
  match n with
  | 0 => ret s
  | S n => rs ← h s "div" []; toH_probe h n rs.2
  end.

Definition toH {S : Type} (h : S → string → Attrs → M (loc * S)) (tree : loc)
    (space : string) (s : S) : M loc :=
  s ← toH_probe h probes s;
  t ← field Some tree;
  match t with
  | Some (HElement tagName properties _ _ _) =>
      rs ← h s tagName (toH_attributes space tagName properties);
      ret rs.1
  | _ => throw Error_expected_element
  end.

(** [Object.assign({}, node, {children: []})] *)
Definition Object_assign_children (n : Hast) : Hast :=
  match n with
  | HRoot d _ p => HRoot d (Some []) p
  | HElement t ps _ c p => HElement t ps (Some []) c p
  | other => other
  end.

Definition element (one : Handle) : Handle := λ node schema,
  let space := space schema in
  n ← field Some node;
  match n with
  | Some n =>
      copy ← alloc (OHast (Object_assign_children n));
      r ← toH (h one node) copy space schema;
      ret (Some r)
  | None => throw Error_expected_element
  end.

(** ** The dispatcher [one] and the entry point [toParse5] *)

(** [one] and the handlers call each other; the recursion is cut by
    [fuel], one unit per level of the tree. *)
Fixpoint one (fuel : nat) : Handle :=
  match fuel with
  | 0 => λ _ _, out_of_fuel
  | S fuel =>
      zwitch [("root", root (one fuel)); ("element", element (one fuel));
              ("text", text); ("comment", comment); ("doctype", doctype)]
             None None
  end.

Definition toParse5 (fuel : nat) (tree : loc) (space : option string) : M (option loc) :=
  one fuel tree (if bool_decide (space = Some "svg") then svg else html).

(** ** Vocabulary of the properties *)

Definition parent_at (os : list Obj) (a : loc) : option loc :=
  p5_at os a ≫= parentNode.

Definition childNodes_at (os : list Obj) (a : loc) : option (list loc) :=
  p5_at os a ≫= childNodes.

(** What [patch] writes for a given [position]. *)
Definition location_of (position : option Position) : option Location :=
  match position with
  | Some (mkPosition (Some s) (Some e)) =>
      Some (mkLocation (line s) (column s) (offset s) (line e) (column e) (offset e))
  | _ => None
  end.

(** The produced object after [patch] for a given [position]. *)
Definition patched (position : option Position) (p : P5) : P5 :=
  match location_of position with
  | Some l => set_sourceCodeLocation l p
  | None => p
  end.

(** Every object below address [b] is the same in both states, nothing
    was deallocated, and the log only grew. *)
Definition preserves (b : nat) (σ σ' : State) : Prop :=
  length (objs σ) ≤ length (objs σ') ∧
  (∀ a, a < b → objs σ' !! a = objs σ !! a) ∧
  plog σ `prefix_of` plog σ'.

(** The types that [one] has a handler for. *)
Definition handled (type : string) : bool :=
  String.eqb type "root" || String.eqb type "element" || String.eqb type "text" ||
  String.eqb type "comment" || String.eqb type "doctype".

(** A hast object refers to addresses below [b] only, and [HOther] stands
    for an object of none of the five types. *)
Definition refs_below (b : nat) (n : Hast) : bool :=
  forallb (λ c, bool_decide (c < b)) (default [] (children_of n)) &&
  match content_of n with Some c => bool_decide (c < b) | None => true end &&
  match n with HOther t => negb (handled t) | _ => true end.

(** Every hast object below [b] is such an object. *)
Definition closed_below (b : nat) (os : list Obj) : bool :=
  forallb (λ o, match o with
                | OHast n | OHastAssigned n _ => refs_below b n
                | OP5 _ => true
                end) (take b os).

(** The verdict on a conversion, read off the source objects alone. *)
Inductive Verdict :=
| VNode                 (* a produced node is returned *)
| VUndefined            (* [undefined] is returned *)
| VThrow (e : Error)    (* an exception is thrown *)
| VFuel.                (* the fuel does not cover the depth of the tree *)

Definition verdict_of (o : Outcome (option loc)) : Verdict :=
  match o with
  | Ok (Some _) => VNode
  | Ok None => VUndefined
  | Throw e => VThrow e
  | OutOfFuel => VFuel
  end.

Fixpoint predict_all (f : loc → Verdict) (children : list loc) : Verdict :=
  match children with
  | [] => VNode
  | c :: rest =>
      match f c with
      | VNode => predict_all f rest
      | VUndefined => VThrow TypeError_set_of_undefined
      | v => v
      end
  end.

Fixpoint predict (n : nat) (os : list Obj) (l : loc) : Verdict :=
  match n with
  | 0 => VFuel
  | S n =>
      match hast_at os l with
      | Some (HRoot _ children _) => predict_all (predict n os) (default [] children)
      | Some (HElement tag _ children content _) =>
          match predict_all (predict n os) (default [] children) with
          | VNode =>
              if String.eqb tag "template" then
                match content with
                | None => VThrow TypeError_read_of_undefined
                | Some c =>
                    predict_all (predict n os) (default [] (hast_at os c ≫= children_of))
                end
              else VNode
          | v => v
          end
      | Some (HText _ _) | Some (HComment _ _) | Some (HDoctype _) => VNode
      | Some (HOther _) | None => VUndefined
      end
  end.

(** The schema that the attribute loop of the building call of [h] sees:
    the variable was already reassigned if [h] ran before. *)
Definition attr_schema (schema : Schema) (tag : string) : Schema :=
  match probes with
  | 0 => schema
  | S _ => switch_schema schema (Some tag)
  end.

(** [cs] are the produced children of [r] for the source [children], one
    for one and in order, each pointing back to [r]. *)
Definition kids (Conv : loc → Schema → loc → Prop) (os : list Obj)
    (r : loc) (children : option (list loc)) (schema : Schema) (cs : list loc) : Prop :=
  Forall2 (λ c a, r < a ∧ parent_at os a = Some r ∧ Conv c schema a)
          (default [] children) cs.

(** [f] is the fragment produced for the hast object [c]. *)
Definition fragment_of (Conv : loc → Schema → loc → Prop) (os : list Obj)
    (b hi : nat) (c : loc) (schema : Schema) (f : loc) : Prop :=
  c < b ∧ f < hi ∧
  ∃ pf cs, p5_at os f = Some pf ∧
    nodeName pf = "#document-fragment" ∧ kind pf = KFragment ∧
    content pf = None ∧ parentNode pf = None ∧
    sourceCodeLocation pf = location_of (hast_at os c ≫= position_of) ∧
    childNodes pf = Some cs ∧
    kids Conv os f (hast_at os c ≫= children_of) schema cs.

(** What a call [h(name, attrs)] leaves at [r] for the element [node],
    when the variable [schema] holds [schema] on entry. *)
Definition built_by_h (Conv : loc → Schema → loc → Prop) (os : list Obj)
    (b hi : nat) (node : Hast) (schema : Schema) (name : string) (attrs : Attrs)
    (r : loc) : Prop :=
  let schema' := switch_schema schema (tagName_of node) in
  ∃ p cs, p5_at os r = Some p ∧
    nodeName p = name ∧
    kind p = KElement name (h_values schema attrs) (ns (space schema')) ∧
    sourceCodeLocation p = location_of (position_of node) ∧
    childNodes p = Some cs ∧
    kids Conv os r (children_of node) schema' cs ∧
    if String.eqb name "template"
    then ∃ c f, content_of node = Some c ∧ content p = Some f ∧ r < f ∧
                fragment_of Conv os b hi c schema' f
    else content p = None.

(** [r] is the node produced for the hast object [l] under [schema]; the
    source objects lie below [b], the produced ones between [b] and [hi]. *)
Fixpoint Converted (n : nat) (os : list Obj) (b hi : nat)
    (l : loc) (schema : Schema) (r : loc) : Prop :=
  match n with
  | 0 => False
  | S n =>
      l < b ∧ b ≤ r ∧ r < hi ∧
      ∃ node, hast_at os l = Some node ∧
        match node with
        | HRoot data children position =>
            ∃ p cs, p5_at os r = Some p ∧
              nodeName p = "#document" ∧ kind p = KDocument (mode_of data) ∧
              content p = None ∧
              sourceCodeLocation p = location_of position ∧
              childNodes p = Some cs ∧
              kids (Converted n os b hi) os r children schema cs
        | HElement tag props _ _ _ =>
            built_by_h (Converted n os b hi) os b hi node (attr_schema schema tag) tag
                       (toH_attributes (space schema) tag props) r
        | HText v position =>
            ∃ p, p5_at os r = Some p ∧
              nodeName p = "#text" ∧ kind p = KText (Some v) ∧
              childNodes p = None ∧ content p = None ∧
              sourceCodeLocation p = location_of position
        | HComment v position =>
            ∃ p, p5_at os r = Some p ∧
              nodeName p = "#comment" ∧ kind p = KComment (Some v) ∧
              childNodes p = None ∧ content p = None ∧
              sourceCodeLocation p = location_of position
        | HDoctype position =>
            ∃ p, p5_at os r = Some p ∧
              nodeName p = "#documentType" ∧ kind p = KDoctype "html" "" "" ∧
              childNodes p = None ∧ content p = None ∧
              sourceCodeLocation p = location_of position
        | HOther _ => False
        end
  end.

(** The parent links of the objects in [lo, hi), against the log [lg] of
    the assignments made while they were produced.  An entry of [pend] is a
    child whose parent has not received its [childNodes] yet. *)
Definition Links (pend : list (loc * loc)) (lo hi : nat) (os : list Obj)
    (lg : list (loc * loc)) : Prop :=
  NoDup lg.*1 ∧
  (∀ c p, (c, p) ∈ lg →
     lo ≤ c < hi ∧ parent_at os c = Some p ∧
     ((c, p) ∈ pend ∨
      (lo ≤ p < hi ∧ ∃ cs, childNodes_at os p = Some cs ∧ c ∈ cs ∧ NoDup cs))) ∧
  (∀ a p, lo ≤ a < hi → parent_at os a = Some p → (a, p) ∈ lg).

(** Equality of two produced trees up to the addresses of their nodes. *)
#[warnings="-register-all"]
Inductive structurally_equal (os1 os2 : list Obj) : loc → loc → Prop :=
| structurally_equal_node r1 r2 p1 p2 :
    p5_at os1 r1 = Some p1 →
    p5_at os2 r2 = Some p2 →
    nodeName p1 = nodeName p2 →
    kind p1 = kind p2 →
    sourceCodeLocation p1 = sourceCodeLocation p2 →
    option_Forall2 (Forall2 (structurally_equal os1 os2)) (childNodes p1) (childNodes p2) →
    option_Forall2 (structurally_equal os1 os2) (content p1) (content p2) →
    structurally_equal os1 os2 r1 r2.

(** A step of the hast graph that the conversion follows: from a root or an
    element to a child, from a template element to a child of its content. *)
Definition steps_to (os : list Obj) (l c : loc) : Prop :=
  match hast_at os l with
  | Some (HRoot _ children _) => c ∈ default [] children
  | Some (HElement tag _ children content _) =>
      c ∈ default [] children ∨
      (tag = "template" ∧ ∃ f, content = Some f ∧
         c ∈ default [] (hast_at os f ≫= children_of))
  | _ => False
  end.

(** The schema that [toParse5] starts from. *)
Definition initial_schema (space : option string) : Schema :=
  if bool_decide (space = Some "svg") then svg else html.

Definition nodeName_at (os : list Obj) (a : loc) : option string :=
  nodeName <$> p5_at os a.

Definition kind_at (os : list Obj) (a : loc) : option P5Kind :=
  kind <$> p5_at os a.

Definition content_at (os : list Obj) (a : loc) : option loc :=
  p5_at os a ≫= content.

Definition location_at (os : list Obj) (a : loc) : option Location :=
  p5_at os a ≫= sourceCodeLocation.

Definition namespaceURI_at (os : list Obj) (a : loc) : option JsString :=
  p5_at os a ≫= λ p, match kind p with KElement _ _ u => Some u | _ => None end.

Definition attrs_at (os : list Obj) (a : loc) : option (list P5Attribute) :=
  p5_at os a ≫= λ p, match kind p with KElement _ vs _ => Some vs | _ => None end.

(** The tree [<div><svg><rect/></svg><span/></div>] at addresses 0 to 3. *)
Definition svg_example (pdiv psvg prect pspan : Properties) : list Obj :=
  [ OHast (HElement "div" pdiv (Some [1; 3]) None None);
    OHast (HElement "svg" psvg (Some [2]) None None);
    OHast (HElement "rect" prect (Some []) None None);
    OHast (HElement "span" pspan (Some []) None None) ].

(** A [<template>] with no children whose content holds the text ["x"]. *)
Definition template_example (ptemplate : Properties) : list Obj :=
  [ OHast (HElement "template" ptemplate (Some []) (Some 1) None);
    OHast (HRoot None (Some [2]) None);
    OHast (HText "x" None) ].

(** The object that a call [h('div', {})] leaves behind for an element
    without children and without a position. *)
Definition probe_object (schema : Schema) (tag : string) : P5 :=
  mkP5 "div" (KElement "div" [] (ns (space (switch_schema schema (Some tag)))))
       (Some []) None None None.

(** The addresses that the conversion of [l] goes on to: the children of
    a root or an element, then the children of the content of a template
    element. *)
Definition next (os : list Obj) (l : loc) : list loc :=
  match hast_at os l with
  | Some (HRoot _ children _) => default [] children
  | Some (HElement tag _ children content _) =>
      default [] children ++
      (if String.eqb tag "template"
       then match content with
            | Some f => default [] (hast_at os f ≫= children_of)
            | None => []
            end
       else [])
  | _ => []
  end.

(** The tree below [l] has at most [n] levels. *)
Fixpoint fits (n : nat) (os : list Obj) (l : loc) : bool :=
  match n with
  | 0 => false
  | S n => forallb (fits n os) (next os l)
  end.

(** [one] has a handler for the object at [x]. *)
Definition has_handler (os : list Obj) (x : loc) : bool :=
  match hast_at os x with
  | Some n => handled (type_of n)
  | None => false
  end.

(** [x] is an element named ["template"] without a [content]. *)
Definition lacks_content (os : list Obj) (x : loc) : bool :=
  match hast_at os x with
  | Some (HElement tag _ _ None _) => String.eqb tag "template"
  | _ => false
  end.

(** The nodes of the produced tree at and below [r], to depth [n]: [r],
    the nodes below each entry of its [childNodes], and the nodes at and
    below its [content]. *)
Fixpoint nodes_below (n : nat) (os : list Obj) (r : loc) : list loc :=
  match n with
  | 0 => []
  | S n =>
      r :: flat_map (nodes_below n os) (default [] (childNodes_at os r)) ++
           match content_at os r with
           | Some f => nodes_below n os f
           | None => []
           end
  end.

(** The values of the text nodes at and below a source node, in document
    order; for a template element those of its content come after those of
    its children. *)
Fixpoint texts_of (n : nat) (os : list Obj) (l : loc) : list string :=
  match n with
  | 0 => []
  | S n =>
      match hast_at os l with
      | Some (HText v _) => [v]
      | _ => flat_map (texts_of n os) (next os l)
      end
  end.

(** The value of a produced [#text] node. *)
Definition text_value_at (os : list Obj) (x : loc) : option string :=
  p5_at os x ≫= λ p, match kind p with KText v => v | _ => None end.

(** The value of the [attrs] entry that an entry of the attribute object
    gives, or [None] when it gives no entry, in the words of the
    specification: [false] gives none; a falsy value of a key that the
    schema classifies as boolean gives none; [true] gives the empty string;
    any other value gives its stringification. *)
Definition spec_attribute_value (boolean_key : bool) (v : AttrValue) : option string :=
  match v with
  | VBool false => None
  | VBool true => Some ""
  | _ => if boolean_key && negb (ToBoolean v) then None else Some (String_ v)
  end.

(** The entries of the attribute object that give an [attrs] entry. *)
Definition giving_entries (schema : Schema) (attrs : Attrs) : Attrs :=
  filter (λ kv, is_Some (spec_attribute_value (boolean (find schema kv.1)) kv.2)) attrs.

(** * The frame of the conversion *)

(** [m] run from a state with at least [b] objects leaves the objects below
    [b] as they are, and a value it returns satisfies [Q]. *)
Definition framed {A} (b : nat) (Q : A → Prop) (m : M A) : Prop :=
  ∀ σ, b ≤ length (objs σ) →
    preserves b σ (m σ).1 ∧ ∀ a, (m σ).2 = Ok a → Q a.

Definition handle_framed (one : Handle) : Prop :=
  ∀ b l s, framed b (λ o, ∀ r, o = Some r → b ≤ r) (one l s).

Lemma preserves_refl b σ : preserves b σ σ.
Proof. repeat split; auto. Qed.

Lemma preserves_trans b σ1 σ2 σ3 :
  preserves b σ1 σ2 → preserves b σ2 σ3 → preserves b σ1 σ3.
Proof.
  intros (Hl1 & Ho1 & Hp1) (Hl2 & Ho2 & Hp2). repeat split.
  - lia.
  - intros a Ha. rewrite Ho2, Ho1; auto.
  - by etrans.
Qed.

Lemma preserves_weaken b b' σ σ' : b' ≤ b → preserves b σ σ' → preserves b' σ σ'.
Proof.
  intros Hb (Hl & Ho & Hp). repeat split; auto.
  intros a Ha. apply Ho. lia.
Qed.

Lemma bind_run {A B} (m : M A) (k : A → M B) σ :
  (m ≫= k) σ =
  match m σ with
  | (σ', Ok a) => k a σ'
  | (σ', Throw e) => (σ', Throw e)
  | (σ', OutOfFuel) => (σ', OutOfFuel)
  end.
Proof. reflexivity. Qed.

Lemma framed_bind {A B} b (Q : A → Prop) (R : B → Prop) (m : M A) (k : A → M B) :
  framed b Q m → (∀ a, Q a → framed b R (k a)) → framed b R (m ≫= k).
Proof.
  intros Hm Hk σ Hb. rewrite bind_run.
  destruct (Hm σ Hb) as [Hp HQ]. destruct (m σ) as [σ1 [a| |]]; simpl in *.
  - destruct (Hk a (HQ a eq_refl) σ1) as [Hp' HR].
    { destruct Hp as (Hl & _). lia. }
    split; [by eapply preserves_trans|done].
  - split; [done|discriminate].
  - split; [done|discriminate].
Qed.

Lemma framed_conseq {A} b (Q R : A → Prop) (m : M A) :
  framed b Q m → (∀ a, Q a → R a) → framed b R m.
Proof. intros Hm HQR σ Hb. destruct (Hm σ Hb). split; auto. Qed.

Lemma framed_ret {A} b (Q : A → Prop) (a : A) : Q a → framed b Q (mret a).
Proof.
  intros HQ σ _. split; [apply preserves_refl|].
  intros a' [= <-]. done.
Qed.

Lemma framed_throw {A} b (Q : A → Prop) e : framed b Q (throw e).
Proof. intros σ _. split; [apply preserves_refl|discriminate]. Qed.

Lemma framed_out_of_fuel {A} b (Q : A → Prop) : framed b Q out_of_fuel.
Proof. intros σ _. split; [apply preserves_refl|discriminate]. Qed.

Lemma framed_alloc b o : framed b (λ r, b ≤ r) (alloc o).
Proof.
  intros σ Hb. split.
  - repeat split; simpl.
    + rewrite length_app. lia.
    + intros a Ha. apply lookup_app_l. lia.
    + done.
  - intros a [= <-]. done.
Qed.

Lemma framed_field {A} b (f : Hast → option A) node : framed b (λ _, True) (field f node).
Proof. intros σ _. split; [apply preserves_refl|done]. Qed.

Lemma framed_assign b p5 f : b ≤ p5 → framed b (λ _, True) (assign p5 f).
Proof.
  intros Hp σ Hb. split; [|done]. unfold assign; cbv beta.
  destruct (objs σ !! p5) as [[n|p|n fs]|] eqn:E; try apply preserves_refl;
    (split; [|split]; cbn [objs plog fst];
     [by rewrite length_insert|intros a Ha; apply list_lookup_insert_ne; lia|done]).
Qed.

Lemma framed_log_parent b c p : framed b (λ _, True) (log_parent c p).
Proof.
  intros σ _. split; [|done]. repeat split; simpl; auto.
  by apply prefix_app_r.
Qed.

Lemma framed_patch b node p5 : b ≤ p5 → framed b (λ r, r = p5) (patch node p5).
Proof.
  intros Hp. unfold patch.
  eapply framed_bind; [apply framed_field|]. intros position _.
  destruct position as [[[s|] [e|]]|]; try by apply framed_ret.
  eapply framed_bind; [by apply framed_assign|]. intros _ _. by apply framed_ret.
Qed.

Section frame_of_handlers.
Variable one : Handle.
Hypothesis one_framed : handle_framed one.

Lemma framed_all_loop b children p5 schema result :
  framed b (λ _, True) (all_loop one children p5 schema result).
Proof.
  revert result. induction children as [|c rest IH]; intros result; simpl.
  - by apply framed_ret.
  - eapply framed_bind; [apply one_framed|]. intros [ch|] Hch; simpl.
    + eapply framed_bind; [apply framed_assign; by apply Hch|]. intros _ _.
      eapply framed_bind; [apply framed_log_parent|]. intros _ _. apply IH.
    + apply framed_throw.
Qed.

Lemma framed_all b children p5 schema :
  framed b (λ _, True) (all one children p5 schema).
Proof.
  destruct children; simpl; [apply framed_all_loop|by apply framed_ret].
Qed.

Lemma framed_root b node schema :
  framed b (λ o, ∀ r, o = Some r → b ≤ r) (root one node schema).
Proof.
  unfold root.
  eapply framed_bind; [apply framed_field|]. intros data _.
  eapply framed_bind; [apply framed_alloc|]. intros p5 Hp5.
  eapply framed_bind; [apply framed_field|]. intros children _.
  eapply framed_bind; [apply framed_all|]. intros cs _.
  eapply framed_bind; [by apply framed_assign|]. intros _ _.
  eapply framed_bind; [by apply framed_patch|]. intros r ->.
  apply framed_ret. by intros ? [= <-].
Qed.

Lemma framed_fragment b node schema :
  framed b (λ r, b ≤ r) (fragment one node schema).
Proof.
  unfold fragment.
  eapply framed_bind; [apply framed_alloc|]. intros p5 Hp5.
  destruct node as [node|]; [|apply framed_throw].
  eapply framed_bind; [apply framed_field|]. intros children _.
  eapply framed_bind; [apply framed_all|]. intros cs _.
  eapply framed_bind; [by apply framed_assign|]. intros _ _.
  eapply framed_conseq; [by apply framed_patch|]. by intros r ->.
Qed.

Lemma framed_h b node schema name attrs :
  framed b (λ rs, b ≤ rs.1) (h one node schema name attrs).
Proof.
  unfold h.
  eapply framed_bind; [apply framed_field|]. intros tagName _.
  eapply framed_bind; [apply framed_alloc|]. intros p5' Hp5.
  eapply framed_bind; [by apply framed_patch|]. intros p5 ->.
  eapply framed_bind; [apply framed_field|]. intros children _.
  eapply framed_bind; [apply framed_all|]. intros cs _.
  eapply framed_bind; [by apply framed_assign|]. intros _ _.
  eapply framed_bind with (Q := λ _, True).
  - destruct (String.eqb name "template"); [|by apply framed_ret].
    eapply framed_bind; [apply framed_field|]. intros content _.
    eapply framed_bind; [apply framed_fragment|]. intros c _.
    by apply framed_assign.
  - intros _ _. by apply framed_ret.
Qed.

Lemma framed_toH_probe b node n schema :
  framed b (λ _, True) (toH_probe (h one node) n schema).
Proof.
  revert schema. induction n as [|n IH]; intros schema; simpl.
  - by apply framed_ret.
  - eapply framed_bind; [apply framed_h|]. intros rs _. apply IH.
Qed.

Lemma framed_toH b node tree sp schema :
  framed b (λ r, b ≤ r) (toH (h one node) tree sp schema).
Proof.
  unfold toH.
  eapply framed_bind; [apply framed_toH_probe|]. intros s _.
  eapply framed_bind; [apply framed_field|]. intros t _.
  destruct t as [[]|]; try apply framed_throw.
  eapply framed_bind; [apply framed_h|]. intros rs Hrs. by apply framed_ret.
Qed.

Lemma framed_element b node schema :
  framed b (λ o, ∀ r, o = Some r → b ≤ r) (element one node schema).
Proof.
  unfold element.
  eapply framed_bind; [apply framed_field|]. intros n _.
  destruct n as [n|]; [|apply framed_throw].
  eapply framed_bind; [apply framed_alloc|]. intros copy _.
  eapply framed_bind; [apply framed_toH|]. intros r Hr.
  apply framed_ret. by intros ? [= <-].
Qed.
End frame_of_handlers.

Lemma framed_leaf b node (mk : JsString → P5) (get : M JsString) :
  framed b (λ _, True) get →
  framed b (λ o, ∀ r, o = Some r → b ≤ r)
    (v ← get; p5 ← alloc (OP5 (mk v)); r ← patch node p5; mret (Some r)).
Proof.
  intros Hget.
  eapply framed_bind; [apply Hget|]. intros v _.
  eapply framed_bind; [apply framed_alloc|]. intros p5 Hp5.
  eapply framed_bind; [by apply framed_patch|]. intros r ->.
  apply framed_ret. by intros ? [= <-].
Qed.

Lemma framed_zwitch b handlers value schema :
  (∀ id f, handler_for id handlers = Some f →
     framed b (λ o, ∀ r, o = Some r → b ≤ r) (f value schema)) →
  framed b (λ o, ∀ r, o = Some r → b ≤ r) (zwitch handlers None None value schema).
Proof.
  intros Hh. unfold zwitch.
  eapply framed_bind; [apply framed_field|]. intros [id|] _.
  - destruct (handler_for id handlers) as [f|] eqn:Hf; [by eapply Hh|].
    by apply framed_ret.
  - by apply framed_ret.
Qed.

Lemma one_framed fuel : handle_framed (one fuel).
Proof.
  induction fuel as [|fuel IH]; intros b l s; simpl.
  - apply framed_out_of_fuel.
  - apply framed_zwitch. intros id f. cbn [handler_for].
    destruct (String.eqb "root" id); [intros [= <-]; by apply framed_root|].
    destruct (String.eqb "element" id); [intros [= <-]; by apply framed_element|].
    destruct (String.eqb "text" id).
    { intros [= <-].
      apply (framed_leaf b l (λ v, mkP5 "#text" (KText v) None None None None)).
      apply framed_field. }
    destruct (String.eqb "comment" id).
    { intros [= <-].
      apply (framed_leaf b l (λ v, mkP5 "#comment" (KComment v) None None None None)).
      apply framed_field. }
    destruct (String.eqb "doctype" id); [intros [= <-]|discriminate].
    unfold doctype.
    eapply framed_bind; [apply framed_alloc|]. intros p5 Hp5.
    eapply framed_bind; [by apply framed_patch|]. intros r ->.
    apply framed_ret. by intros ? [= <-].
Qed.

(** * Reading the store *)

Lemma hast_at_agree os os' l :
  os' !! l = os !! l → hast_at os' l = hast_at os l.
Proof. unfold hast_at. by intros ->. Qed.

Lemma p5_at_agree os os' l :
  os' !! l = os !! l → p5_at os' l = p5_at os l.
Proof. unfold p5_at. by intros ->. Qed.

Lemma parent_at_agree os os' l :
  os' !! l = os !! l → parent_at os' l = parent_at os l.
Proof. unfold parent_at. by intros ->%p5_at_agree. Qed.

Lemma childNodes_at_agree os os' l :
  os' !! l = os !! l → childNodes_at os' l = childNodes_at os l.
Proof. unfold childNodes_at. by intros ->%p5_at_agree. Qed.

Lemma p5_at_lt os r p : p5_at os r = Some p → r < length os.
Proof.
  unfold p5_at. destruct (os !! r) eqn:E; [|done]. intros _.
  by eapply lookup_lt_Some.
Qed.

Lemma hast_at_lt os l n : hast_at os l = Some n → l < length os.
Proof.
  unfold hast_at. destruct (os !! l) eqn:E; [|done]. intros _.
  by eapply lookup_lt_Some.
Qed.

Lemma p5_at_lookup os r p : p5_at os r = Some p → os !! r = Some (OP5 p).
Proof. unfold p5_at. by destruct (os !! r) as [[]|]; intros [= ->]. Qed.

Lemma p5_at_insert os r p : r < length os → p5_at (<[r := OP5 p]> os) r = Some p.
Proof. intros Hr. unfold p5_at. by rewrite list_lookup_insert_eq. Qed.

Lemma p5_at_insert_ne os r a o : r ≠ a → p5_at (<[r := o]> os) a = p5_at os a.
Proof. intros Hr. apply p5_at_agree. by apply list_lookup_insert_ne. Qed.

Lemma hast_at_insert_p5 os r p l : hast_at os r = None → hast_at (<[r := OP5 p]> os) l = hast_at os l.
Proof.
  intros Hr. destruct (decide (r = l)) as [<-|Hne].
  - rewrite Hr. unfold hast_at.
    destruct (decide (r < length os)).
    + by rewrite list_lookup_insert_eq.
    + rewrite list_insert_ge by lia. apply Hr.
  - apply hast_at_agree. by apply list_lookup_insert_ne.
Qed.

Lemma p5_at_app_new os o : p5_at (os ++ [OP5 o]) (length os) = Some o.
Proof. unfold p5_at. by rewrite list_lookup_middle. Qed.

Lemma lookup_app_old (os : list Obj) o a : a < length os → (os ++ [o]) !! a = os !! a.
Proof. intros. by apply lookup_app_l. Qed.

(** * Closed stores and the verdict *)

Lemma closed_below_spec b os :
  closed_below b os = true ↔
  ∀ l n, l < b → hast_at os l = Some n → refs_below b n = true.
Proof.
  unfold closed_below. rewrite <-Is_true_true, forallb_True, Forall_lookup. split.
  - intros H l n Hl Hn. unfold hast_at in Hn.
    destruct (os !! l) as [[n'|p|n' fs]|] eqn:E; simplify_eq.
    + specialize (H l (OHast n)). rewrite lookup_take_lt in H by done.
      apply Is_true_true. by apply H.
    + specialize (H l (OHastAssigned n fs)). rewrite lookup_take_lt in H by done.
      apply Is_true_true. by apply H.
  - intros H l o Ho. apply lookup_take_Some in Ho as [Ho Hl].
    destruct o as [n|p|n fs]; [|done|]; (apply Is_true_true, (H l); [done|]);
      unfold hast_at; by rewrite Ho.
Qed.

Lemma refs_below_children b n c :
  refs_below b n = true → c ∈ default [] (children_of n) → c < b.
Proof.
  unfold refs_below. intros [[H _]%andb_true_iff _]%andb_true_iff Hc.
  rewrite <-Is_true_true, forallb_True, Forall_forall in H.
  specialize (H c Hc). by apply bool_decide_unpack in H.
Qed.

Lemma refs_below_content b n c :
  refs_below b n = true → content_of n = Some c → c < b.
Proof.
  unfold refs_below. intros [[_ H]%andb_true_iff _]%andb_true_iff Hc. rewrite Hc in H.
  by apply bool_decide_eq_true in H.
Qed.

Lemma refs_below_other b t : refs_below b (HOther t) = true → handled t = false.
Proof.
  unfold refs_below. intros [_ H]%andb_true_iff. by apply negb_true_iff in H.
Qed.

Lemma closed_below_agree b os os' :
  (∀ a, a < b → os' !! a = os !! a) →
  closed_below b os = true → closed_below b os' = true.
Proof.
  rewrite !closed_below_spec. intros Hag H l n Hl Hn.
  apply (H l); [done|]. by rewrite <-(hast_at_agree os os') by auto.
Qed.

Lemma predict_all_ext (f g : loc → Verdict) cs :
  (∀ c, c ∈ cs → f c = g c) → predict_all f cs = predict_all g cs.
Proof.
  induction cs as [|c cs IH]; intros H; simpl; [done|].
  rewrite (H c) by constructor. rewrite IH; [done|].
  intros; apply H; by constructor.
Qed.

Lemma predict_agree n b os os' l :
  (∀ a, a < b → os' !! a = os !! a) →
  closed_below b os = true → l < b →
  predict n os' l = predict n os l.
Proof.
  intros Hag Hcl. revert l. induction n as [|n IH]; intros l Hl; simpl; [done|].
  rewrite (hast_at_agree os os') by auto.
  destruct (hast_at os l) as [node|] eqn:Hn; [|done].
  pose proof (proj1 (closed_below_spec b os) Hcl l node Hl Hn) as Hrefs.
  assert (Hch : predict_all (predict n os') (default [] (children_of node))
                = predict_all (predict n os) (default [] (children_of node))).
  { apply predict_all_ext. intros c Hc. apply IH. by eapply refs_below_children. }
  destruct node as [d ch p|tag props ch ct p| | | |]; simpl in *; try done.
  rewrite Hch. clear Hch.
  destruct (predict_all (predict n os) (default [] ch)); try done.
  destruct (String.eqb tag "template"); [|done].
  destruct ct as [c|]; [|done].
  assert (c < b) by (by eapply refs_below_content).
  rewrite (hast_at_agree os os' c) by auto.
  apply predict_all_ext. intros c' Hc'. apply IH.
  destruct (hast_at os c) as [nc|] eqn:Hnc; [|by apply elem_of_nil in Hc'].
  pose proof (proj1 (closed_below_spec b os) Hcl c nc ltac:(done) Hnc).
  by eapply refs_below_children.
Qed.

(** * Moving [Converted] between stores *)

(** The fields of a produced object other than [parentNode]. *)
Definition core (p : P5) :=
  (nodeName p, kind p, childNodes p, content p, sourceCodeLocation p).

Lemma core_eq_inv os os' r p :
  core <$> p5_at os' r = core <$> p5_at os r → p5_at os r = Some p →
  ∃ p', p5_at os' r = Some p' ∧ nodeName p' = nodeName p ∧ kind p' = kind p ∧
        childNodes p' = childNodes p ∧ content p' = content p ∧
        sourceCodeLocation p' = sourceCodeLocation p.
Proof.
  intros Hc Hp. rewrite Hp in Hc. destruct (p5_at os' r) as [p'|]; [|done].
  exists p'. unfold core in Hc. simpl in Hc. by simplify_eq.
Qed.

Lemma Converted_lt n os b hi l s r : Converted n os b hi l s r → l < b ∧ b ≤ r ∧ r < hi.
Proof. destruct n; simpl; [done|]. tauto. Qed.

Lemma Converted_p5_at n os b hi l s r :
  Converted n os b hi l s r → ∃ p, p5_at os r = Some p.
Proof.
  destruct n; simpl; [done|]. intros (_ & _ & _ & node & _ & H).
  destruct node; try done; try (destruct H as (p & H); destruct H as (? & ?); eauto; fail).
  - destruct H as (p & cs & ? & _). eauto.
  - destruct H as (p & cs & ? & _). eauto.
Qed.

Lemma kids_transport (Conv Conv' : loc → Schema → loc → Prop) os os' hi r ch s cs :
  kids Conv os r ch s cs →
  (∀ c a, r < a → Conv c s a → a < hi ∧ Conv' c s a) →
  (∀ x, r < x → x < hi → os' !! x = os !! x) →
  kids Conv' os' r ch s cs.
Proof.
  unfold kids. intros H HC Hag. eapply Forall2_impl; [exact H|].
  intros c a (Hra & Hp & Hc). destruct (HC c a Hra Hc) as [Ha Hc'].
  repeat split; [done| |done]. rewrite <-Hp. apply parent_at_agree. auto.
Qed.

Lemma Converted_transport n os os' b hi hi' l s r :
  Converted n os b hi l s r → hi ≤ hi' →
  (∀ x, x < b → os' !! x = os !! x) →
  (∀ x, r < x → x < hi → os' !! x = os !! x) →
  core <$> p5_at os' r = core <$> p5_at os r →
  Converted n os' b hi' l s r.
Proof.
  revert l s r. induction n as [|n IH]; intros l s r; simpl; [done|].
  intros (Hl & Hb & Hr & node & Hnode & H) Hhi Hlow Hup Hcore.
  split; [done|]. split; [done|]. split; [lia|].
  exists node. split; [by rewrite (hast_at_agree os os') by auto|].
  assert (Hkids : ∀ r' ch s' cs, r ≤ r' →
            kids (Converted n os b hi) os r' ch s' cs →
            kids (Converted n os' b hi') os' r' ch s' cs).
  { intros r' ch s' cs Hr' Hk. eapply (kids_transport _ _ _ _ hi); [exact Hk| |].
    - intros c a Hra Hc. pose proof (Converted_lt _ _ _ _ _ _ _ Hc) as (? & ? & ?).
      split; [done|]. apply IH; [done|done|done| |].
      + intros x ? ?. apply Hup; lia.
      + f_equal. apply p5_at_agree, Hup; lia.
    - intros x ? ?. apply Hup; lia. }
  destruct node as [d ch p|tag props ch ct p|v p|v p|p|t]; try done.
  - destruct H as (q & cs & Hq & Hn & Hk & Hc & Hs & Hcs & Hkid).
    destruct (core_eq_inv _ _ _ _ Hcore Hq) as (q' & Hq' & ? & ? & ? & ? & ?).
    exists q', cs. repeat split; try congruence. by apply Hkids.
  - destruct H as (q & cs & Hq & Hn & Hk & Hs & Hcs & Hkid & Htpl).
    destruct (core_eq_inv _ _ _ _ Hcore Hq) as (q' & Hq' & ? & ? & ? & ? & ?).
    exists q', cs. repeat split; try congruence; [by apply Hkids|].
    destruct (String.eqb tag "template"); [|congruence].
    destruct Htpl as (c & f & Hct & Hcf & Hrf & Hc & Hf & pf & cs' & Hpf & Hfrag).
    exists c, f. repeat split; try congruence; [lia|].
    exists pf, cs'. rewrite (p5_at_agree os os') by (apply Hup; lia).
    rewrite (hast_at_agree os os') by auto.
    destruct Hfrag as (? & ? & ? & ? & ? & ? & Hk'). repeat split; try done.
    apply Hkids; [lia|done].
  - destruct H as (q & Hq & ? & ? & ? & ? & ?).
    destruct (core_eq_inv _ _ _ _ Hcore Hq) as (q' & Hq' & ? & ? & ? & ? & ?).
    exists q'. repeat split; congruence.
  - destruct H as (q & Hq & ? & ? & ? & ? & ?).
    destruct (core_eq_inv _ _ _ _ Hcore Hq) as (q' & Hq' & ? & ? & ? & ? & ?).
    exists q'. repeat split; congruence.
  - destruct H as (q & Hq & ? & ? & ? & ? & ?).
    destruct (core_eq_inv _ _ _ _ Hcore Hq) as (q' & Hq' & ? & ? & ? & ? & ?).
    exists q'. repeat split; congruence.
Qed.

Lemma Converted_agree n os os' b hi hi' l s r :
  Converted n os b hi l s r → hi ≤ hi' →
  (∀ x, x < hi → os' !! x = os !! x) →
  Converted n os' b hi' l s r.
Proof.
  intros H Hhi Hag. pose proof (Converted_lt _ _ _ _ _ _ _ H) as (? & ? & ?).
  eapply Converted_transport; [exact H|done| | |].
  - intros x ?. apply Hag. lia.
  - intros x ? ?. by apply Hag.
  - f_equal. by apply p5_at_agree, Hag.
Qed.

Lemma Converted_set_parent n os b hi l s r q p :
  Converted n os b hi l s r → p5_at os r = Some p →
  Converted n (<[r := OP5 (set_parentNode q p)]> os) b hi l s r.
Proof.
  intros H Hp. pose proof (Converted_lt _ _ _ _ _ _ _ H) as (? & ? & ?).
  eapply Converted_transport; [exact H|done| | |].
  - intros x ?. apply list_lookup_insert_ne. lia.
  - intros x ? ?. apply list_lookup_insert_ne. lia.
  - rewrite p5_at_insert by (by eapply p5_at_lt). by rewrite Hp.
Qed.

(** * Composing [Links] *)

Lemma Links_nil lo os : Links [] lo lo os [].
Proof.
  split; [constructor|]. split.
  - intros c p Hc. by apply elem_of_nil in Hc.
  - intros a p ?. lia.
Qed.

Lemma Links_pend_mono pend pend' lo hi os lg :
  Links pend lo hi os lg → pend ⊆ pend' → Links pend' lo hi os lg.
Proof.
  intros (Hnd & Hin & Hall) Hsub. split; [done|]. split; [|done].
  intros c p Hc. destruct (Hin c p Hc) as (? & ? & [?|?]); auto.
Qed.

Lemma Links_agree pend lo hi os os' lg :
  Links pend lo hi os lg →
  (∀ x, lo ≤ x < hi →
     parent_at os' x = parent_at os x ∧ childNodes_at os' x = childNodes_at os x) →
  Links pend lo hi os' lg.
Proof.
  intros (Hnd & Hin & Hall) Hag. split; [done|]. split.
  - intros c p Hc. destruct (Hin c p Hc) as (Hlt & Hp & Hor).
    split; [done|]. split; [by rewrite (proj1 (Hag c Hlt))|].
    destruct Hor as [?|(Hpl & cs & Hcs & ? & ?)]; [by left|right].
    split; [done|]. exists cs. by rewrite (proj2 (Hag p Hpl)).
  - intros a p Ha Hp. apply Hall; [done|]. by rewrite <-(proj1 (Hag a Ha)).
Qed.

Lemma Links_extend pend lo hi hi' os lg :
  Links pend lo hi os lg → hi ≤ hi' →
  (∀ x, hi ≤ x < hi' → parent_at os x = None) →
  Links pend lo hi' os lg.
Proof.
  intros (Hnd & Hin & Hall) Hhi Hnew. split; [done|]. split.
  - intros c p Hc. destruct (Hin c p Hc) as (Hlt & Hp & Hor).
    split; [lia|]. split; [done|].
    destruct Hor as [?|(Hpl & ?)]; [by left|right]. split; [lia|done].
  - intros a p Ha Hp. destruct (decide (a < hi)); [apply Hall; [lia|done]|].
    rewrite Hnew in Hp by lia. done.
Qed.

Lemma Links_app pend pend' lo mid hi os lg1 lg2 :
  Links pend lo mid os lg1 → Links pend' mid hi os lg2 → lo ≤ mid → mid ≤ hi →
  Links (pend ++ pend') lo hi os (lg1 ++ lg2).
Proof.
  intros (Hnd1 & Hin1 & Hall1) (Hnd2 & Hin2 & Hall2) Hlo Hhi. split; [|split].
  - rewrite fmap_app. apply NoDup_app. split; [done|]. split; [|done].
    intros c [[c1 p1] [-> Hc1]]%list_elem_of_fmap [[c2 p2] [Heq Hc2]]%list_elem_of_fmap.
    simpl in *. subst c2.
    destruct (Hin1 _ _ Hc1) as (? & _). destruct (Hin2 _ _ Hc2) as (? & _). lia.
  - intros c p [Hc|Hc]%elem_of_app.
    + destruct (Hin1 c p Hc) as (Hlt & Hp & Hor).
      split; [lia|]. split; [done|].
      destruct Hor as [?|(Hpl & ?)]; [left; apply elem_of_app; by left|right].
      split; [lia|done].
    + destruct (Hin2 c p Hc) as (Hlt & Hp & Hor).
      split; [lia|]. split; [done|].
      destruct Hor as [?|(Hpl & ?)]; [left; apply elem_of_app; by right|right].
      split; [lia|done].
  - intros a p Ha Hp. apply elem_of_app. destruct (decide (a < mid)).
    + left. apply Hall1; [lia|done].
    + right. apply Hall2; [lia|done].
Qed.

Lemma parent_at_set_parent os a q p :
  p5_at os a = Some p →
  parent_at (<[a := OP5 (set_parentNode q p)]> os) a = Some q.
Proof.
  intros Hp. unfold parent_at. by rewrite p5_at_insert by (by eapply p5_at_lt).
Qed.

Lemma childNodes_at_set_parent os a q p x :
  p5_at os a = Some p →
  childNodes_at (<[a := OP5 (set_parentNode q p)]> os) x = childNodes_at os x.
Proof.
  intros Hp. unfold childNodes_at. destruct (decide (a = x)) as [<-|Hne].
  - rewrite p5_at_insert by (by eapply p5_at_lt). by rewrite Hp.
  - by rewrite p5_at_insert_ne.
Qed.

Lemma Links_set_parent lo hi os lg a q p :
  Links [] lo hi os lg → lo ≤ a < hi →
  p5_at os a = Some p → parentNode p = None →
  Links [(a, q)] lo hi (<[a := OP5 (set_parentNode q p)]> os) (lg ++ [(a, q)]).
Proof.
  intros (Hnd & Hin & Hall) Ha Hp Hnone.
  assert (Hfresh : ∀ p', (a, p') ∉ lg).
  { intros p' Hc. destruct (Hin _ _ Hc) as (_ & Hpa & _).
    unfold parent_at in Hpa. rewrite Hp in Hpa. simpl in Hpa. congruence. }
  split; [|split].
  - rewrite fmap_app. apply NoDup_app. split; [done|]. split; [|apply NoDup_singleton].
    intros c [[c1 p1] [-> Hc1]]%list_elem_of_fmap Hc2. simpl in *.
    apply list_elem_of_singleton in Hc2. subst c1. by eapply Hfresh.
  - intros c p' [Hc|Hc]%elem_of_app.
    + destruct (Hin c p' Hc) as (Hlt & Hpc & Hor).
      assert (c ≠ a) by (intros ->; by eapply Hfresh).
      split; [done|]. split.
      { rewrite <-Hpc. apply parent_at_agree. by apply list_lookup_insert_ne. }
      destruct Hor as [Hnil|(Hpl & cs & Hcs & ? & ?)]; [by apply elem_of_nil in Hnil|].
      right. split; [done|]. exists cs. by rewrite (childNodes_at_set_parent _ _ _ p).
    + apply list_elem_of_singleton in Hc. simplify_eq.
      split; [done|]. split; [by apply parent_at_set_parent|].
      left. by apply list_elem_of_singleton.
  - intros x p' Hx Hpx. apply elem_of_app. destruct (decide (x = a)) as [->|Hne].
    + right. rewrite (parent_at_set_parent _ _ _ p) in Hpx by done.
      apply list_elem_of_singleton. congruence.
    + left. apply Hall; [done|]. rewrite <-Hpx. symmetry.
      apply parent_at_agree. by apply list_lookup_insert_ne.
Qed.


(** * Correctness of the handlers *)

(** [Φ] holds of the state and the outcome of running [m] from [σ]. *)
Definition wp {A} (m : M A) (σ : State) (Φ : State → Outcome A → Prop) : Prop :=
  Φ (m σ).1 (m σ).2.

Definition verdict_all {A} (o : Outcome A) : Verdict :=
  match o with
  | Ok _ => VNode
  | Throw e => VThrow e
  | OutOfFuel => VFuel
  end.

(** What a handler of depth [n] leaves behind for the source object [l]. *)
Definition handle_post (n : nat) (b : nat) (l : loc) (s : Schema) (σ : State)
    (σ' : State) (o : Outcome (option loc)) : Prop :=
  verdict_of o = predict n (objs σ) l ∧
  match o with
  | Ok (Some r) =>
      length (objs σ) ≤ r ∧
      parent_at (objs σ') r = None ∧
      Converted n (objs σ') b (length (objs σ')) l s r ∧
      ∃ lg, plog σ' = plog σ ++ lg ∧
            Links [] (length (objs σ)) (length (objs σ')) (objs σ') lg
  | Ok None => σ' = σ
  | _ => True
  end.

(** A handler of depth [n] is correct on the source objects below [b], when
    these are closed. *)
Definition handle_correct (n : nat) (one : Handle) : Prop :=
  ∀ b l s σ,
    closed_below b (objs σ) = true → l < b → b ≤ length (objs σ) →
    wp (one l s) σ (handle_post n b l s σ).

(** The verdict on [fragment(node.content, schema)]. *)
Definition predict_fragment (n : nat) (os : list Obj) (c : option loc) : Verdict :=
  match c with
  | None => VThrow TypeError_read_of_undefined
  | Some c => predict_all (predict n os) (default [] (hast_at os c ≫= children_of))
  end.

Definition fragment_post (n : nat) (b : nat) (c : option loc) (s : Schema) (σ : State)
    (σ' : State) (o : Outcome loc) : Prop :=
  verdict_all o = predict_fragment n (objs σ) c ∧
  match o with
  | Ok f =>
      length (objs σ) ≤ f ∧
      (∃ c', c = Some c' ∧
         fragment_of (Converted n (objs σ') b (length (objs σ'))) (objs σ')
                     b (length (objs σ')) c' s f) ∧
      ∃ lg, plog σ' = plog σ ++ lg ∧
            Links [] (length (objs σ)) (length (objs σ')) (objs σ') lg
  | _ => True
  end.

Lemma wp_framed {A} b (Q : A → Prop) (m : M A) σ :
  framed b Q m → b ≤ length (objs σ) →
  wp m σ (λ σ' o, preserves b σ σ' ∧ ∀ a, o = Ok a → Q a).
Proof. intros H Hb. apply (H σ Hb). Qed.

Lemma assign_run p5 f σ p :
  p5_at (objs σ) p5 = Some p →
  assign p5 f σ = (mkState (<[p5 := OP5 (f p)]> (objs σ)) (plog σ), Ok tt).
Proof. intros Hp. unfold assign. by rewrite (p5_at_lookup _ _ _ Hp). Qed.

Lemma parent_at_None_inv os a p :
  p5_at os a = Some p → parent_at os a = None → parentNode p = None.
Proof. unfold parent_at. by intros ->. Qed.

Lemma wp_bind {A B} (m : M A) (k : A → M B) σ Φ :
  wp m σ (λ σ1 o1, match o1 with
                   | Ok a => wp (k a) σ1 Φ
                   | Throw e => Φ σ1 (Throw e)
                   | OutOfFuel => Φ σ1 OutOfFuel
                   end) →
  wp (m ≫= k) σ Φ.
Proof. unfold wp. rewrite bind_run. by destruct (m σ) as [σ1 [a| |]]. Qed.

Lemma wp_mono {A} (m : M A) σ (Φ Ψ : State → Outcome A → Prop) :
  wp m σ Φ → (∀ σ' o, Φ σ' o → Ψ σ' o) → wp m σ Ψ.
Proof. unfold wp. auto. Qed.

Lemma wp_ret {A} (a : A) σ Φ : Φ σ (Ok a) → wp (mret a) σ Φ.
Proof. done. Qed.

Lemma wp_throw {A} e σ (Φ : State → Outcome A → Prop) : Φ σ (Throw e) → wp (throw e) σ Φ.
Proof. done. Qed.

Lemma wp_alloc o σ Φ :
  Φ (mkState (objs σ ++ [o]) (plog σ)) (Ok (length (objs σ))) → wp (alloc o) σ Φ.
Proof. done. Qed.

Lemma wp_field {A} (f : Hast → option A) node σ Φ :
  Φ σ (Ok (hast_at (objs σ) node ≫= f)) → wp (field f node) σ Φ.
Proof. done. Qed.

Lemma wp_assign p5 f σ q Φ :
  p5_at (objs σ) p5 = Some q →
  Φ (mkState (<[p5 := OP5 (f q)]> (objs σ)) (plog σ)) (Ok tt) →
  wp (assign p5 f) σ Φ.
Proof. intros Hq. unfold wp. by rewrite (assign_run _ _ _ _ Hq). Qed.

Lemma patch_run node p5 σ q :
  p5_at (objs σ) p5 = Some q →
  patch node p5 σ =
  (mkState (<[p5 := OP5 (patched (hast_at (objs σ) node ≫= position_of) q)]> (objs σ))
           (plog σ), Ok p5).
Proof.
  intros Hq. unfold patch. rewrite bind_run. cbn [field].
  assert (Hid : mkState (<[p5 := OP5 q]> (objs σ)) (plog σ) = σ).
  { rewrite list_insert_id by (by apply p5_at_lookup). by destruct σ. }
  unfold patched, location_of.
  destruct (hast_at (objs σ) node ≫= position_of) as [[[st|] [e|]]|];
    try (cbn; by rewrite Hid).
  rewrite bind_run, (assign_run _ _ _ q Hq). done.
Qed.

Lemma wp_patch node p5 σ q Φ :
  p5_at (objs σ) p5 = Some q →
  Φ (mkState (<[p5 := OP5 (patched (hast_at (objs σ) node ≫= position_of) q)]> (objs σ))
             (plog σ)) (Ok p5) →
  wp (patch node p5) σ Φ.
Proof. intros Hq. unfold wp. by rewrite (patch_run _ _ _ _ Hq). Qed.

Lemma patched_fields pos q :
  nodeName (patched pos q) = nodeName q ∧ kind (patched pos q) = kind q ∧
  childNodes (patched pos q) = childNodes q ∧ content (patched pos q) = content q ∧
  parentNode (patched pos q) = parentNode q.
Proof. unfold patched. by destruct (location_of pos). Qed.

Lemma patched_location pos q :
  sourceCodeLocation q = None → sourceCodeLocation (patched pos q) = location_of pos.
Proof. unfold patched. by destruct (location_of pos). Qed.

Lemma Links_update pend lo hi os lg r q q' :
  Links pend lo hi os lg → p5_at os r = Some q →
  parentNode q' = parentNode q → childNodes q' = childNodes q →
  Links pend lo hi (<[r := OP5 q']> os) lg.
Proof.
  intros HL Hq Hp Hc. eapply Links_agree; [exact HL|]. intros x _.
  unfold parent_at, childNodes_at. destruct (decide (r = x)) as [<-|Hne].
  - rewrite p5_at_insert by (by eapply p5_at_lt). rewrite Hq. simpl. by rewrite Hp, Hc.
  - by rewrite p5_at_insert_ne.
Qed.

Lemma kids_Converted_transport n os os' b hi hi' r ch s cs :
  kids (Converted n os b hi) os r ch s cs → b ≤ r → hi ≤ hi' →
  (∀ x, x < hi → x ≠ r → os' !! x = os !! x) →
  kids (Converted n os' b hi') os' r ch s cs.
Proof.
  intros Hk Hb Hhi Hag. eapply (kids_transport _ _ _ _ hi); [exact Hk| |].
  - intros c a Hra HC. pose proof (Converted_lt _ _ _ _ _ _ _ HC) as (? & ? & ?).
    split; [done|]. eapply Converted_transport; [exact HC|done| | |].
    + intros x ?. apply Hag; lia.
    + intros x ? ?. apply Hag; lia.
    + f_equal. apply p5_at_agree, Hag; lia.
  - intros x ? ?. apply Hag; lia.
Qed.

Lemma Links_resolve p5 hi os lg cs q :
  Links ((λ a, (a, p5)) <$> cs) (S p5) hi os lg → NoDup cs → p5 < hi →
  p5 < length os → parentNode q = None → childNodes q = Some cs →
  Links [] p5 hi (<[p5 := OP5 q]> os) lg.
Proof.
  intros (Hnd & Hin & Hall) Hcs Hhi Hlen Hnone Hq.
  split; [done|]. split.
  - intros c p Hc. destruct (Hin c p Hc) as (Hlt & Hpc & Hor).
    split; [lia|]. split.
    { rewrite <-Hpc. apply parent_at_agree. apply list_lookup_insert_ne. lia. }
    right. destruct Hor as [Hpend|(Hpl & cs' & Hcs' & ? & ?)].
    + apply list_elem_of_fmap in Hpend as (c' & [= -> ->] & Hc').
      split; [lia|]. exists cs. split; [|done].
      unfold childNodes_at. by rewrite p5_at_insert.
    + split; [lia|]. exists cs'. split; [|done].
      rewrite <-Hcs'. apply childNodes_at_agree. apply list_lookup_insert_ne. lia.
  - intros a p Ha Hpa. destruct (decide (a = p5)) as [->|Hne].
    + unfold parent_at in Hpa. rewrite p5_at_insert in Hpa by done.
      simpl in Hpa. congruence.
    + apply Hall; [lia|]. rewrite <-Hpa. symmetry.
      apply parent_at_agree. by apply list_lookup_insert_ne.
Qed.

Lemma fragment_of_Converted_transport n os os' b hi hi' c s f :
  fragment_of (Converted n os b hi) os b hi c s f → b ≤ f → hi ≤ hi' →
  (∀ x, x < hi → x < b ∨ f ≤ x → os' !! x = os !! x) →
  fragment_of (Converted n os' b hi') os' b hi' c s f.
Proof.
  intros (Hc & Hf & pf & cs & Hpf & Hn & Hk & Hct & Hpar & Hloc & Hcs & Hkids) Hb Hhi Hag.
  split; [done|]. split; [lia|]. exists pf, cs.
  rewrite (p5_at_agree os os') by (apply Hag; lia).
  rewrite (hast_at_agree os os') by (apply Hag; lia).
  repeat split; try done.
  eapply (kids_transport _ _ _ _ hi); [exact Hkids| |].
  - intros c' a Hfa HC. pose proof (Converted_lt _ _ _ _ _ _ _ HC) as (? & ? & ?).
    split; [done|]. eapply Converted_transport; [exact HC|done| | |].
    + intros x ?. apply Hag; lia.
    + intros x ? ?. apply Hag; lia.
    + f_equal. apply p5_at_agree, Hag; lia.
  - intros x ? ?. apply Hag; lia.
Qed.

Lemma wp_and {A} (m : M A) σ (Φ Ψ : State → Outcome A → Prop) :
  wp m σ Φ → wp m σ Ψ → wp m σ (λ σ' o, Φ σ' o ∧ Ψ σ' o).
Proof. unfold wp. auto. Qed.

(** The verdict on a call of [h] with the given [name]. *)
Definition predict_h (n : nat) (os : list Obj) (node : Hast) (name : string) : Verdict :=
  match predict_all (predict n os) (default [] (children_of node)) with
  | VNode =>
      if String.eqb name "template" then predict_fragment n os (content_of node)
      else VNode
  | v => v
  end.

Definition h_post (n : nat) (b : nat) (node : Hast) (s : Schema) (name : string)
    (attrs : Attrs) (σ : State) (σ' : State) (o : Outcome (loc * Schema)) : Prop :=
  verdict_all o = predict_h n (objs σ) node name ∧
  match o with
  | Ok (r, s') =>
      s' = switch_schema s (tagName_of node) ∧
      length (objs σ) ≤ r ∧
      parent_at (objs σ') r = None ∧
      r < length (objs σ') ∧
      built_by_h (Converted n (objs σ') b (length (objs σ'))) (objs σ')
                 b (length (objs σ')) node s name attrs r ∧
      ∃ lg, plog σ' = plog σ ++ lg ∧
            Links [] (length (objs σ)) (length (objs σ')) (objs σ') lg
  | _ => True
  end.

Lemma predict_children_agree n b os os' node :
  (∀ a, a < b → os' !! a = os !! a) →
  closed_below b os = true → refs_below b node = true →
  predict_all (predict n os') (default [] (children_of node))
  = predict_all (predict n os) (default [] (children_of node)).
Proof.
  intros Hag Hcl Hrefs.
  apply predict_all_ext. intros c Hc. apply (predict_agree n b os); [done|done|].
  by eapply refs_below_children.
Qed.

Lemma predict_fragment_agree n b os os' node :
  (∀ a, a < b → os' !! a = os !! a) →
  closed_below b os = true → refs_below b node = true →
  predict_fragment n os' (content_of node) = predict_fragment n os (content_of node).
Proof.
  intros Hag Hcl Hrefs.
  unfold predict_fragment. destruct (content_of node) as [c|] eqn:Hct; [|done].
  assert (c < b) by (by eapply refs_below_content).
  rewrite (hast_at_agree os os' c) by auto.
  apply predict_all_ext. intros c' Hc'. apply (predict_agree n b os); [done|done|].
  destruct (hast_at os c) as [nc|] eqn:Hnc; [|by apply elem_of_nil in Hc'].
  pose proof (proj1 (closed_below_spec b os) Hcl c nc ltac:(done) Hnc).
  by eapply refs_below_children.
Qed.

Lemma switch_schema_idem s t : switch_schema (switch_schema s t) t = switch_schema s t.
Proof.
  unfold switch_schema. destruct s; simpl; [|done].
  by destruct (bool_decide (t = Some "svg")).
Qed.

Lemma predict_h_div n os node :
  predict_h n os node "div" = predict_all (predict n os) (default [] (children_of node)).
Proof. unfold predict_h. simpl. by destruct (predict_all _ _). Qed.

Definition probe_post (n : nat) (node : Hast) (s : Schema) (k : nat) (σ : State)
    (σ' : State) (o : Outcome Schema) : Prop :=
  preserves (length (objs σ)) σ σ' ∧
  let Vc := predict_all (predict n (objs σ)) (default [] (children_of node)) in
  match o with
  | Ok s' =>
      (k = 0 ∨ Vc = VNode) ∧
      s' = match k with 0 => s | S _ => switch_schema s (tagName_of node) end ∧
      ∃ lg, plog σ' = plog σ ++ lg ∧
            Links [] (length (objs σ)) (length (objs σ')) (objs σ') lg
  | Throw e => Vc = VThrow e
  | OutOfFuel => Vc = VFuel
  end.

Section correctness_of_handlers.
Variable n : nat.
Variable one : Handle.
Hypothesis one_framed : handle_framed one.
Hypothesis one_correct : handle_correct n one.

Lemma all_loop_correct b p5 s children : ∀ done result lg0 σ,
  closed_below b (objs σ) = true →
  Forall (λ c, c < b) children →
  b ≤ p5 → p5 < length (objs σ) →
  Forall2 (λ c a, p5 < a ∧ parent_at (objs σ) a = Some p5 ∧
                  Converted n (objs σ) b (length (objs σ)) c s a) done result →
  NoDup result →
  Links ((λ a, (a, p5)) <$> result) (S p5) (length (objs σ)) (objs σ) lg0 →
  wp (all_loop one children p5 s result) σ (λ σ' o,
    preserves (length (objs σ)) σ σ' ∧
    verdict_all o = predict_all (predict n (objs σ)) children ∧
    match o with
    | Ok cs =>
        Forall2 (λ c a, p5 < a ∧ parent_at (objs σ') a = Some p5 ∧
                        Converted n (objs σ') b (length (objs σ')) c s a)
                (done ++ children) cs ∧
        NoDup cs ∧
        ∃ lg, plog σ' = plog σ ++ lg ∧
              Links ((λ a, (a, p5)) <$> cs) (S p5) (length (objs σ')) (objs σ')
                    (lg0 ++ lg)
    | _ => True
    end).
Proof.
  induction children as [|c rest IH]; intros done result lg0 σ Hcl Hch Hb Hp5 Hdone Hnd HL.
  { unfold wp; simpl. split; [apply preserves_refl|]. split; [done|].
    rewrite app_nil_r. split; [done|]. split; [done|].
    exists []. by rewrite !app_nil_r. }
  apply Forall_cons in Hch as [Hc Hrest].
  pose proof (one_correct b c s σ Hcl Hc ltac:(lia)) as H1.
  pose proof (one_framed (length (objs σ)) c s σ ltac:(lia)) as [Hpres1 _].
  unfold wp, handle_post in *. cbn [all_loop]. rewrite bind_run.
  destruct (one c s σ) as [σ1 [[a|]| |]]; cbn [fst snd] in *.
  2:{ destruct H1 as [Hv ->]. simpl. rewrite <-Hv. simpl.
      split; [apply preserves_refl|done]. }
  2:{ destruct H1 as [Hv _]. simpl. rewrite <-Hv. simpl. done. }
  2:{ destruct H1 as [Hv _]. simpl. rewrite <-Hv. simpl. done. }
  destruct H1 as (Hv & Ha & Hpa & HC & lg1 & Hlog1 & HL1).
  destruct Hpres1 as (Hlen1 & Hag1 & _).
  destruct (Converted_p5_at _ _ _ _ _ _ _ HC) as [pa Hpa'].
  pose proof (Converted_lt _ _ _ _ _ _ _ HC) as (_ & _ & Ha1).
  rewrite bind_run, (assign_run _ _ _ pa Hpa'). rewrite bind_run. cbn [log_parent].
  set (os3 := <[a:=OP5 (set_parentNode p5 pa)]> (objs σ1)).
  assert (Hlen3 : length os3 = length (objs σ1)) by apply length_insert.
  assert (Hag3 : ∀ x, x < length (objs σ) → os3 !! x = objs σ !! x).
  { intros x Hx. unfold os3. rewrite list_lookup_insert_ne by lia. by apply Hag1. }
  specialize (IH (done ++ [c]) (result ++ [a]) (lg0 ++ lg1 ++ [(a, p5)])
                 (mkState os3 (plog σ1 ++ [(a, p5)]))).
  cbn [objs plog] in IH. rewrite Hlen3 in IH.
  assert (Hold : Forall (λ a', a' < length (objs σ)) result).
  { clear -Hdone. induction Hdone as [|???? (_ & _ & HCx) _ IHx]; constructor; [|done].
    by apply Converted_lt in HCx as (_ & _ & ?). }
  destruct IH as (Hpres & Hverd & Hok).
  - apply (closed_below_agree b (objs σ)); [|done]. intros x Hx. apply Hag3. lia.
  - done.
  - done.
  - lia.
  - apply Forall2_app.
    + eapply Forall2_impl; [exact Hdone|]. intros c' a' (? & Hp' & HC').
      pose proof (Converted_lt _ _ _ _ _ _ _ HC') as (_ & _ & ?).
      split; [done|]. split.
      * rewrite <-Hp'. apply parent_at_agree. by apply Hag3.
      * eapply Converted_agree; [exact HC'|lia|]. intros x Hx. by apply Hag3.
    + constructor; [|constructor]. split; [lia|]. split.
      * by apply parent_at_set_parent.
      * by apply Converted_set_parent.
  - apply NoDup_app. split; [done|]. split; [|apply NoDup_singleton].
    intros x Hx ->%list_elem_of_singleton.
    rewrite Forall_forall in Hold. specialize (Hold _ Hx). lia.
  - rewrite fmap_app. simpl.
    eapply Links_app with (mid := length (objs σ)); [| |lia|lia].
    + eapply Links_agree; [exact HL|]. intros x Hx.
      split; [apply parent_at_agree|apply childNodes_at_agree]; apply Hag3; lia.
    + apply Links_set_parent; [done|lia|done|]. by eapply parent_at_None_inv.
  - destruct (all_loop one rest p5 s (result ++ [a]) _) as [σ' o]; cbn [fst snd] in *.
    split; [|split].
    + destruct Hpres as (Hl & Hag & Hpre). cbn [objs plog] in *.
      split; [lia|]. split.
      * intros x Hx. rewrite Hag by lia. by apply Hag3.
      * etrans; [|exact Hpre]. rewrite Hlog1, <-app_assoc. by apply prefix_app_r.
    + rewrite Hverd. simpl. rewrite <-Hv.
      apply predict_all_ext. intros c' Hc'.
      rewrite Forall_forall in Hrest.
      apply (predict_agree n b (objs σ)); [|done|by apply Hrest].
      intros x Hx. apply Hag3. lia.
    + destruct o as [cs| |]; [|done|done].
      destruct Hok as (HF & Hnd' & lg & Hlog & HL').
      split; [by rewrite <-app_assoc in HF|]. split; [done|].
      exists (lg1 ++ [(a, p5)] ++ lg). split.
      * rewrite Hlog, Hlog1. by rewrite <-!app_assoc.
      * by rewrite <-!app_assoc in HL'.
Qed.
Lemma all_correct b p5 s children σ :
  closed_below b (objs σ) = true →
  Forall (λ c, c < b) (default [] children) →
  b ≤ p5 → length (objs σ) = S p5 →
  wp (all one children p5 s) σ (λ σ' o,
    preserves (S p5) σ σ' ∧
    verdict_all o = predict_all (predict n (objs σ)) (default [] children) ∧
    match o with
    | Ok cs =>
        kids (Converted n (objs σ') b (length (objs σ'))) (objs σ') p5 children s cs ∧
        NoDup cs ∧
        ∃ lg, plog σ' = plog σ ++ lg ∧
              Links ((λ a, (a, p5)) <$> cs) (S p5) (length (objs σ')) (objs σ') lg
    | _ => True
    end).
Proof.
  intros Hcl Hch Hb Hlen. destruct children as [cs|]; simpl.
  - eapply wp_mono.
    + apply (all_loop_correct b p5 s cs [] [] []); try done; try lia.
      * constructor.
      * rewrite Hlen. apply Links_nil.
    + simpl. intros σ' o (Hpres & Hv & Hok). rewrite Hlen in Hpres. done.
  - apply wp_ret. split; [apply preserves_refl|]. split; [done|].
    split; [constructor|]. split; [constructor|].
    exists []. rewrite app_nil_r. split; [done|]. rewrite Hlen. apply Links_nil.
Qed.

(** The part that [root], [fragment] and [h] share: convert the children
    of [node] and assign them to the fresh parent [p5]. *)
Lemma wp_fill {A} b node p5 s (rest : M A) σ q0 (Φ : State → Outcome A → Prop) :
  closed_below b (objs σ) = true → node < b → b ≤ p5 →
  length (objs σ) = S p5 →
  p5_at (objs σ) p5 = Some q0 → parentNode q0 = None →
  let children := hast_at (objs σ) node ≫= children_of in
  let V := predict_all (predict n (objs σ)) (default [] children) in
  (∀ σ' e, preserves p5 σ σ' → V = VThrow e → Φ σ' (Throw e)) →
  (∀ σ', preserves p5 σ σ' → V = VFuel → Φ σ' OutOfFuel) →
  (∀ σ3 cs lg,
     V = VNode → preserves p5 σ σ3 →
     closed_below b (objs σ3) = true →
     p5_at (objs σ3) p5 = Some (set_childNodes cs q0) →
     kids (Converted n (objs σ3) b (length (objs σ3))) (objs σ3) p5 children s cs →
     plog σ3 = plog σ ++ lg →
     Links [] p5 (length (objs σ3)) (objs σ3) lg →
     wp rest σ3 Φ) →
  wp (children ← field children_of node;
      cs ← all one children p5 s;
      assign p5 (set_childNodes cs);; rest) σ Φ.
Proof.
  intros Hcl Hnode Hb Hlen Hq0 Hnone children V Hthrow Hfuel Hok.
  apply wp_bind, wp_field. fold children.
  assert (Hch : Forall (λ c, c < b) (default [] children)).
  { apply Forall_forall. intros c Hc. unfold children in Hc.
    destruct (hast_at (objs σ) node) as [nd|] eqn:Hnd; [|by apply elem_of_nil in Hc].
    eapply refs_below_children; [|exact Hc].
    by apply (proj1 (closed_below_spec b (objs σ)) Hcl node). }
  apply wp_bind. eapply wp_mono; [by apply (all_correct b p5 s children σ)|].
  cbv beta. intros σ2 o (Hpres & Hv & Hres). fold V in Hv.
  assert (Hpres' : preserves p5 σ σ2) by (eapply preserves_weaken; [|exact Hpres]; lia).
  destruct o as [cs|e|]; [|by apply Hthrow|by apply Hfuel].
  destruct Hres as (Hkids & Hnd & lg & Hlog & HL).
  destruct Hpres as (Hl2 & Hag2 & Hpre2).
  assert (Hq2 : p5_at (objs σ2) p5 = Some q0).
  { rewrite <-Hq0. apply p5_at_agree, Hag2. lia. }
  apply wp_bind. eapply wp_assign; [exact Hq2|].
  apply Hok with (cs := cs) (lg := lg); cbn [objs plog].
  - done.
  - destruct Hpres' as (? & Hag & ?). unfold preserves; cbn [objs plog].
    split; [by rewrite length_insert|]. split; [|done].
    intros x Hx. rewrite list_lookup_insert_ne by lia. by apply Hag.
  - apply (closed_below_agree b (objs σ)); [|done]. intros x Hx.
    rewrite list_lookup_insert_ne by lia. apply Hag2. lia.
  - apply p5_at_insert. lia.
  - rewrite length_insert.
    eapply kids_Converted_transport; [exact Hkids|done|done|].
    intros x ? ?. by apply list_lookup_insert_ne.
  - done.
  - rewrite length_insert. apply Links_resolve with (cs := cs); try done; lia.
Qed.

Lemma root_correct b l s σ data children position :
  closed_below b (objs σ) = true → l < b → b ≤ length (objs σ) →
  hast_at (objs σ) l = Some (HRoot data children position) →
  wp (root one l s) σ (handle_post (S n) b l s σ).
Proof.
  intros Hcl Hl Hb Hnode. unfold root.
  apply wp_bind, wp_field. rewrite Hnode. cbn [mbind option_bind data_of].
  apply wp_bind, wp_alloc. cbv beta iota.
  set (doc := mkP5 "#document" (KDocument (mode_of data)) (Some []) None None None).
  set (p5 := length (objs σ)).
  set (σ1 := mkState (objs σ ++ [OP5 doc]) (plog σ)).
  assert (Hag1 : ∀ x, x < p5 → objs σ1 !! x = objs σ !! x).
  { intros x Hx. by apply lookup_app_l. }
  assert (Hnode1 : hast_at (objs σ1) l = Some (HRoot data children position)).
  { rewrite <-Hnode. apply hast_at_agree, Hag1. unfold p5. lia. }
  assert (Hcl1 : closed_below b (objs σ1) = true).
  { apply (closed_below_agree b (objs σ)); [|done]. intros x Hx. apply Hag1. unfold p5; lia. }
  assert (HV : predict_all (predict n (objs σ1)) (default [] children)
               = predict (S n) (objs σ) l).
  { simpl. rewrite Hnode. apply predict_all_ext. intros c Hc.
    apply (predict_agree n b (objs σ)); [|done|].
    - intros x Hx. apply Hag1. unfold p5; lia.
    - apply (refs_below_children b (HRoot data children position)); [|exact Hc].
      by apply (proj1 (closed_below_spec b (objs σ)) Hcl l). }
  apply (wp_fill b l p5 s _ σ1 doc); try done.
  - simpl. rewrite length_app. simpl. unfold p5. lia.
  - apply p5_at_app_new.
  - rewrite Hnode1. cbn [mbind option_bind children_of]. rewrite HV.
    intros σ' e _ He. split; [done|done].
  - rewrite Hnode1. cbn [mbind option_bind children_of]. rewrite HV.
    intros σ' _ He. split; [done|done].
  - rewrite Hnode1. cbn [mbind option_bind children_of]. rewrite HV.
    intros σ3 cs lg HVn (Hl3 & Hag3 & _) Hcl3 Hq3 Hkids Hlog HL.
    assert (Hnode3 : hast_at (objs σ3) l = Some (HRoot data children position)).
    { rewrite <-Hnode1. apply hast_at_agree, Hag3. unfold p5. lia. }
    apply wp_bind. eapply wp_patch; [exact Hq3|].
    apply wp_ret. rewrite Hnode3. cbn [mbind option_bind position_of].
    destruct (patched_fields position (set_childNodes cs doc)) as (Hf1 & Hf2 & Hf3 & Hf4 & Hf5).
    pose proof (patched_location position (set_childNodes cs doc) eq_refl) as Hf6.
    set (q := patched position (set_childNodes cs doc)) in *.
    assert (Hp5 : p5 < length (objs σ3)) by (by eapply p5_at_lt).
    split; [done|]. cbn [objs plog]. rewrite length_insert.
    split; [done|]. split.
    { unfold parent_at. rewrite p5_at_insert by done. exact Hf5. }
    split.
    + cbn [Converted]. split; [done|]. split; [unfold p5; lia|]. split; [done|].
      exists (HRoot data children position). split.
      { rewrite <-Hnode3. apply hast_at_agree, list_lookup_insert_ne. unfold p5. lia. }
      exists q, cs. rewrite p5_at_insert by done.
      split; [done|]. split; [exact Hf1|]. split; [exact Hf2|].
      split; [exact Hf4|]. split; [exact Hf6|].
      split; [exact Hf3|].
      eapply kids_Converted_transport; [exact Hkids|unfold p5; lia|done|].
      intros x ? ?. by apply list_lookup_insert_ne.
    + exists lg. split; [done|]. by eapply Links_update.
Qed.

Lemma fragment_correct b c s σ :
  closed_below b (objs σ) = true → (∀ c', c = Some c' → c' < b) →
  b ≤ length (objs σ) →
  wp (fragment one c s) σ (fragment_post n b c s σ).
Proof.
  intros Hcl Hc Hb. unfold fragment.
  apply wp_bind, wp_alloc. cbv beta iota.
  destruct c as [c|]; [|by apply wp_throw].
  specialize (Hc c eq_refl).
  set (frag := mkP5 "#document-fragment" KFragment (Some []) None None None).
  set (p5 := length (objs σ)).
  set (σ1 := mkState (objs σ ++ [OP5 frag]) (plog σ)).
  assert (Hag1 : ∀ x, x < p5 → objs σ1 !! x = objs σ !! x).
  { intros x Hx. by apply lookup_app_l. }
  assert (Hnode1 : hast_at (objs σ1) c = hast_at (objs σ) c).
  { apply hast_at_agree, Hag1. unfold p5. lia. }
  assert (Hcl1 : closed_below b (objs σ1) = true).
  { apply (closed_below_agree b (objs σ)); [|done]. intros x Hx. apply Hag1. unfold p5; lia. }
  assert (HV : predict_all (predict n (objs σ1))
                 (default [] (hast_at (objs σ) c ≫= children_of))
               = predict_fragment n (objs σ) (Some c)).
  { simpl. apply predict_all_ext. intros c' Hc'.
    apply (predict_agree n b (objs σ)); [|done|].
    - intros x Hx. apply Hag1. unfold p5; lia.
    - destruct (hast_at (objs σ) c) as [nc|] eqn:Hnc; [|by apply elem_of_nil in Hc'].
      eapply refs_below_children; [|exact Hc'].
      by apply (proj1 (closed_below_spec b (objs σ)) Hcl c). }
  apply (wp_fill b c p5 s _ σ1 frag); try done.
  - simpl. rewrite length_app. simpl. unfold p5. lia.
  - apply p5_at_app_new.
  - rewrite Hnode1, HV. intros σ' e _ He. split; [done|done].
  - rewrite Hnode1, HV. intros σ' _ He. split; [done|done].
  - rewrite Hnode1, HV.
    intros σ3 cs lg HVn (Hl3 & Hag3 & _) Hcl3 Hq3 Hkids Hlog HL.
    assert (Hnode3 : hast_at (objs σ3) c = hast_at (objs σ) c).
    { rewrite <-Hnode1. apply hast_at_agree, Hag3. unfold p5. lia. }
    eapply wp_patch; [exact Hq3|]. rewrite Hnode3.
    destruct (patched_fields (hast_at (objs σ) c ≫= position_of) (set_childNodes cs frag))
      as (Hf1 & Hf2 & Hf3 & Hf4 & Hf5).
    pose proof (patched_location (hast_at (objs σ) c ≫= position_of)
                  (set_childNodes cs frag) eq_refl) as Hf6.
    set (q := patched (hast_at (objs σ) c ≫= position_of) (set_childNodes cs frag)) in *.
    assert (Hp5 : p5 < length (objs σ3)) by (by eapply p5_at_lt).
    assert (Hnode4 : hast_at (<[p5:=OP5 q]> (objs σ3)) c = hast_at (objs σ) c).
    { rewrite <-Hnode3. apply hast_at_agree, list_lookup_insert_ne. unfold p5. lia. }
    split; [done|]. cbn [objs plog]. rewrite length_insert.
    split; [done|]. split.
    + exists c. split; [done|]. split; [done|]. split; [done|].
      exists q, cs. rewrite p5_at_insert by done. rewrite Hnode4.
      split; [done|]. split; [exact Hf1|]. split; [exact Hf2|].
      split; [exact Hf4|]. split; [exact Hf5|].
      split; [exact Hf6|].
      split; [exact Hf3|].
      eapply kids_Converted_transport; [exact Hkids|unfold p5; lia|done|].
      intros x ? ?. by apply list_lookup_insert_ne.
    + exists lg. split; [done|]. by eapply Links_update.
Qed.

Lemma h_correct b l s name attrs σ node :
  closed_below b (objs σ) = true → l < b → b ≤ length (objs σ) →
  hast_at (objs σ) l = Some node →
  wp (h one l s name attrs) σ (h_post n b node s name attrs σ).
Proof.
  intros Hcl Hl Hb Hnode. unfold h.
  pose proof (proj1 (closed_below_spec b (objs σ)) Hcl l node Hl Hnode) as Hrefs.
  apply wp_bind, wp_field. rewrite Hnode. cbn [mbind option_bind]. cbv beta iota zeta.
  set (s' := switch_schema s (tagName_of node)).
  apply wp_bind, wp_alloc. cbv beta iota.
  set (lit := mkP5 name (KElement name (h_values s attrs) (ns (space s')))
                   (Some []) None None None).
  set (p5 := length (objs σ)).
  set (os1 := objs σ ++ [OP5 lit]).
  assert (Hag1 : ∀ x, x < p5 → os1 !! x = objs σ !! x).
  { intros x Hx. by apply lookup_app_l. }
  assert (Hnode1 : hast_at os1 l = Some node).
  { rewrite <-Hnode. apply hast_at_agree, Hag1. unfold p5. lia. }
  apply wp_bind. eapply wp_patch; [apply p5_at_app_new|]. cbn [objs plog]. fold os1.
  rewrite Hnode1. cbn [mbind option_bind]. cbv beta iota.
  destruct (patched_fields (position_of node) lit) as (Hf1 & Hf2 & Hf3 & Hf4 & Hf5).
  pose proof (patched_location (position_of node) lit eq_refl) as Hf6.
  set (q0 := patched (position_of node) lit) in *.
  set (σ2 := mkState (<[p5:=OP5 q0]> os1) (plog σ)).
  assert (Hlen1 : length os1 = S p5).
  { unfold os1. rewrite length_app. simpl. unfold p5. lia. }
  assert (Hag2 : ∀ x, x < p5 → objs σ2 !! x = objs σ !! x).
  { intros x Hx. cbn [objs σ2]. rewrite list_lookup_insert_ne by lia. by apply Hag1. }
  assert (Hnode2 : hast_at (objs σ2) l = Some node).
  { rewrite <-Hnode. apply hast_at_agree, Hag2. unfold p5. lia. }
  assert (Hcl2 : closed_below b (objs σ2) = true).
  { apply (closed_below_agree b (objs σ)); [|done]. intros x Hx. apply Hag2. unfold p5; lia. }
  assert (HVc : ∀ os', (∀ x, x < p5 → os' !! x = objs σ !! x) →
               predict_all (predict n os') (default [] (children_of node))
               = predict_all (predict n (objs σ)) (default [] (children_of node))).
  { intros os' Hag. apply (predict_children_agree n b (objs σ)); [|done|done].
    intros x Hx. apply Hag. unfold p5; lia. }
  assert (HVf : ∀ os', (∀ x, x < p5 → os' !! x = objs σ !! x) →
               predict_fragment n os' (content_of node)
               = predict_fragment n (objs σ) (content_of node)).
  { intros os' Hag. apply (predict_fragment_agree n b (objs σ)); [|done|done].
    intros x Hx. apply Hag. unfold p5; lia. }
  pose proof (HVc _ Hag2) as HV2.
  apply (wp_fill b l p5 s' _ σ2 q0); try done.
  - cbn [objs σ2]. by rewrite length_insert.
  - cbn [objs σ2]. apply p5_at_insert. lia.
  - rewrite Hnode2. cbn [mbind option_bind].
    intros σ' e _ He. split; [|done]. unfold predict_h. rewrite <-HV2, He. done.
  - rewrite Hnode2. cbn [mbind option_bind].
    intros σ' _ He. split; [|done]. unfold predict_h. rewrite <-HV2, He. done.
  - rewrite Hnode2. cbn [mbind option_bind].
    intros σ3 cs lg HVn (Hl3 & Hag3 & _) Hcl3 Hq3 Hkids Hlog HL.
    rewrite HVn in HV2.
    assert (Hp5 : p5 < length (objs σ3)) by (by eapply p5_at_lt).
    assert (Hag3' : ∀ x, x < p5 → objs σ3 !! x = objs σ !! x).
    { intros x Hx. rewrite Hag3 by done. by apply Hag2. }
    assert (Hnode3 : hast_at (objs σ3) l = Some node).
    { rewrite <-Hnode. apply hast_at_agree, Hag3'. unfold p5. lia. }
    apply wp_bind.
    destruct (String.eqb name "template") eqn:Htpl.
    + apply wp_bind, wp_field. rewrite Hnode3. cbn [mbind option_bind].
      apply wp_bind. eapply wp_mono.
      { apply wp_and.
        - apply (fragment_correct b (content_of node) s' σ3); [done| |lia].
          intros c' Hc'. by eapply refs_below_content.
        - apply (wp_framed (length (objs σ3))); [apply framed_fragment, one_framed|done]. }
      cbv beta. intros σ4 o ((Hv4 & Hres) & (Hl4 & Hag4 & _) & _).
      assert (Hpf : predict_fragment n (objs σ3) (content_of node)
                    = predict_h n (objs σ) node name).
      { unfold predict_h. rewrite <-HV2, Htpl. by apply HVf. }
      destruct o as [f|e|]; [|split; [by rewrite <-Hpf, <-Hv4|done]
                              |split; [by rewrite <-Hpf, <-Hv4|done]].
      destruct Hres as (Hf & (c & Hct & Hfrag) & lgf & Hlogf & HLf).
      assert (Hq4 : p5_at (objs σ4) p5 = Some (set_childNodes cs q0)).
      { rewrite <-Hq3. apply p5_at_agree, Hag4. done. }
      eapply wp_assign; [exact Hq4|]. apply wp_ret.
      split; [by rewrite <-Hpf, <-Hv4|]. cbn [objs plog]. rewrite length_insert.
      assert (Hp5' : p5 < length (objs σ4)) by lia.
      split; [done|]. split; [done|]. split.
      { unfold parent_at. rewrite p5_at_insert by done. exact Hf5. }
      split; [done|]. split.
      * exists (set_content f (set_childNodes cs q0)), cs.
        rewrite p5_at_insert by done. fold s'.
        split; [done|]. split; [exact Hf1|]. split; [exact Hf2|].
        split; [exact Hf6|]. split; [done|]. split.
        { eapply kids_Converted_transport; [exact Hkids|unfold p5; lia|done|].
          intros x ? ?. rewrite list_lookup_insert_ne by done. by apply Hag4. }
        rewrite Htpl. exists c, f. split; [done|]. split; [done|]. split; [lia|].
        eapply fragment_of_Converted_transport; [exact Hfrag|lia|done|].
        intros x ? ?. apply list_lookup_insert_ne. unfold p5. lia.
      * exists (lg ++ lgf). split; [by rewrite Hlogf, Hlog, app_assoc|].
        eapply Links_update; [|exact Hq4|done|done].
        rewrite <-(app_nil_r []).
        eapply Links_app with (mid := length (objs σ3)); [|exact HLf|lia|lia].
        eapply Links_agree; [exact HL|]. intros x Hx.
        split; [apply parent_at_agree|apply childNodes_at_agree]; apply Hag4; lia.
    + apply wp_ret, wp_ret.
      split; [unfold predict_h; by rewrite <-HV2, Htpl|].
      split; [done|]. split; [done|]. split.
      { unfold parent_at. rewrite Hq3. exact Hf5. }
      split; [done|]. split.
      * exists (set_childNodes cs q0), cs. fold s'.
        split; [done|]. split; [exact Hf1|]. split; [exact Hf2|].
        split; [exact Hf6|]. split; [done|]. split; [done|].
        rewrite Htpl. exact Hf4.
      * exists lg. done.
Qed.

Lemma toH_probe_correct b l node k : ∀ s σ,
  closed_below b (objs σ) = true → l < b → b ≤ length (objs σ) →
  hast_at (objs σ) l = Some node →
  wp (toH_probe (h one l) k s) σ (probe_post n node s k σ).
Proof.
  induction k as [|k IH]; intros s σ Hcl Hl Hb Hnode; cbn [toH_probe].
  { apply wp_ret. split; [apply preserves_refl|]. cbv zeta.
    split; [by left|]. split; [done|]. exists []. rewrite app_nil_r.
    split; [done|apply Links_nil]. }
  pose proof (proj1 (closed_below_spec b (objs σ)) Hcl l node Hl Hnode) as Hrefs.
  apply wp_bind. eapply wp_mono.
  { apply wp_and.
    - by apply (h_correct b l s "div" [] σ node).
    - apply (wp_framed (length (objs σ))); [apply framed_h, one_framed|done]. }
  cbv beta. intros σ1 o ((Hv & Hres) & Hpres1 & _).
  rewrite predict_h_div in Hv.
  destruct o as [[r s1]|e|]; [|split; [done|by rewrite <-Hv]
                               |split; [done|by rewrite <-Hv]].
  destruct Hres as (-> & Hr & _ & _ & _ & lg1 & Hlog1 & HL1). cbn [snd].
  pose proof Hpres1 as (Hl1 & Hag1 & Hpre1).
  assert (Hcl1 : closed_below b (objs σ1) = true).
  { apply (closed_below_agree b (objs σ)); [|done]. intros x Hx. apply Hag1. lia. }
  assert (Hnode1 : hast_at (objs σ1) l = Some node).
  { rewrite <-Hnode. apply hast_at_agree, Hag1. lia. }
  assert (HVc : predict_all (predict n (objs σ1)) (default [] (children_of node))
                = predict_all (predict n (objs σ)) (default [] (children_of node))).
  { apply (predict_children_agree n b (objs σ)); [|done|done].
    intros x Hx. apply Hag1. lia. }
  eapply wp_mono; [apply (IH _ σ1); [done|done|lia|done]|].
  cbv beta. intros σ2 o (Hpres2 & Hres2). cbv zeta in Hres2. rewrite HVc in Hres2.
  split; [eapply preserves_trans; [exact Hpres1|]; eapply preserves_weaken; [|exact Hpres2]; lia|].
  cbv zeta. destruct o as [s2|e|]; [|done|done].
  destruct Hres2 as (_ & -> & lg2 & Hlog2 & HL2).
  split; [by right|]. split.
  { destruct k; [done|]. by rewrite switch_schema_idem. }
  exists (lg1 ++ lg2). split; [by rewrite Hlog2, Hlog1, app_assoc|].
  destruct Hpres2 as (Hl2 & Hag2 & _).
  rewrite <-(app_nil_r []).
  eapply Links_app with (mid := length (objs σ1)); [|exact HL2|lia|lia].
  eapply Links_agree; [exact HL1|]. intros x Hx.
  split; [apply parent_at_agree|apply childNodes_at_agree]; apply Hag2; lia.
Qed.

Lemma toH_correct b l s σ copy tag props ch ct pos :
  closed_below b (objs σ) = true → l < b → b ≤ length (objs σ) →
  hast_at (objs σ) l = Some (HElement tag props ch ct pos) →
  copy < length (objs σ) →
  hast_at (objs σ) copy = Some (HElement tag props (Some []) ct pos) →
  wp (toH (h one l) copy (space s) s) σ (λ σ' o,
    verdict_all o = predict (S n) (objs σ) l ∧
    match o with
    | Ok r =>
        length (objs σ) ≤ r ∧
        parent_at (objs σ') r = None ∧
        Converted (S n) (objs σ') b (length (objs σ')) l s r ∧
        ∃ lg, plog σ' = plog σ ++ lg ∧
              Links [] (length (objs σ)) (length (objs σ')) (objs σ') lg
    | _ => True
    end).
Proof.
  intros Hcl Hl Hb Hnode Hcopy Hcopynode. unfold toH.
  set (node := HElement tag props ch ct pos) in *.
  pose proof (proj1 (closed_below_spec b (objs σ)) Hcl l node Hl Hnode) as Hrefs.
  assert (Hpred : predict (S n) (objs σ) l = predict_h n (objs σ) node tag).
  { cbn [predict]. rewrite Hnode. done. }
  apply wp_bind. eapply wp_mono; [by apply (toH_probe_correct b l node probes s σ)|].
  cbv beta. intros σ1 o (Hpres1 & Hres1). cbv zeta in Hres1.
  destruct o as [s1|e|];
    [|split; [|done]; rewrite Hpred; unfold predict_h; by rewrite Hres1
     |split; [|done]; rewrite Hpred; unfold predict_h; by rewrite Hres1].
  destruct Hres1 as (_ & Hs1 & lg1 & Hlog1 & HL1).
  pose proof Hpres1 as (Hl1 & Hag1 & Hpre1).
  assert (Hcl1 : closed_below b (objs σ1) = true).
  { apply (closed_below_agree b (objs σ)); [|done]. intros x Hx. apply Hag1. lia. }
  assert (Hnode1 : hast_at (objs σ1) l = Some node).
  { rewrite <-Hnode. apply hast_at_agree, Hag1. lia. }
  apply wp_bind, wp_field. rewrite (hast_at_agree (objs σ) (objs σ1)) by auto.
  rewrite Hcopynode. cbn [mbind option_bind].
  apply wp_bind. eapply wp_mono.
  { apply wp_and.
    - by apply (h_correct b l s1 tag (toH_attributes (space s) tag props) σ1 node); try lia.
    - apply (wp_framed (length (objs σ1))); [apply framed_h, one_framed|done]. }
  cbv beta. intros σ2 o ((Hv & Hres) & (Hl2 & Hag2 & _) & _).
  assert (HV : predict_h n (objs σ1) node tag = predict (S n) (objs σ) l).
  { rewrite Hpred. unfold predict_h.
    rewrite (predict_children_agree n b (objs σ) (objs σ1) node); [|intros; apply Hag1; lia|done|done].
    rewrite (predict_fragment_agree n b (objs σ) (objs σ1) node); [|intros; apply Hag1; lia|done|done].
    done. }
  rewrite HV in Hv.
  destruct o as [[r s2]|e|]; [|done|done].
  destruct Hres as (_ & Hr & Hpar & Hrlt & Hbuilt & lg2 & Hlog2 & HL2).
  apply wp_ret. split; [done|]. cbn [fst].
  split; [lia|]. split; [done|]. split.
  - cbn [Converted]. split; [done|]. split; [lia|]. split; [done|].
    exists node. split.
    { rewrite <-Hnode1. apply hast_at_agree, Hag2. lia. }
    unfold node at 1. fold node.
    assert (Hattr : attr_schema s tag = s1).
    { rewrite Hs1. unfold attr_schema. by destruct probes. }
    rewrite Hattr. exact Hbuilt.
  - exists (lg1 ++ lg2). split; [by rewrite Hlog2, Hlog1, app_assoc|].
    rewrite <-(app_nil_r []).
    eapply Links_app with (mid := length (objs σ1)); [|exact HL2|lia|lia].
    eapply Links_agree; [exact HL1|]. intros x Hx.
    split; [apply parent_at_agree|apply childNodes_at_agree]; apply Hag2; lia.
Qed.

Lemma element_correct b l s σ tag props ch ct pos :
  closed_below b (objs σ) = true → l < b → b ≤ length (objs σ) →
  hast_at (objs σ) l = Some (HElement tag props ch ct pos) →
  wp (element one l s) σ (handle_post (S n) b l s σ).
Proof.
  intros Hcl Hl Hb Hnode. unfold element. cbv zeta.
  apply wp_bind, wp_field. rewrite Hnode. cbn [mbind option_bind].
  apply wp_bind, wp_alloc. cbv beta iota. cbn [Object_assign_children].
  set (copy := length (objs σ)).
  set (σ1 := mkState (objs σ ++ [OHast (HElement tag props (Some []) ct pos)]) (plog σ)).
  assert (Hag1 : ∀ x, x < copy → objs σ1 !! x = objs σ !! x).
  { intros x Hx. by apply lookup_app_l. }
  assert (Hlen1 : length (objs σ1) = S copy).
  { cbn [objs σ1]. rewrite length_app. simpl. unfold copy. lia. }
  assert (Hcopy1 : objs σ1 !! copy = Some (OHast (HElement tag props (Some []) ct pos))).
  { cbn [objs σ1]. by rewrite list_lookup_middle. }
  apply wp_bind. eapply wp_mono.
  { apply wp_and.
    - apply (toH_correct b l s σ1 copy tag props ch ct pos).
      + apply (closed_below_agree b (objs σ)); [|done]. intros x Hx. apply Hag1. unfold copy; lia.
      + done.
      + lia.
      + rewrite <-Hnode. apply hast_at_agree, Hag1. unfold copy; lia.
      + lia.
      + unfold hast_at. by rewrite Hcopy1.
    - apply (wp_framed (length (objs σ1))); [apply framed_toH, one_framed|done]. }
  cbv beta. intros σ2 o ((Hv & Hres) & (Hl2 & Hag2 & _) & _).
  assert (Hpred : predict (S n) (objs σ1) l = predict (S n) (objs σ) l).
  { apply (predict_agree (S n) b (objs σ)); [|done|done]. intros x Hx. apply Hag1. unfold copy; lia. }
  rewrite Hpred in Hv.
  destruct o as [r|e|]; [|done|done].
  destruct Hres as (Hr & Hpar & HC & lg & Hlog & HL).
  apply wp_ret. split; [done|]. split; [lia|]. split; [done|]. split; [done|].
  exists lg. split; [done|].
  rewrite Hlen1 in HL. rewrite <-(app_nil_l lg), <-(app_nil_r []).
  eapply Links_app with (mid := S copy); [|exact HL|unfold copy; lia|lia].
  eapply Links_extend; [apply Links_nil|lia|].
  intros x Hx. assert (x = copy) as -> by (unfold copy in *; lia).
  unfold parent_at, p5_at. rewrite Hag2 by lia. by rewrite Hcopy1.
Qed.

End correctness_of_handlers.

Lemma Links_single lo os q :
  length os = lo → parentNode q = None → Links [] lo (S lo) (os ++ [OP5 q]) [].
Proof.
  intros Hlo Hq. eapply Links_extend; [apply Links_nil|lia|].
  intros x Hx. assert (x = lo) as -> by lia. subst lo.
  unfold parent_at. by rewrite p5_at_app_new.
Qed.

(** A handler that allocates one object and patches it. *)
Lemma leaf_correct n b l s σ node lit :
  closed_below b (objs σ) = true → l < b → b ≤ length (objs σ) →
  hast_at (objs σ) l = Some node →
  childNodes lit = None → content lit = None → parentNode lit = None →
  sourceCodeLocation lit = None →
  predict (S n) (objs σ) l = VNode →
  (∀ os' r p,
     hast_at os' l = Some node → p5_at os' r = Some p →
     l < b → b ≤ r → r < length os' →
     nodeName p = nodeName lit → kind p = kind lit →
     childNodes p = None → content p = None →
     sourceCodeLocation p = location_of (position_of node) →
     Converted (S n) os' b (length os') l s r) →
  wp (p5 ← alloc (OP5 lit); r ← patch l p5; mret (Some r)) σ (handle_post (S n) b l s σ).
Proof.
  intros Hcl Hl Hb Hnode Hc Hct Hp Hs Hpred HConv.
  apply wp_bind, wp_alloc. cbv beta iota.
  set (p5 := length (objs σ)).
  assert (Hnode1 : hast_at (objs σ ++ [OP5 lit]) l = Some node).
  { rewrite <-Hnode. apply hast_at_agree, lookup_app_l. lia. }
  apply wp_bind. eapply wp_patch; [apply p5_at_app_new|]. cbn [objs plog].
  rewrite Hnode1. cbn [mbind option_bind].
  destruct (patched_fields (position_of node) lit) as (Hf1 & Hf2 & Hf3 & Hf4 & Hf5).
  pose proof (patched_location (position_of node) lit Hs) as Hf6.
  set (q := patched (position_of node) lit) in *.
  assert (Hos : <[p5:=OP5 q]> (objs σ ++ [OP5 lit]) = objs σ ++ [OP5 q]).
  { unfold p5. rewrite insert_app_r_alt by lia. by rewrite Nat.sub_diag. }
  rewrite Hos. apply wp_ret.
  split; [by rewrite Hpred|]. cbn [objs plog].
  assert (Hlen : length (objs σ ++ [OP5 q]) = S p5).
  { rewrite length_app. simpl. unfold p5. lia. }
  split; [done|]. split.
  { unfold parent_at. rewrite p5_at_app_new. cbn. congruence. }
  split.
  - apply (HConv _ _ q); try done; try lia.
    + rewrite <-Hnode. apply hast_at_agree, lookup_app_l. lia.
    + apply p5_at_app_new.
    + congruence.
    + congruence.
  - exists []. rewrite app_nil_r. split; [done|]. rewrite Hlen.
    apply Links_single; [done|congruence].
Qed.

Lemma handler_for_other t (root' element' text' comment' doctype' : Handle) :
  handled t = false →
  handler_for t [("root", root'); ("element", element'); ("text", text');
                 ("comment", comment'); ("doctype", doctype')] = None.
Proof.
  unfold handled. intros H. cbn [handler_for].
  repeat (apply orb_false_iff in H as [H ?]).
  rewrite !(String.eqb_sym _ t). by repeat case_match.
Qed.

Lemma one_correct fuel : handle_correct fuel (one fuel).
Proof.
  induction fuel as [|n IH]; intros b l s σ Hcl Hl Hb.
  { by apply wp_throw || (unfold wp; simpl). }
  cbn [one]. unfold zwitch.
  apply wp_bind, wp_field.
  destruct (hast_at (objs σ) l) as [node|] eqn:Hnode; cbn [mbind option_bind].
  2:{ apply wp_ret. split; [|done]. cbn [predict]. by rewrite Hnode. }
  pose proof (proj1 (closed_below_spec b (objs σ)) Hcl l node Hl Hnode) as Hrefs.
  destruct node as [d ch p|tag props ch ct p|v p|v p|p|t]; cbn [type_of].
  - cbn. by eapply root_correct; [apply one_framed|..].
  - cbn. by eapply element_correct; [apply one_framed|..].
  - cbn. unfold text. apply wp_bind, wp_field. rewrite Hnode. cbn [mbind option_bind value_of].
    eapply leaf_correct; try done.
    + cbn [predict]. by rewrite Hnode.
    + intros os' r q Hn' Hq ? ? ? ? ? ? ? ?. cbn [Converted].
      split; [done|]. split; [done|]. split; [done|].
      exists (HText v p). split; [done|]. exists q. done.
  - cbn. unfold comment. apply wp_bind, wp_field. rewrite Hnode. cbn [mbind option_bind value_of].
    eapply leaf_correct; try done.
    + cbn [predict]. by rewrite Hnode.
    + intros os' r q Hn' Hq ? ? ? ? ? ? ? ?. cbn [Converted].
      split; [done|]. split; [done|]. split; [done|].
      exists (HComment v p). split; [done|]. exists q. done.
  - cbn. unfold doctype.
    eapply leaf_correct; try done.
    + cbn [predict]. by rewrite Hnode.
    + intros os' r q Hn' Hq ? ? ? ? ? ? ? ?. cbn [Converted].
      split; [done|]. split; [done|]. split; [done|].
      exists (HDoctype p). split; [done|]. exists q. done.
  - rewrite handler_for_other by (by eapply refs_below_other).
    apply wp_ret. split; [|done]. cbn [predict]. by rewrite Hnode.
Qed.

(** * The entry point *)

Lemma toParse5_correct fuel tree space σ :
  closed_below (length (objs σ)) (objs σ) = true → tree < length (objs σ) →
  wp (toParse5 fuel tree space) σ (λ σ' o,
    preserves (length (objs σ)) σ σ' ∧
    handle_post fuel (length (objs σ)) tree (initial_schema space) σ σ' o).
Proof.
  intros Hcl Htree. unfold toParse5. fold (initial_schema space).
  apply wp_and.
  - apply (wp_mono _ _ _ _ (wp_framed _ _ _ σ (one_framed fuel _ tree _) (le_n _))).
    by intros σ' o [? _].
  - by apply one_correct.
Qed.

Lemma Converted_child n os b hi l s r node :
  Converted n os b hi l s r → hast_at os l = Some node →
  ∃ cs, (childNodes_at os r = Some cs ∨ (childNodes_at os r = None ∧ cs = [])) ∧
    ∀ i c, default [] (children_of node) !! i = Some c →
      ∃ a s', cs !! i = Some a ∧ parent_at os a = Some r ∧
              Converted (pred n) os b hi c s' a.
Proof.
  destruct n as [|n]; [done|]. cbn [Converted pred].
  intros (_ & _ & _ & node' & Hnode' & H) Hnode.
  rewrite Hnode in Hnode'. injection Hnode' as <-.
  assert (Hkids : ∀ ch s' cs, kids (Converted n os b hi) os r ch s' cs →
            ∀ i c, default [] ch !! i = Some c →
              ∃ a s'', cs !! i = Some a ∧ parent_at os a = Some r ∧
                       Converted n os b hi c s'' a).
  { intros ch s' cs Hk i c Hc. unfold kids in Hk.
    destruct (Forall2_lookup_l _ _ _ _ _ Hk Hc) as (a & Ha & _ & Hp & HC). eauto. }
  destruct node as [d ch p|tag props ch ct p|v p|v p|p|t]; try done.
  - destruct H as (q & cs & Hq & _ & _ & _ & _ & Hcs & Hk).
    exists cs. split; [left; unfold childNodes_at; by rewrite Hq|]. by eapply Hkids.
  - destruct H as (q & cs & Hq & _ & _ & _ & Hcs & Hk & _).
    exists cs. split; [left; unfold childNodes_at; by rewrite Hq|]. by eapply Hkids.
  - destruct H as (q & Hq & _ & _ & Hcs & _).
    exists []. split; [right; unfold childNodes_at; by rewrite Hq|]. intros i c Hc. done.
  - destruct H as (q & Hq & _ & _ & Hcs & _).
    exists []. split; [right; unfold childNodes_at; by rewrite Hq|]. intros i c Hc. done.
  - destruct H as (q & Hq & _ & _ & Hcs & _).
    exists []. split; [right; unfold childNodes_at; by rewrite Hq|]. intros i c Hc. done.
Qed.

Lemma verdict_of_VNode o : verdict_of o = VNode → ∃ r, o = Ok (Some r).
Proof. destruct o as [[r|]| |]; try done. eauto. Qed.

Lemma parent_at_lt os a p : parent_at os a = Some p → a < length os.
Proof.
  unfold parent_at. destruct (p5_at os a) eqn:E; [|done]. intros _. by eapply p5_at_lt.
Qed.

Lemma NoDup_fst_filter (lg : list (loc * loc)) a p :
  NoDup lg.*1 → (a, p) ∈ lg → length (filter (λ e, e.1 = a) lg) = 1.
Proof.
  induction lg as [|[c q] lg IH]; intros Hnd Hin; [by apply elem_of_nil in Hin|].
  rewrite fmap_cons in Hnd. apply NoDup_cons in Hnd as [Hc Hnd].
  rewrite filter_cons. cbn [fst]. destruct (decide (c = a)) as [->|Hne].
  - cbn [length]. f_equal. apply length_zero_iff_nil, elem_of_nil_inv.
    intros [c' q'] [Heq Hc']%list_elem_of_filter. cbn in Heq. subst c'.
    apply Hc. apply list_elem_of_fmap. by exists (a, q').
  - apply IH; [done|]. apply elem_of_cons in Hin as [[= -> ->]|]; done.
Qed.

(** C1 (parent links).  When the conversion of a closed source tree is
    predicted to return a node, [toParse5] returns a node [r] whose
    [parentNode] is undefined; the produced tree mirrors the source tree
    ([Converted]: the i-th child of a source node is converted to the i-th
    entry of [childNodes] of its produced node and points back to it); and
    every produced object [a] that has a parent [p] was assigned that parent
    by exactly one execution of [child.parentNode = p5] in [all], [p] was
    produced by the same conversion, and [a] occurs exactly once in
    [p.childNodes]. *)
Theorem toParse5_parent_links fuel tree space σ :
  closed_below (length (objs σ)) (objs σ) = true →
  tree < length (objs σ) →
  predict fuel (objs σ) tree = VNode →
  ∃ σ' r lg,
    toParse5 fuel tree space σ = (σ', Ok (Some r)) ∧
    plog σ' = plog σ ++ lg ∧
    parent_at (objs σ') r = None ∧
    Converted fuel (objs σ') (length (objs σ)) (length (objs σ')) tree
              (initial_schema space) r ∧
    (∀ a p, length (objs σ) ≤ a → parent_at (objs σ') a = Some p →
       length (filter (λ e, e.1 = a) lg) = 1 ∧ (a, p) ∈ lg ∧
       length (objs σ) ≤ p ∧
       ∃ cs, childNodes_at (objs σ') p = Some cs ∧ a ∈ cs ∧ NoDup cs) ∧
    (∀ n l s r' node i c,
       Converted n (objs σ') (length (objs σ)) (length (objs σ')) l s r' →
       hast_at (objs σ') l = Some node →
       default [] (children_of node) !! i = Some c →
       ∃ a s', childNodes_at (objs σ') r' ≫= (.!! i) = Some a ∧
               parent_at (objs σ') a = Some r' ∧
               Converted (pred n) (objs σ') (length (objs σ)) (length (objs σ')) c s' a).
Proof.
  intros Hcl Htree Hpred.
  pose proof (toParse5_correct fuel tree space σ Hcl Htree) as H. unfold wp in H.
  destruct (toParse5 fuel tree space σ) as [σ' o]. cbn [fst snd] in H.
  destruct H as (_ & Hv & Hres). rewrite Hpred in Hv.
  apply verdict_of_VNode in Hv as [r ->].
  destruct Hres as (Hr & Hpar & HC & lg & Hlog & Hnd & Hin & Hall).
  exists σ', r, lg. repeat split; try done.
  - eapply NoDup_fst_filter; [done|]. apply Hall; [|done].
    split; [done|]. by eapply parent_at_lt.
  - apply Hall; [|done]. split; [done|]. by eapply parent_at_lt.
  - assert (Hl : (a, p) ∈ lg).
    { apply Hall; [|done]. split; [done|]. by eapply parent_at_lt. }
    destruct (Hin _ _ Hl) as (_ & _ & [Hnil|(? & _)]); [by apply elem_of_nil in Hnil|lia].
  - assert (Hl : (a, p) ∈ lg).
    { apply Hall; [|done]. split; [done|]. by eapply parent_at_lt. }
    destruct (Hin _ _ Hl) as (_ & _ & [Hnil|(_ & cs & ? & ? & ?)]);
      [by apply elem_of_nil in Hnil|eauto].
  - intros n l s r' node i c HC' Hnode Hc.
    destruct (Converted_child _ _ _ _ _ _ _ _ HC' Hnode) as (cs & Hcs & Hkid).
    destruct (Hkid i c Hc) as (a & s' & Ha & Hp & HCa).
    exists a, s'. split; [|done].
    destruct Hcs as [->|[_ ->]]; [done|by rewrite lookup_nil in Ha].
Qed.

Lemma Converted_element n os b hi l s r tag props ch ct pos :
  Converted (S n) os b hi l s r →
  hast_at os l = Some (HElement tag props ch ct pos) →
  let s' := switch_schema s (Some tag) in
  ∃ cs,
    nodeName_at os r = Some tag ∧
    namespaceURI_at os r = Some (ns (space s')) ∧
    attrs_at os r
      = Some (h_values (attr_schema s tag) (toH_attributes (space s) tag props)) ∧
    location_at os r = location_of pos ∧
    childNodes_at os r = Some cs ∧
    Forall2 (λ c a, parent_at os a = Some r ∧ Converted n os b hi c s' a)
            (default [] ch) cs ∧
    if String.eqb tag "template"
    then ∃ c f, ct = Some c ∧ content_at os r = Some f ∧
                fragment_of (Converted n os b hi) os b hi c s' f
    else content_at os r = None.
Proof.
  cbn [Converted]. intros (_ & _ & _ & node & Hnode & H) Hl.
  set (s' := switch_schema s (Some tag)).
  rewrite Hl in Hnode. injection Hnode as Heq. subst node.
  unfold built_by_h in H. cbv zeta in H.
  destruct H as (p & cs & Hp & Hn & Hk & Hloc & Hcs & Hkids & Htpl).
  cbn [tagName_of children_of position_of content_of] in *.
  assert (Hs : switch_schema (attr_schema s tag) (Some tag) = s').
  { unfold attr_schema, s'. destruct probes; [done|]. apply switch_schema_idem. }
  rewrite Hs in *.
  exists cs. unfold nodeName_at, namespaceURI_at, attrs_at, location_at, childNodes_at, content_at.
  rewrite Hp. cbn [fmap option_fmap option_map mbind option_bind]. rewrite Hk.
  repeat split; try done; try congruence.
  - eapply Forall2_impl; [exact Hkids|]. by intros c a (_ & ? & ?).
  - destruct (String.eqb tag "template"); [|done].
    destruct Htpl as (c & f & ? & ? & _ & ?). by exists c, f.
Qed.

(** C2 (namespace propagation).  Converting [<div><svg><rect/></svg><span/></div>]
    from the HTML schema yields a [div] in the HTML namespace whose children
    are an [svg] in the SVG namespace, holding a [rect] in the SVG namespace,
    and a [span] in the HTML namespace. *)
Theorem namespace_propagation pdiv psvg prect pspan lg0 :
  ∃ σ' rdiv rsvg rrect rspan,
    toParse5 3 0 None (mkState (svg_example pdiv psvg prect pspan) lg0)
      = (σ', Ok (Some rdiv)) ∧
    nodeName_at (objs σ') rdiv = Some "div" ∧
    namespaceURI_at (objs σ') rdiv = Some (ns "html") ∧
    childNodes_at (objs σ') rdiv = Some [rsvg; rspan] ∧
    nodeName_at (objs σ') rsvg = Some "svg" ∧
    namespaceURI_at (objs σ') rsvg = Some (ns "svg") ∧
    childNodes_at (objs σ') rsvg = Some [rrect] ∧
    nodeName_at (objs σ') rrect = Some "rect" ∧
    namespaceURI_at (objs σ') rrect = Some (ns "svg") ∧
    nodeName_at (objs σ') rspan = Some "span" ∧
    namespaceURI_at (objs σ') rspan = Some (ns "html").
Proof.
  set (σ := mkState (svg_example pdiv psvg prect pspan) lg0).
  pose proof (toParse5_correct 3 0 None σ eq_refl ltac:(cbn; lia)) as H. unfold wp in H.
  destruct (toParse5 3 0 None σ) as [σ' o]. cbn [fst snd] in H.
  destruct H as ((_ & Hag & _) & Hv & Hres).
  change (predict 3 (objs σ) 0) with VNode in Hv.
  apply verdict_of_VNode in Hv as [r ->].
  destruct Hres as (_ & _ & HC & _).
  assert (Hsrc : ∀ l, l < 4 → hast_at (objs σ') l = hast_at (objs σ) l).
  { intros l Hl. apply hast_at_agree, Hag. cbn. lia. }
  destruct (Converted_element _ _ _ _ _ _ _ _ _ _ _ _ HC (Hsrc 0 ltac:(lia)))
    as (cs & Hn0 & Hns0 & _ & _ & Hcs0 & Hk0 & _).
  cbn [default] in Hk0.
  apply Forall2_cons_inv_l in Hk0 as (rsvg & cs1 & (_ & HC1) & Hk0 & ->).
  apply Forall2_cons_inv_l in Hk0 as (rspan & cs2 & (_ & HC3) & Hk0 & ->).
  apply Forall2_nil_inv_l in Hk0 as ->.
  destruct (Converted_element _ _ _ _ _ _ _ _ _ _ _ _ HC1 (Hsrc 1 ltac:(lia)))
    as (cs & Hn1 & Hns1 & _ & _ & Hcs1 & Hk1 & _).
  cbn [default] in Hk1.
  apply Forall2_cons_inv_l in Hk1 as (rrect & cs3 & (_ & HC2) & Hk1 & ->).
  apply Forall2_nil_inv_l in Hk1 as ->.
  destruct (Converted_element _ _ _ _ _ _ _ _ _ _ _ _ HC2 (Hsrc 2 ltac:(lia)))
    as (cs & Hn2 & Hns2 & _).
  destruct (Converted_element _ _ _ _ _ _ _ _ _ _ _ _ HC3 (Hsrc 3 ltac:(lia)))
    as (cs' & Hn3 & Hns3 & _).
  exists σ', r, rsvg, rrect, rspan. done.
Qed.

Lemma Converted_text n os b hi l s r v pos :
  Converted (S n) os b hi l s r →
  hast_at os l = Some (HText v pos) →
  nodeName_at os r = Some "#text" ∧ kind_at os r = Some (KText (Some v)) ∧
  childNodes_at os r = None ∧ content_at os r = None ∧
  location_at os r = location_of pos.
Proof.
  cbn [Converted]. intros (_ & _ & _ & node & Hnode & H) Hl.
  rewrite Hl in Hnode. injection Hnode as Heq. subst node.
  destruct H as (p & Hp & Hn & Hk & Hcs & Hct & Hloc).
  unfold nodeName_at, kind_at, location_at, childNodes_at, content_at.
  rewrite Hp. cbn [fmap option_fmap option_map mbind option_bind]. by rewrite Hn, Hk.
Qed.

Lemma p5_at_tail os l i : p5_at (os ++ l) (length os + i) = p5_at l i.
Proof. unfold p5_at. by rewrite lookup_app_r, Nat.add_sub' by lia. Qed.

Lemma insert_tail (os l : list Obj) i o :
  <[length os + i := o]> (os ++ l) = os ++ <[i := o]> l.
Proof. apply insert_app_r. Qed.

Lemma wp_log_parent child p5 σ Φ :
  Φ (mkState (objs σ) (plog σ ++ [(child, p5)])) (Ok tt) → wp (log_parent child p5) σ Φ.
Proof. done. Qed.

Lemma insert_new_id (os : list Obj) o : <[length os := o]> (os ++ [o]) = os ++ [o].
Proof. apply list_insert_id. by rewrite list_lookup_middle. Qed.

Lemma insert_new (os : list Obj) o o' : <[length os := o']> (os ++ [o]) = os ++ [o'].
Proof. rewrite insert_app_r_alt by lia. by rewrite Nat.sub_diag. Qed.

Lemma hast_at_app os os' l n : hast_at os l = Some n → hast_at (os ++ os') l = Some n.
Proof.
  intros H. rewrite <-H. apply hast_at_agree, lookup_app_l. by eapply hast_at_lt.
Qed.

Lemma h_div_childless one l s σ tag props ct :
  hast_at (objs σ) l = Some (HElement tag props (Some []) ct None) →
  h one l s "div" [] σ
  = (mkState (objs σ ++ [OP5 (probe_object s tag)]) (plog σ),
     Ok (length (objs σ), switch_schema s (Some tag))).
Proof.
  intros Hnode.
  enough (wp (h one l s "div" []) σ (λ σ' o,
            σ' = mkState (objs σ ++ [OP5 (probe_object s tag)]) (plog σ) ∧
            o = Ok (length (objs σ), switch_schema s (Some tag)))) as H.
  { unfold wp in H. destruct (h one l s "div" [] σ) as [σ' o]. cbn in H.
    destruct H as [-> ->]. done. }
  pose proof (hast_at_app _ [OP5 (probe_object s tag)] _ _ Hnode) as Hnode1.
  unfold h. apply wp_bind, wp_field. rewrite Hnode. cbn [mbind option_bind tagName_of].
  cbv zeta. apply wp_bind, wp_alloc. cbv beta iota.
  fold (probe_object s tag). change (h_values s []) with (@nil P5Attribute).
  fold (probe_object s tag).
  apply wp_bind. eapply wp_patch; [apply p5_at_app_new|]. cbn [objs plog].
  rewrite Hnode1. cbn [mbind option_bind position_of].
  change (patched None (probe_object s tag)) with (probe_object s tag).
  rewrite insert_new_id.
  apply wp_bind, wp_field. cbn [objs]. rewrite Hnode1. cbn [mbind option_bind children_of].
  apply wp_bind. cbn [all all_loop]. apply wp_ret.
  apply wp_bind. eapply wp_assign; [apply p5_at_app_new|]. cbn [objs plog].
  change (set_childNodes [] (probe_object s tag)) with (probe_object s tag).
  rewrite insert_new_id.
  apply wp_bind. change (String.eqb "div" "template") with false. cbv iota.
  apply wp_ret. apply wp_ret. done.
Qed.

Lemma toH_probe_childless one l tag props ct k : ∀ s σ,
  hast_at (objs σ) l = Some (HElement tag props (Some []) ct None) →
  toH_probe (h one l) k s σ
  = (mkState (objs σ ++ replicate k (OP5 (probe_object s tag))) (plog σ),
     Ok (match k with 0 => s | S _ => switch_schema s (Some tag) end)).
Proof.
  induction k as [|k IH]; intros s σ Hnode; cbn [toH_probe replicate].
  { rewrite app_nil_r. by destruct σ. }
  rewrite bind_run, (h_div_childless _ _ _ _ _ _ _ Hnode). cbn [snd].
  rewrite IH by (by apply hast_at_app). cbn [objs plog].
  unfold probe_object. rewrite !switch_schema_idem. rewrite <-app_assoc. cbn [app].
  f_equal. by destruct k.
Qed.

(** C4 (template content).  Converting a [<template>] with [children = []]
    and a content whose only child is the text ["x"] allocates, after the
    copy handed to [toH] and the objects of its preliminary calls, exactly
    three nodes: the element, with an empty [childNodes] and the fragment as
    [content]; the fragment, whose [childNodes] is the text node alone; and
    the text node with value ["x"], whose parent is the fragment.  The one
    parent assignment of the whole conversion is that of the text node. *)
Theorem template_content_separation ptemplate lg0 :
  let r := 4 + probes in
  let f := 5 + probes in
  let t := 6 + probes in
  toParse5 2 0 None (mkState (template_example ptemplate) lg0)
  = (mkState
       (template_example ptemplate ++
        [OHast (HElement "template" ptemplate (Some []) (Some 1) None)] ++
        replicate probes (OP5 (probe_object html "template")) ++
        [OP5 (mkP5 "template"
                   (KElement "template"
                      (h_values html (toH_attributes "html" "template" ptemplate))
                      (ns "html"))
                   (Some []) (Some f) None None);
         OP5 (mkP5 "#document-fragment" KFragment (Some [t]) None None None);
         OP5 (mkP5 "#text" (KText (Some "x")) None None (Some f) None)])
       (lg0 ++ [(t, f)]),
     Ok (Some r)).
Proof.
  cbv zeta.
  set (os0 := template_example ptemplate ++
              [OHast (HElement "template" ptemplate (Some []) (Some 1) None)] ++
              replicate probes (OP5 (probe_object html "template"))).
  assert (Hlen : length os0 = 4 + probes).
  { unfold os0. rewrite !length_app, length_replicate. done. }
  assert (Hsrc : ∀ os' l n, hast_at (template_example ptemplate) l = Some n →
                            hast_at (os0 ++ os') l = Some n).
  { intros os' l n Hn. unfold os0. rewrite <-!app_assoc. by apply hast_at_app. }
  set (tpl q := mkP5 "template"
                  (KElement "template"
                     (h_values html (toH_attributes "html" "template" ptemplate))
                     (ns "html"))
                  (Some []) q None None).
  set (frag cs := mkP5 "#document-fragment" KFragment (Some cs) None None None).
  set (txt q := mkP5 "#text" (KText (Some "x")) None None q None).
  enough (wp (toParse5 2 0 None) (mkState (template_example ptemplate) lg0) (λ σ' o,
            σ' = mkState (os0 ++ [OP5 (tpl (Some (5 + probes)));
                                  OP5 (frag [6 + probes]);
                                  OP5 (txt (Some (5 + probes)))])
                         (lg0 ++ [(6 + probes, 5 + probes)]) ∧
            o = Ok (Some (4 + probes)))) as H.
  { unfold wp in H. destruct (toParse5 2 0 None _) as [σ' o]. cbn [fst snd] in H.
    destruct H as [-> ->]. unfold os0. by rewrite <-!app_assoc. }
  assert (Hcopy : hast_at os0 3
                  = Some (HElement "template" ptemplate (Some []) (Some 1) None)) by done.
  pose proof (Hsrc [] 0 _ eq_refl) as Hsrc0. rewrite app_nil_r in Hsrc0.
  unfold toParse5. change (bool_decide (None = Some "svg")) with false. cbv iota.
  cbn [one]. unfold zwitch at 1. apply wp_bind, wp_field. cbn [objs].
  change (hast_at (template_example ptemplate) 0)
    with (Some (HElement "template" ptemplate (Some []) (Some 1) None)).
  cbn [mbind option_bind type_of].
  change (handler_for "element" _) with (Some (element (one 1))). cbv iota.
  unfold element. cbv zeta. apply wp_bind, wp_field. cbn [objs].
  change (hast_at (template_example ptemplate) 0)
    with (Some (HElement "template" ptemplate (Some []) (Some 1) None)).
  cbn [mbind option_bind Object_assign_children].
  apply wp_bind, wp_alloc. cbv beta iota.
  apply wp_bind. unfold toH. apply wp_bind.
  unfold wp at 1.
  erewrite toH_probe_childless by reflexivity. cbn [fst snd objs plog].
  replace (match probes with 0 => html | S _ => switch_schema html (Some "template") end)
    with html by (by destruct probes).
  rewrite <-app_assoc. fold os0. clearbody os0.
  change (length (template_example ptemplate)) with 3.
  apply wp_bind, wp_field. cbn [objs]. rewrite Hcopy. cbn [mbind option_bind].
  apply wp_bind. unfold h. apply wp_bind, wp_field. cbn [objs]. rewrite Hsrc0.
  cbn [mbind option_bind tagName_of]. cbv zeta.
  change (switch_schema html (Some "template")) with html.
  apply wp_bind, wp_alloc. cbv beta iota. cbn [objs plog].
  rewrite <-(Nat.add_0_r (length os0)).
  apply wp_bind. eapply wp_patch; [cbn [objs]; by rewrite p5_at_tail|]. cbn [objs plog].
  rewrite (Hsrc _ 0 _ eq_refl). cbn [mbind option_bind position_of].
  rewrite insert_tail. cbn [insert list_insert].
  change (patched None ?q) with q. change (space html) with "html".
  apply wp_bind, wp_field. cbn [objs]. rewrite (Hsrc _ 0 _ eq_refl).
  cbn [mbind option_bind children_of].
  apply wp_bind. cbn [all all_loop]. apply wp_ret.
  apply wp_bind. eapply wp_assign; [cbn [objs]; by rewrite p5_at_tail|]. cbn [objs plog].
  rewrite insert_tail. cbn [insert list_insert].
  change (set_childNodes [] ?q) with (tpl None).
  apply wp_bind. change (String.eqb "template" "template") with true. cbv iota.
  apply wp_bind, wp_field. cbn [objs]. rewrite (Hsrc _ 0 _ eq_refl).
  cbn [mbind option_bind content_of].
  (* the fragment *)
  apply wp_bind. unfold fragment. apply wp_bind, wp_alloc. cbv beta iota. cbn [objs plog].
  rewrite <-app_assoc, length_app. cbn [app length].
  apply wp_bind, wp_field. cbn [objs]. rewrite (Hsrc _ 1 _ eq_refl).
  cbn [mbind option_bind children_of].
  apply wp_bind. cbn [all all_loop].
  (* the text *)
  apply wp_bind. cbn [one]. unfold zwitch. apply wp_bind, wp_field. cbn [objs].
  rewrite (Hsrc _ 2 _ eq_refl). cbn [mbind option_bind type_of].
  change (handler_for "text" _) with (Some text). cbv iota.
  unfold text. apply wp_bind, wp_field. cbn [objs]. rewrite (Hsrc _ 2 _ eq_refl).
  cbn [mbind option_bind value_of].
  apply wp_bind, wp_alloc. cbv beta iota. cbn [objs plog].
  rewrite <-app_assoc, length_app. cbn [app length].
  apply wp_bind. eapply wp_patch; [cbn [objs]; by rewrite p5_at_tail|]. cbn [objs plog].
  rewrite (Hsrc _ 2 _ eq_refl). cbn [mbind option_bind position_of].
  rewrite insert_tail. cbn [insert list_insert].
  change (patched None ?q) with q.
  apply wp_ret. cbv beta iota.
  apply wp_bind. eapply wp_assign; [cbn [objs]; by rewrite p5_at_tail|]. cbn [objs plog].
  rewrite insert_tail. cbn [insert list_insert].
  apply wp_bind, wp_log_parent. cbn [objs plog].
  apply wp_ret. cbv beta iota. cbn [app].
  apply wp_bind. eapply wp_assign; [cbn [objs]; by rewrite p5_at_tail|]. cbn [objs plog].
  rewrite insert_tail. cbn [insert list_insert].
  eapply wp_patch; [cbn [objs]; by rewrite p5_at_tail|]. cbn [objs plog].
  rewrite (Hsrc _ 1 _ eq_refl). cbn [mbind option_bind position_of].
  rewrite insert_tail. cbn [insert list_insert].
  change (patched None ?q) with q. cbv beta iota.
  eapply wp_assign; [cbn [objs]; by rewrite p5_at_tail|]. cbn [objs plog].
  rewrite insert_tail. cbn [insert list_insert].
  apply wp_ret, wp_ret, wp_ret. cbn [fst].
  rewrite Nat.add_0_r, Hlen.
  replace (4 + probes + 1) with (5 + probes) by lia.
  replace (4 + probes + 2) with (6 + probes) by lia.
  done.
Qed.

(** * The attribute loop of [h] *)

(** One turn of the loop, by the value of the entry: [false] is dropped;
    [true] gives the empty string; any other value is dropped when the
    schema classifies the key as boolean and the value is falsy, and
    otherwise gives [String(value)]. *)
Lemma h_values_cases schema attrs :
  (∀ a, a ∈ h_values schema attrs ↔
        ∃ key v, (key, v) ∈ attrs ∧ h_attribute schema key v = Some a) ∧
  (∀ key v,
     match v with
     | VBool false => h_attribute schema key v = None
     | VBool true =>
         ∃ a, h_attribute schema key v = Some a ∧ value a = ""
     | _ =>
         if boolean (find schema key) && negb (ToBoolean v)
         then h_attribute schema key v = None
         else ∃ a, h_attribute schema key v = Some a ∧ value a = String_ v
     end).
Proof.
  split.
  - intros a. unfold h_values. rewrite list_elem_of_omap. split.
    + intros ([key v] & Hin & Ha). by exists key, v.
    + intros (key & v & Hin & Ha). by exists (key, v).
  - intros key v. unfold h_attribute.
    destruct v as [[|]|str|num]; cbn [is_false is_true ToBoolean]; [|done| |].
    + rewrite andb_false_r.
      destruct (foreign_space (find schema key)); [destruct (String.index 0 ":" key)|]; eauto.
    + destruct (boolean (find schema key) && negb (ToBoolean (VString str))) eqn:E;
        cbn [ToBoolean] in E; rewrite E; [done|].
      destruct (foreign_space (find schema key)); [destruct (String.index 0 ":" key)|]; eauto.
    + destruct (boolean (find schema key) && negb (ToBoolean (VNumber num))) eqn:E;
        cbn [ToBoolean] in E; rewrite E; [done|].
      destruct (foreign_space (find schema key)); [destruct (String.index 0 ":" key)|]; eauto.
Qed.

Lemma substring_all s : String.substring 0 (String.length s) s = s.
Proof. induction s as [|c s IH]; simpl; [done|]. by rewrite IH. Qed.

Lemma index_colon_cons c key :
  String.index 0 ":" (String c key) =
  if Ascii.eqb c ":"%char then Some 0 else S <$> String.index 0 ":" key.
Proof.
  cbn [String.index String.prefix].
  destruct (Ascii.ascii_dec ":"%char c) as [<-|Hne].
  - destruct key; done.
  - destruct (Ascii.eqb_spec c ":"%char) as [->|_]; [done|].
    by destruct (String.index 0 ":" key).
Qed.

Lemma index_colon_split key i :
  String.index 0 ":" key = Some i →
  key = (slice_to i key ++ ":" ++ slice_from (i + 1) key)%string ∧
  String.index 0 ":" (slice_to i key) = None.
Proof.
  unfold slice_to, slice_from. revert i.
  induction key as [|c key IH]; intros i; [done|].
  rewrite index_colon_cons. destruct (Ascii.eqb_spec c ":"%char) as [->|Hne].
  - intros [= <-]. cbn. by rewrite Nat.sub_0_r, substring_all.
  - destruct (String.index 0 ":" key) as [j|]; [|done]. intros [= <-].
    destruct (IH j eq_refl) as [Hkey Hpre]. cbn [String.substring Nat.add String.length Nat.sub].
    split.
    + exact (f_equal (String c) Hkey).
    + rewrite index_colon_cons. destruct (Ascii.eqb_spec c ":"%char); [done|]. by rewrite Hpre.
Qed.

(** One turn of the loop, by the space of the key: a space other than the
    empty string, ["html"] and ["svg"] gives the resolved namespace and a
    [prefix]: without a colon in the key the name is the whole key and the
    prefix is the empty string; with a colon the key is split at its first
    colon into prefix and name.  Otherwise the attribute has neither field. *)
Lemma h_attribute_foreign schema key v a :
  h_attribute schema key v = Some a →
  match info_space (find schema key) with
  | Some sp =>
      if String.eqb sp "" || String.eqb sp "html" || String.eqb sp "svg"
      then name a = key ∧ prefix a = None ∧ namespace a = None
      else
        namespace a = Some (ns sp) ∧
        match String.index 0 ":" key with
        | None => name a = key ∧ prefix a = Some ""
        | Some i =>
            ∃ pre, prefix a = Some pre ∧
                   key = (pre ++ ":" ++ name a)%string ∧
                   String.index 0 ":" pre = None
        end
  | None => name a = key ∧ prefix a = None ∧ namespace a = None
  end.
Proof.
  unfold h_attribute, foreign_space.
  destruct (is_false v); [done|].
  destruct (boolean (find schema key) && negb (ToBoolean v)); [done|].
  destruct (info_space (find schema key)) as [sp|]; [|by intros [= <-]].
  destruct (String.eqb sp "" || String.eqb sp "html" || String.eqb sp "svg");
    [by intros [= <-]|].
  destruct (String.index 0 ":" key) as [i|] eqn:Hi; intros [= <-]; cbn; [|done].
  split; [done|]. exists (slice_to i key).
  destruct (index_colon_split key i Hi) as [Hkey Hpre]. done.
Qed.

(** * Locations *)

Lemma Converted_location n os b hi l s r :
  Converted n os b hi l s r →
  ∃ node, hast_at os l = Some node ∧
          location_at os r = location_of (position_of node).
Proof.
  destruct n as [|n]; [done|]. cbn [Converted].
  intros (_ & _ & _ & node & Hnode & H). exists node. split; [done|].
  unfold location_at.
  destruct node as [d ch p|tag props ch ct p|v p|v p|p|t]; try done.
  - destruct H as (q & cs & -> & _ & _ & _ & Hloc & _). done.
  - destruct H as (q & cs & -> & _ & _ & Hloc & _). done.
  - destruct H as (q & -> & _ & _ & _ & _ & Hloc). done.
  - destruct H as (q & -> & _ & _ & _ & _ & Hloc). done.
  - destruct H as (q & -> & _ & _ & _ & _ & Hloc). done.
Qed.

(** C6 (location passthrough).  In the tree that [toParse5] returns, the
    node produced for a source node whose [position] has both [start] and
    [end] carries exactly the six numbers of that position as its
    [sourceCodeLocation]; the node produced for any other source node has no
    [sourceCodeLocation].  This holds for the returned node and for every
    node below it. *)
Theorem location_passthrough fuel tree space σ :
  closed_below (length (objs σ)) (objs σ) = true →
  tree < length (objs σ) →
  predict fuel (objs σ) tree = VNode →
  ∃ σ' r,
    toParse5 fuel tree space σ = (σ', Ok (Some r)) ∧
    Converted fuel (objs σ') (length (objs σ)) (length (objs σ')) tree
              (initial_schema space) r ∧
    ∀ n l s a,
      Converted n (objs σ') (length (objs σ)) (length (objs σ')) l s a →
      ∃ node, hast_at (objs σ) l = Some node ∧
        location_at (objs σ') a =
        match position_of node with
        | Some (mkPosition (Some st) (Some e)) =>
            Some (mkLocation (line st) (column st) (offset st)
                             (line e) (column e) (offset e))
        | _ => None
        end.
Proof.
  intros Hcl Htree Hpred.
  pose proof (toParse5_correct fuel tree space σ Hcl Htree) as H. unfold wp in H.
  destruct (toParse5 fuel tree space σ) as [σ' o]. cbn [fst snd] in H.
  destruct H as ((_ & Hag & _) & Hv & Hres). rewrite Hpred in Hv.
  apply verdict_of_VNode in Hv as [r ->].
  destruct Hres as (_ & _ & HC & _).
  exists σ', r. split; [done|]. split; [done|].
  intros n l s a HC'. pose proof (Converted_lt _ _ _ _ _ _ _ HC') as (Hl & _).
  destruct (Converted_location _ _ _ _ _ _ _ HC') as (node & Hnode & Hloc).
  exists node. split; [|done].
  rewrite <-Hnode. symmetry. by apply hast_at_agree, Hag.
Qed.

(** * The schema switch *)

(** One call of [h] for an element named ["svg"]: the attributes it is
    given are looked up in the schema that the variable [schema] holds when
    the call begins, and whichever schema that is, the produced element has
    the SVG namespace, its children are converted under the SVG schema, and
    the variable holds SVG when [h] returns.  The calls [h('div', {})] that
    [toH] makes first have no attributes to look up and leave SVG in the
    variable for the call that builds the element. *)
Lemma h_call_on_svg n b l schema name attrs σ props ch ct pos :
  closed_below b (objs σ) = true → l < b → b ≤ length (objs σ) →
  hast_at (objs σ) l = Some (HElement "svg" props ch ct pos) →
  predict_h n (objs σ) (HElement "svg" props ch ct pos) name = VNode →
  ∃ σ' r cs,
    h (one n) l schema name attrs σ = (σ', Ok (r, svg)) ∧
    attrs_at (objs σ') r = Some (h_values schema attrs) ∧
    namespaceURI_at (objs σ') r = Some (ns "svg") ∧
    childNodes_at (objs σ') r = Some cs ∧
    Forall2 (λ c a, parent_at (objs σ') a = Some r ∧
                    Converted n (objs σ') b (length (objs σ')) c svg a)
            (default [] ch) cs.
Proof.
  intros Hcl Hl Hb Hnode Hpred.
  pose proof (h_correct n (one n) (one_framed n) (one_correct n)
                b l schema name attrs σ _ Hcl Hl Hb Hnode) as H.
  unfold wp in H. destruct (h (one n) l schema name attrs σ) as [σ' o]. cbn [fst snd] in H.
  destruct H as (Hv & Hres). rewrite Hpred in Hv.
  destruct o as [[r s']|e|]; [|done|done].
  assert (Hsw : switch_schema schema (Some "svg") = svg) by (by destruct schema).
  destruct Hres as (Hs' & _ & _ & _ & (p & cs & Hp & Hn & Hk & _ & Hcs & Hkids & _) & _).
  cbn [tagName_of] in Hs', Hk, Hkids. rewrite Hsw in Hs', Hk, Hkids. subst s'.
  exists σ', r, cs. unfold attrs_at, namespaceURI_at, childNodes_at.
  rewrite Hp. cbn [mbind option_bind]. rewrite Hk.
  repeat split; try done.
  eapply Forall2_impl; [exact Hkids|]. by intros c a (_ & ? & ?).
Qed.

(** Seen from [toParse5]: which of the two schemas the attributes of an
    [<svg>] element met under the HTML schema are looked up in is decided by
    [toH]: the HTML schema when the call that builds the element is the
    first call of [h], the SVG schema when [toH] has called [h] before. *)
Lemma toParse5_svg_attribute_schema fuel tree σ props ch ct pos :
  closed_below (length (objs σ)) (objs σ) = true → tree < length (objs σ) →
  hast_at (objs σ) tree = Some (HElement "svg" props ch ct pos) →
  predict fuel (objs σ) tree = VNode →
  ∃ σ' r,
    toParse5 fuel tree None σ = (σ', Ok (Some r)) ∧
    attrs_at (objs σ') r
      = Some (h_values (match probes with 0 => html | S _ => svg end)
                       (toH_attributes "html" "svg" props)) ∧
    namespaceURI_at (objs σ') r = Some (ns "svg").
Proof.
  intros Hcl Htree Hnode Hpred.
  destruct fuel as [|n]; [done|].
  pose proof (toParse5_correct (S n) tree None σ Hcl Htree) as H. unfold wp in H.
  destruct (toParse5 (S n) tree None σ) as [σ' o]. cbn [fst snd] in H.
  destruct H as ((_ & Hag & _) & Hv & Hres). rewrite Hpred in Hv.
  apply verdict_of_VNode in Hv as [r ->].
  destruct Hres as (_ & _ & HC & _).
  assert (Hnode' : hast_at (objs σ') tree = Some (HElement "svg" props ch ct pos)).
  { rewrite <-Hnode. apply hast_at_agree, Hag. lia. }
  destruct (Converted_element _ _ _ _ _ _ _ _ _ _ _ _ HC Hnode')
    as (cs & _ & Hns & Hattrs & _).
  exists σ', r. split; [done|]. split; [|exact Hns].
  rewrite Hattrs. unfold attr_schema. by destruct probes.
Qed.

(** * Conversions that do not return a node *)

Lemma predict_all_not_undefined f cs : predict_all f cs ≠ VUndefined.
Proof. induction cs as [|c cs IH]; simpl; [done|]. by destruct (f c). Qed.

Lemma predict_all_not_node f cs c :
  c ∈ cs → f c ≠ VNode → predict_all f cs ≠ VNode.
Proof.
  induction cs as [|c' cs IH]; intros Hc Hf; [by apply elem_of_nil in Hc|].
  simpl. apply elem_of_cons in Hc as [<-|Hc].
  - by destruct (f c).
  - destruct (f c'); try done. by apply IH.
Qed.

(** No amount of fuel makes the conversion of [l] return a node. *)
Definition never_node (os : list Obj) (l : loc) : Prop :=
  ∀ k, predict k os l ≠ VNode.

(** ... nor [undefined]. *)
Definition never_returns (os : list Obj) (l : loc) : Prop :=
  ∀ k, predict k os l ≠ VNode ∧ predict k os l ≠ VUndefined.

Lemma never_node_step os l c :
  steps_to os l c → never_node os c → never_returns os l.
Proof.
  unfold steps_to. intros Hstep Hc [|k]; [done|]. cbn [predict].
  destruct (hast_at os l) as [[d ch p|tag props ch ct p| | | |]|]; try done.
  - split; [by eapply predict_all_not_node|apply predict_all_not_undefined].
  - destruct Hstep as [Hin|(-> & f & -> & Hin)].
    + pose proof (predict_all_not_node (predict k os) _ _ Hin (Hc k)) as Hne.
      pose proof (predict_all_not_undefined (predict k os) (default [] ch)) as Hnu.
      destruct (predict_all (predict k os) (default [] ch)); done.
    + change (String.eqb "template" "template") with true. cbv iota.
      pose proof (predict_all_not_undefined (predict k os) (default [] ch)) as Hnu.
      destruct (predict_all (predict k os) (default [] ch)); try done.
      split; [by eapply predict_all_not_node|apply predict_all_not_undefined].
Qed.

Lemma never_returns_node os l : never_returns os l → never_node os l.
Proof. intros H k. apply H. Qed.


Lemma never_node_other os x t : hast_at os x = Some (HOther t) → never_node os x.
Proof. intros Hx [|k]; [done|]. cbn [predict]. by rewrite Hx. Qed.


Lemma toParse5_throws fuel tree space σ :
  closed_below (length (objs σ)) (objs σ) = true →
  tree < length (objs σ) →
  never_returns (objs σ) tree →
  predict fuel (objs σ) tree ≠ VFuel →
  ∃ σ' e, toParse5 fuel tree space σ = (σ', Throw e) ∧
          predict fuel (objs σ) tree = VThrow e.
Proof.
  intros Hcl Htree Hnever Hfuel.
  pose proof (toParse5_correct fuel tree space σ Hcl Htree) as H. unfold wp in H.
  destruct (toParse5 fuel tree space σ) as [σ' o]. cbn [fst snd] in H.
  destruct H as (_ & Hv & _). destruct (Hnever fuel) as [Hn Hu].
  destruct o as [[r|]|e|]; cbn in Hv; try congruence.
  by exists σ', e.
Qed.


(** * The input is left alone, and the result depends on it only *)

Lemma kids_structurally_equal (Conv1 Conv2 : loc → Schema → loc → Prop)
    os1 os2 r1 r2 ch s cs1 cs2 :
  (∀ c a1 a2, Conv1 c s a1 → Conv2 c s a2 → structurally_equal os1 os2 a1 a2) →
  kids Conv1 os1 r1 ch s cs1 → kids Conv2 os2 r2 ch s cs2 →
  Forall2 (structurally_equal os1 os2) cs1 cs2.
Proof.
  unfold kids. intros HC Hk1 Hk2. apply Forall2_flip in Hk1.
  eapply Forall2_trans; [|exact Hk1|exact Hk2].
  intros a1 c a2 (_ & _ & H1) (_ & _ & H2). by eapply HC.
Qed.

Lemma Converted_structurally_equal n os1 os2 b hi1 hi2 l s r1 r2 :
  (∀ x, x < b → os2 !! x = os1 !! x) →
  Converted n os1 b hi1 l s r1 → Converted n os2 b hi2 l s r2 →
  structurally_equal os1 os2 r1 r2.
Proof.
  intros Hag. revert l s r1 r2. induction n as [|n IH]; intros l s r1 r2; [done|].
  cbn [Converted].
  intros (Hl & _ & _ & node & Hnode & H1) (_ & _ & _ & node2 & Hnode2 & H2).
  rewrite (hast_at_agree os1 os2) in Hnode2 by auto.
  rewrite Hnode in Hnode2. injection Hnode2 as <-.
  destruct node as [d ch p|tag props ch ct p|v p|v p|p|t]; try done.
  - destruct H1 as (q1 & cs1 & Hq1 & Hn1 & Hk1 & Hc1 & Hs1 & Hcs1 & Hkids1).
    destruct H2 as (q2 & cs2 & Hq2 & Hn2 & Hk2 & Hc2 & Hs2 & Hcs2 & Hkids2).
    eapply structurally_equal_node; [exact Hq1|exact Hq2|congruence..| |].
    + rewrite Hcs1, Hcs2. constructor.
      eapply kids_structurally_equal; [|exact Hkids1|exact Hkids2].
      intros c a1 a2. apply IH.
    + rewrite Hc1, Hc2. constructor.
  - destruct H1 as (q1 & cs1 & Hq1 & Hn1 & Hk1 & Hs1 & Hcs1 & Hkids1 & Ht1).
    destruct H2 as (q2 & cs2 & Hq2 & Hn2 & Hk2 & Hs2 & Hcs2 & Hkids2 & Ht2).
    eapply structurally_equal_node; [exact Hq1|exact Hq2|congruence..| |].
    + rewrite Hcs1, Hcs2. constructor.
      eapply kids_structurally_equal; [|exact Hkids1|exact Hkids2].
      intros c a1 a2. apply IH.
    + destruct (String.eqb tag "template"); [|rewrite Ht1, Ht2; constructor].
      destruct Ht1 as (c1 & f1 & Hct1 & Hf1 & _ & Hcb & _ & pf1 & fcs1 & Hpf1 & Hfn1 & Hfk1
                       & Hfc1 & _ & Hfl1 & Hfcs1 & Hfkids1).
      destruct Ht2 as (c2 & f2 & Hct2 & Hf2 & _ & _ & _ & pf2 & fcs2 & Hpf2 & Hfn2 & Hfk2
                       & Hfc2 & _ & Hfl2 & Hfcs2 & Hfkids2).
      cbn [content_of] in Hct1, Hct2. rewrite Hct1 in Hct2. injection Hct2 as <-.
      rewrite Hf1, Hf2. constructor.
      rewrite (hast_at_agree os1 os2 c1) in Hfl2, Hfkids2 by auto.
      eapply structurally_equal_node; [exact Hpf1|exact Hpf2|congruence..| |].
      * rewrite Hfcs1, Hfcs2. constructor.
        eapply kids_structurally_equal; [|exact Hfkids1|exact Hfkids2].
        intros c a1 a2. apply IH.
      * rewrite Hfc1, Hfc2. constructor.
  - destruct H1 as (q1 & Hq1 & Hn1 & Hk1 & Hcs1 & Hc1 & Hs1).
    destruct H2 as (q2 & Hq2 & Hn2 & Hk2 & Hcs2 & Hc2 & Hs2).
    eapply structurally_equal_node; [exact Hq1|exact Hq2|congruence..| |].
    + rewrite Hcs1, Hcs2. constructor.
    + rewrite Hc1, Hc2. constructor.
  - destruct H1 as (q1 & Hq1 & Hn1 & Hk1 & Hcs1 & Hc1 & Hs1).
    destruct H2 as (q2 & Hq2 & Hn2 & Hk2 & Hcs2 & Hc2 & Hs2).
    eapply structurally_equal_node; [exact Hq1|exact Hq2|congruence..| |].
    + rewrite Hcs1, Hcs2. constructor.
    + rewrite Hc1, Hc2. constructor.
  - destruct H1 as (q1 & Hq1 & Hn1 & Hk1 & Hcs1 & Hc1 & Hs1).
    destruct H2 as (q2 & Hq2 & Hn2 & Hk2 & Hcs2 & Hc2 & Hs2).
    eapply structurally_equal_node; [exact Hq1|exact Hq2|congruence..| |].
    + rewrite Hcs1, Hcs2. constructor.
    + rewrite Hc1, Hc2. constructor.
Qed.

(** C8 (no mutation of the input).  An assignment changes the object it
    is made on, a source object as much as a produced one.  Whatever the
    store, the tree and the outcome, [toParse5] leaves every object that
    existed before the call as it was, the source nodes with their children,
    properties, positions and contents among them: each of its assignments
    is made on an object that the call itself has created.  For a closed
    source, a second conversion of the same tree, run in the store that the
    first has left, ends the same way as the first, and when both return a
    node the two produced trees are equal up to the addresses of their
    nodes. *)
Theorem toParse5_leaves_input fuel tree space σ :
  let σ1 := (toParse5 fuel tree space σ).1 in
  let o1 := (toParse5 fuel tree space σ).2 in
  let σ2 := (toParse5 fuel tree space σ1).1 in
  let o2 := (toParse5 fuel tree space σ1).2 in
  (∀ a, a < length (objs σ) → objs σ1 !! a = objs σ !! a) ∧
  (∀ a, a < length (objs σ1) → objs σ2 !! a = objs σ1 !! a) ∧
  (closed_below (length (objs σ)) (objs σ) = true → tree < length (objs σ) →
   verdict_of o2 = verdict_of o1 ∧
   ∀ r1 r2, o1 = Ok (Some r1) → o2 = Ok (Some r2) →
            structurally_equal (objs σ1) (objs σ2) r1 r2).
Proof.
  cbv zeta. unfold toParse5. fold (initial_schema space).
  set (s := initial_schema space).
  pose proof (one_framed fuel (length (objs σ)) tree s σ (le_n _))
    as [(Hl1 & Hag1 & _) _].
  assert (H1 : closed_below (length (objs σ)) (objs σ) = true → tree < length (objs σ) →
               wp (one fuel tree s) σ (handle_post fuel (length (objs σ)) tree s σ)).
  { intros Hcl Htree. by apply one_correct. }
  unfold wp in H1. destruct (one fuel tree s σ) as [σ1 o1]. cbn [fst snd] in *.
  pose proof (one_framed fuel (length (objs σ1)) tree s σ1 (le_n _))
    as [(Hl2 & Hag2 & _) _].
  assert (H2 : closed_below (length (objs σ)) (objs σ) = true → tree < length (objs σ) →
               wp (one fuel tree s) σ1 (handle_post fuel (length (objs σ)) tree s σ1)).
  { intros Hcl Htree. apply one_correct; [|done|done].
    by apply (closed_below_agree _ (objs σ)). }
  unfold wp in H2. destruct (one fuel tree s σ1) as [σ2 o2]. cbn [fst snd] in *.
  split; [done|]. split; [done|]. intros Hcl Htree.
  destruct (H1 Hcl Htree) as (Hv1 & Hres1). destruct (H2 Hcl Htree) as (Hv2 & Hres2).
  split.
  - rewrite Hv1, Hv2. by apply (predict_agree fuel (length (objs σ)) (objs σ)).
  - intros r1 r2 -> ->.
    destruct Hres1 as (_ & _ & HC1 & _). destruct Hres2 as (_ & _ & HC2 & _).
    eapply Converted_structurally_equal; [|exact HC1|exact HC2].
    intros x Hx. apply Hag2. lia.
Qed.

(** * When the conversion returns a node, and why it does not *)

Lemma steps_to_next os l c : steps_to os l c ↔ c ∈ next os l.
Proof.
  unfold steps_to, next.
  destruct (hast_at os l) as [[d ch p|tag props ch ct p|v p|v p|p|t]|];
    try (by rewrite elem_of_nil); [done|].
  rewrite elem_of_app. destruct (String.eqb_spec tag "template") as [->|Hne].
  - destruct ct as [f|].
    + split; [intros [?|(_ & f' & [= <-] & ?)]; auto|intros [?|?]; eauto 6].
    + split; [intros [?|(_ & f' & [=] & _)]; auto|intros [?|[]%elem_of_nil]; auto].
  - split; [intros [?|(? & _)]; [auto|done]|intros [?|[]%elem_of_nil]; auto].
Qed.

Lemma next_lt b os l c :
  closed_below b os = true → l < b → c ∈ next os l → c < b.
Proof.
  intros Hcl Hl. unfold next.
  destruct (hast_at os l) as [node|] eqn:Hn; [|by intros []%elem_of_nil].
  pose proof (proj1 (closed_below_spec b os) Hcl l node Hl Hn) as Hrefs.
  assert (Hch : ∀ c, c ∈ default [] (children_of node) → c < b).
  { intros c'. by apply refs_below_children. }
  destruct node as [d ch p|tag props ch ct p|v p|v p|p|t];
    try (by intros []%elem_of_nil); [by apply Hch|].
  rewrite elem_of_app. intros [?|Hc]; [by apply Hch|].
  destruct (String.eqb tag "template"); [|by apply elem_of_nil in Hc].
  destruct ct as [f|]; [|by apply elem_of_nil in Hc].
  assert (Hf : f < b) by (by eapply refs_below_content).
  destruct (hast_at os f) as [nf|] eqn:Hnf; [|by apply elem_of_nil in Hc].
  pose proof (proj1 (closed_below_spec b os) Hcl f nf Hf Hnf) as Hrefs'.
  by eapply refs_below_children.
Qed.

Lemma rtc_steps_lt b os l x :
  closed_below b os = true → l < b → rtc (steps_to os) l x → x < b.
Proof.
  intros Hcl Hl Hx. induction Hx as [|l c x Hstep _ IH]; [done|].
  apply IH. eapply next_lt; [done|done|]. by apply steps_to_next.
Qed.

Lemma predict_all_node (f : loc → Verdict) cs :
  (∀ c, c ∈ cs → f c = VNode) → predict_all f cs = VNode.
Proof.
  induction cs as [|c cs IH]; intros H; simpl; [done|].
  rewrite (H c) by constructor. apply IH. intros; apply H; by constructor.
Qed.

Lemma predict_node n b os : ∀ l,
  closed_below b os = true → l < b →
  fits n os l = true →
  (∀ x, rtc (steps_to os) l x → has_handler os x = true ∧ lacks_content os x = false) →
  predict n os l = VNode.
Proof.
  induction n as [|n IH]; intros l Hcl Hl Hfits Hgood; [done|].
  cbn [fits] in Hfits. rewrite <-Is_true_true, forallb_True, Forall_forall in Hfits.
  assert (Hkids : ∀ c, c ∈ next os l → predict n os c = VNode).
  { intros c Hc. apply IH; [done|by eapply next_lt|by apply Is_true_true, Hfits|].
    intros x Hx. apply Hgood. eapply rtc_l; [|exact Hx]. by apply steps_to_next. }
  destruct (Hgood l (rtc_refl _ _)) as [Hh Hc]. unfold has_handler, lacks_content in Hh, Hc.
  unfold next in Hkids. cbn [predict].
  destruct (hast_at os l) as [node|] eqn:Hn; [|done].
  pose proof (proj1 (closed_below_spec b os) Hcl l node Hl Hn) as Hrefs.
  destruct node as [d ch p|tag props ch ct p|v p|v p|p|t]; try done.
  - by apply predict_all_node.
  - rewrite predict_all_node by (intros; apply Hkids, elem_of_app; auto).
    destruct (String.eqb tag "template"); [|done].
    destruct ct as [f|]; [|done].
    apply predict_all_node. intros; apply Hkids, elem_of_app; auto.
  - apply refs_below_other in Hrefs. cbn [type_of] in Hh. congruence.
Qed.

(** X1 (well-formed trees convert).  When every object that the conversion
    reaches from [tree] has one of the five types and no element named
    ["template"] among them lacks its [content], [toParse5] returns a node
    (it neither throws nor returns [undefined]) as soon as the fuel covers
    the levels of the tree, and that node is the conversion of [tree]. *)
Theorem toParse5_returns_node fuel tree space σ :
  closed_below (length (objs σ)) (objs σ) = true →
  tree < length (objs σ) →
  fits fuel (objs σ) tree = true →
  (∀ x, rtc (steps_to (objs σ)) tree x →
        has_handler (objs σ) x = true ∧ lacks_content (objs σ) x = false) →
  ∃ σ' r,
    toParse5 fuel tree space σ = (σ', Ok (Some r)) ∧
    Converted fuel (objs σ') (length (objs σ)) (length (objs σ')) tree
              (initial_schema space) r.
Proof.
  intros Hcl Htree Hfits Hgood.
  pose proof (toParse5_correct fuel tree space σ Hcl Htree) as H. unfold wp in H.
  destruct (toParse5 fuel tree space σ) as [σ' o]. cbn [fst snd] in H.
  destruct H as (_ & Hv & Hres).
  rewrite (predict_node fuel _ _ tree Hcl Htree Hfits Hgood) in Hv.
  apply verdict_of_VNode in Hv as [r ->].
  destruct Hres as (_ & _ & HC & _). by exists σ', r.
Qed.

(** Why a conversion does not return a node: the cause of an exception. *)
Definition thrown_because (os : list Obj) (tree : loc) (e : Error) : Prop :=
  (e = TypeError_set_of_undefined ∧
   ∃ p x, rtc (steps_to os) tree p ∧ steps_to os p x ∧ has_handler os x = false) ∨
  (e = TypeError_read_of_undefined ∧
   ∃ x, rtc (steps_to os) tree x ∧ lacks_content os x = true).

Lemma thrown_because_step os l c e :
  steps_to os l c → thrown_because os c e → thrown_because os l e.
Proof.
  intros Hstep [(-> & p & x & Hp & Hx & Hh)|(-> & x & Hx & Hc)]; [left|right];
    (split; [done|]).
  - exists p, x. split; [by eapply rtc_l|done].
  - exists x. split; [by eapply rtc_l|done].
Qed.

Lemma predict_all_cases (f : loc → Verdict) cs :
  match predict_all f cs with
  | VNode => True
  | VUndefined => False
  | VThrow e => (∃ c, c ∈ cs ∧ f c = VThrow e) ∨
                (e = TypeError_set_of_undefined ∧ ∃ c, c ∈ cs ∧ f c = VUndefined)
  | VFuel => ∃ c, c ∈ cs ∧ f c = VFuel
  end.
Proof.
  induction cs as [|c cs IH]; simpl; [done|].
  destruct (f c) eqn:Hc.
  - destruct (predict_all f cs) as [| |e|]; [done|done| |].
    + destruct IH as [(c' & ? & ?)|(-> & c' & ? & ?)]; [left|right; split; [done|]];
        exists c'; split; [by constructor|done|by constructor|done].
    + destruct IH as (c' & ? & ?). exists c'. split; [by constructor|done].
  - right. split; [done|]. exists c. split; [constructor|done].
  - left. exists c. split; [constructor|done].
  - exists c. split; [constructor|done].
Qed.

Lemma predict_cause n b os : ∀ l,
  closed_below b os = true → l < b →
  match predict n os l with
  | VNode => True
  | VUndefined => has_handler os l = false
  | VThrow e => thrown_because os l e
  | VFuel => fits n os l = false
  end.
Proof.
  induction n as [|n IH]; intros l Hcl Hl; [done|].
  assert (Hlist : ∀ cs, (∀ c, c ∈ cs → c ∈ next os l) →
            match predict_all (predict n os) cs with
            | VNode => True
            | VUndefined => False
            | VThrow e => thrown_because os l e
            | VFuel => fits (S n) os l = false
            end).
  { intros cs Hcs. pose proof (predict_all_cases (predict n os) cs) as Hcases.
    destruct (predict_all (predict n os) cs) as [| |e|]; [done|done| |].
    - destruct Hcases as [(c & Hc & Hv)|(-> & c & Hc & Hv)].
      + apply (thrown_because_step _ _ c); [by apply steps_to_next, Hcs|].
        specialize (IH c Hcl (next_lt _ _ _ _ Hcl Hl (Hcs c Hc))). by rewrite Hv in IH.
      + left. split; [done|]. exists l, c. split; [done|].
        split; [by apply steps_to_next, Hcs|].
        specialize (IH c Hcl (next_lt _ _ _ _ Hcl Hl (Hcs c Hc))). by rewrite Hv in IH.
    - destruct Hcases as (c & Hc & Hv).
      specialize (IH c Hcl (next_lt _ _ _ _ Hcl Hl (Hcs c Hc))). rewrite Hv in IH.
      cbn [fits]. apply not_true_is_false. rewrite <-Is_true_true, forallb_True, Forall_forall.
      intros Hall. specialize (Hall c (Hcs c Hc)). apply Is_true_true in Hall. congruence. }
  unfold next in Hlist. unfold has_handler. cbn [predict].
  destruct (hast_at os l) as [node|] eqn:Hn; [|done].
  pose proof (proj1 (closed_below_spec b os) Hcl l node Hl Hn) as Hrefs.
  destruct node as [d ch p|tag props ch ct p|v p|v p|p|t]; try done.
  - specialize (Hlist (default [] ch) ltac:(done)).
    by destruct (predict_all (predict n os) (default [] ch)).
  - pose proof (Hlist (default [] ch) ltac:(intros; apply elem_of_app; auto)) as Hch.
    destruct (predict_all (predict n os) (default [] ch)) as [| |e|]; try done.
    destruct (String.eqb tag "template") eqn:Htag; [|done].
    destruct ct as [f|].
    + specialize (Hlist (default [] (hast_at os f ≫= children_of))
                        ltac:(intros; apply elem_of_app; auto)).
      by destruct (predict_all (predict n os) (default [] (hast_at os f ≫= children_of))).
    + right. split; [done|]. exists l. split; [done|].
      unfold lacks_content. by rewrite Hn.
  - by apply refs_below_other in Hrefs.
Qed.

(** C7, as the code has it.  A top-level node of a type without a handler
    makes [toParse5] return [undefined]: nothing is thrown and the store is
    left as it was.  A node of such a type that the conversion reaches as a
    child (of a root, of an element, or of the content of a template
    element) makes [toParse5] throw, whatever else the tree holds, and what
    it throws is a [TypeError]: that of [child.parentNode = p5] in [all], or
    that of reading [children] in [fragment]; it is the former whenever no
    element named ["template"] that the conversion can reach lacks its
    [content]. *)
Theorem unknown_type_outcomes fuel tree space σ :
  closed_below (length (objs σ)) (objs σ) = true →
  tree < length (objs σ) →
  (∀ t, hast_at (objs σ) tree = Some (HOther t) → 0 < fuel →
        toParse5 fuel tree space σ = (σ, Ok None)) ∧
  (∀ y x t,
     steps_to (objs σ) tree y → rtc (steps_to (objs σ)) y x →
     hast_at (objs σ) x = Some (HOther t) →
     predict fuel (objs σ) tree ≠ VFuel →
     ∃ σ' e,
       toParse5 fuel tree space σ = (σ', Throw e) ∧
       (e = TypeError_set_of_undefined ∨ e = TypeError_read_of_undefined) ∧
       ((∀ z, rtc (steps_to (objs σ)) tree z → lacks_content (objs σ) z = false) →
        e = TypeError_set_of_undefined)).
Proof.
  intros Hcl Htree. split.
  - intros t Ht Hfuel.
    pose proof (toParse5_correct fuel tree space σ Hcl Htree) as H. unfold wp in H.
    destruct (toParse5 fuel tree space σ) as [σ' o]. cbn [fst snd] in H.
    destruct H as (_ & Hv & Hres).
    destruct fuel as [|fuel]; [lia|]. cbn [predict] in Hv. rewrite Ht in Hv.
    destruct o as [[r|]|e|]; cbn in Hv; congruence.
  - intros y x t Hstep Hrtc Hx Hfuel.
    assert (Hy : never_node (objs σ) y).
    { apply rtc_inv in Hrtc as [<-|(z & Hyz & Hzx)]; [by eapply never_node_other|].
      apply never_returns_node. eapply never_node_step; [exact Hyz|].
      clear Hyz. induction Hzx as [|a c' x' Hs _ IH]; [by eapply never_node_other|].
      apply never_returns_node. eapply never_node_step; [exact Hs|]. by apply IH. }
    destruct (toParse5_throws fuel tree space σ Hcl Htree) as (σ' & e & Hrun & Hv);
      [by eapply never_node_step|done|].
    pose proof (predict_cause fuel _ _ tree Hcl Htree) as Hcause. rewrite Hv in Hcause.
    exists σ', e. split; [done|].
    destruct Hcause as [(-> & _)|(-> & z & Hz & Hlack)].
    + split; [by left|done].
    + split; [by right|]. intros Hall. specialize (Hall z Hz). congruence.
Qed.

(** X2 (why a conversion fails).  [toParse5] returns [undefined] only for a
    tree whose own type has no handler, and then it changes nothing.  It
    throws only in two ways: the [TypeError] of [child.parentNode = p5] in
    [all], when an object it reaches has a child (or, for a template, a
    child of its content) without a handler; or the [TypeError] of reading
    [children] in [fragment], when an element named ["template"] that it
    reaches has no [content].  No other exception is thrown; the error that
    [toH] has for a tree that is not an element is never raised. *)
Theorem toParse5_failure_causes fuel tree space σ :
  closed_below (length (objs σ)) (objs σ) = true →
  tree < length (objs σ) →
  match (toParse5 fuel tree space σ).2 with
  | Ok (Some _) => True
  | Ok None =>
      has_handler (objs σ) tree = false ∧ (toParse5 fuel tree space σ).1 = σ
  | Throw e =>
      (e = TypeError_set_of_undefined ∧
       ∃ p x, rtc (steps_to (objs σ)) tree p ∧ steps_to (objs σ) p x ∧
              has_handler (objs σ) x = false) ∨
      (e = TypeError_read_of_undefined ∧
       ∃ x, rtc (steps_to (objs σ)) tree x ∧ lacks_content (objs σ) x = true)
  | OutOfFuel => fits fuel (objs σ) tree = false
  end.
Proof.
  intros Hcl Htree.
  pose proof (toParse5_correct fuel tree space σ Hcl Htree) as H. unfold wp in H.
  destruct (toParse5 fuel tree space σ) as [σ' o]. cbn [fst snd] in *.
  destruct H as (_ & Hv & Hres).
  pose proof (predict_cause fuel _ _ tree Hcl Htree) as Hcause. rewrite <-Hv in Hcause.
  destruct o as [[r|]|e|]; cbn [verdict_of] in Hcause; done.
Qed.

(** * The nodes of the returned tree, one by one *)

Lemma toParse5_converted fuel tree space σ :
  closed_below (length (objs σ)) (objs σ) = true →
  tree < length (objs σ) →
  predict fuel (objs σ) tree = VNode →
  ∃ σ' r,
    toParse5 fuel tree space σ = (σ', Ok (Some r)) ∧
    Converted fuel (objs σ') (length (objs σ)) (length (objs σ')) tree
              (initial_schema space) r ∧
    (∀ l, l < length (objs σ) → hast_at (objs σ') l = hast_at (objs σ) l).
Proof.
  intros Hcl Htree Hpred.
  pose proof (toParse5_correct fuel tree space σ Hcl Htree) as H. unfold wp in H.
  destruct (toParse5 fuel tree space σ) as [σ' o]. cbn [fst snd] in H.
  destruct H as ((_ & Hag & _) & Hv & Hres). rewrite Hpred in Hv.
  apply verdict_of_VNode in Hv as [r ->].
  destruct Hres as (_ & _ & HC & _).
  exists σ', r. split; [done|]. split; [done|].
  intros l Hl. by apply hast_at_agree, Hag.
Qed.

Lemma Converted_kind n os b hi l s r :
  Converted n os b hi l s r →
  ∃ node, hast_at os l = Some node ∧
    match node with
    | HRoot data _ _ =>
        nodeName_at os r = Some "#document" ∧
        kind_at os r = Some (KDocument (mode_of data))
    | HElement tag props _ _ _ =>
        nodeName_at os r = Some tag ∧
        ∃ attrs u, kind_at os r = Some (KElement tag attrs u)
    | HText v _ =>
        nodeName_at os r = Some "#text" ∧ kind_at os r = Some (KText (Some v))
    | HComment v _ =>
        nodeName_at os r = Some "#comment" ∧ kind_at os r = Some (KComment (Some v))
    | HDoctype _ =>
        nodeName_at os r = Some "#documentType" ∧
        kind_at os r = Some (KDoctype "html" "" "")
    | HOther _ => False
    end.
Proof.
  destruct n as [|n]; [done|]. cbn [Converted].
  intros (_ & _ & _ & node & Hnode & H). exists node. split; [done|].
  unfold nodeName_at, kind_at.
  destruct node as [d ch p|tag props ch ct p|v p|v p|p|t]; try done.
  - destruct H as (q & cs & -> & Hn & Hk & _). cbn. by rewrite Hn, Hk.
  - destruct H as (q & cs & -> & Hn & Hk & _). cbn. rewrite Hn, Hk. eauto.
  - destruct H as (q & -> & Hn & Hk & _). cbn. by rewrite Hn, Hk.
  - destruct H as (q & -> & Hn & Hk & _). cbn. by rewrite Hn, Hk.
  - destruct H as (q & -> & Hn & Hk & _). cbn. by rewrite Hn, Hk.
Qed.

(** X3 (what each source node becomes).  In the tree that [toParse5]
    returns, a root has become a [#document] whose mode is ["quirks"] exactly
    when [data.quirksMode] is true, an element an element of the same name
    (the tag name is taken as it is), a text a [#text] and a comment a
    [#comment] with the source value unchanged, and a doctype a
    [#documentType] named ["html"] with empty public and system identifiers,
    whatever the source doctype holds. *)
Theorem node_kinds fuel tree space σ :
  closed_below (length (objs σ)) (objs σ) = true →
  tree < length (objs σ) →
  predict fuel (objs σ) tree = VNode →
  ∃ σ' r,
    toParse5 fuel tree space σ = (σ', Ok (Some r)) ∧
    Converted fuel (objs σ') (length (objs σ)) (length (objs σ')) tree
              (initial_schema space) r ∧
    ∀ n l s a,
      Converted n (objs σ') (length (objs σ)) (length (objs σ')) l s a →
      ∃ node, hast_at (objs σ) l = Some node ∧
        match node with
        | HRoot data _ _ =>
            nodeName_at (objs σ') a = Some "#document" ∧
            kind_at (objs σ') a
              = Some (KDocument (match data ≫= quirksMode with
                                 | Some true => "quirks"
                                 | _ => "no-quirks"
                                 end))
        | HElement tag props _ _ _ =>
            nodeName_at (objs σ') a = Some tag ∧
            ∃ attrs u, kind_at (objs σ') a = Some (KElement tag attrs u)
        | HText v _ =>
            nodeName_at (objs σ') a = Some "#text" ∧
            kind_at (objs σ') a = Some (KText (Some v))
        | HComment v _ =>
            nodeName_at (objs σ') a = Some "#comment" ∧
            kind_at (objs σ') a = Some (KComment (Some v))
        | HDoctype _ =>
            nodeName_at (objs σ') a = Some "#documentType" ∧
            kind_at (objs σ') a = Some (KDoctype "html" "" "")
        | HOther _ => False
        end.
Proof.
  intros Hcl Htree Hpred.
  destruct (toParse5_converted fuel tree space σ Hcl Htree Hpred)
    as (σ' & r & Hrun & HC & Hag).
  exists σ', r. split; [done|]. split; [done|].
  intros n l s a HC'. pose proof (Converted_lt _ _ _ _ _ _ _ HC') as (Hl & _).
  destruct (Converted_kind _ _ _ _ _ _ _ HC') as (node & Hnode & Hk).
  exists node. split; [by rewrite <-Hag|]. exact Hk.
Qed.

Lemma Converted_childNodes n os b hi l s r :
  Converted n os b hi l s r →
  ∃ node, hast_at os l = Some node ∧
    match node with
    | HRoot _ children _ | HElement _ _ children _ _ =>
        ∃ cs, childNodes_at os r = Some cs ∧
              length cs = length (default [] children)
    | _ => childNodes_at os r = None
    end.
Proof.
  destruct n as [|n]; [done|]. cbn [Converted].
  intros (_ & _ & _ & node & Hnode & H). exists node. split; [done|].
  unfold childNodes_at.
  destruct node as [d ch p|tag props ch ct p|v p|v p|p|t]; try done.
  - destruct H as (q & cs & -> & _ & _ & _ & _ & Hcs & Hk). cbn.
    exists cs. split; [done|]. symmetry. by eapply Forall2_length.
  - destruct H as (q & cs & -> & _ & _ & _ & Hcs & Hk & _). cbn.
    exists cs. split; [done|]. symmetry. by eapply Forall2_length.
  - by destruct H as (q & -> & _ & _ & Hcs & _).
  - by destruct H as (q & -> & _ & _ & Hcs & _).
  - by destruct H as (q & -> & _ & _ & Hcs & _).
Qed.

(** X4 (the child lists).  In the tree that [toParse5] returns, the node
    made for a root or an element has a [childNodes] array with as many
    entries as the source has children; a source without a [children]
    field gets the empty array (the guard [if (children)] of [all]), and
    nothing is thrown for it.  The node made for a text, a comment or a
    doctype has no [childNodes] at all. *)
Theorem childNodes_shape fuel tree space σ :
  closed_below (length (objs σ)) (objs σ) = true →
  tree < length (objs σ) →
  predict fuel (objs σ) tree = VNode →
  ∃ σ' r,
    toParse5 fuel tree space σ = (σ', Ok (Some r)) ∧
    Converted fuel (objs σ') (length (objs σ)) (length (objs σ')) tree
              (initial_schema space) r ∧
    ∀ n l s a,
      Converted n (objs σ') (length (objs σ)) (length (objs σ')) l s a →
      ∃ node, hast_at (objs σ) l = Some node ∧
        match node with
        | HRoot _ (Some children) _ | HElement _ _ (Some children) _ _ =>
            ∃ cs, childNodes_at (objs σ') a = Some cs ∧ length cs = length children
        | HRoot _ None _ | HElement _ _ None _ _ =>
            childNodes_at (objs σ') a = Some []
        | _ => childNodes_at (objs σ') a = None
        end.
Proof.
  intros Hcl Htree Hpred.
  destruct (toParse5_converted fuel tree space σ Hcl Htree Hpred)
    as (σ' & r & Hrun & HC & Hag).
  exists σ', r. split; [done|]. split; [done|].
  intros n l s a HC'. pose proof (Converted_lt _ _ _ _ _ _ _ HC') as (Hl & _).
  destruct (Converted_childNodes _ _ _ _ _ _ _ HC') as (node & Hnode & Hk).
  exists node. split; [by rewrite <-Hag|].
  destruct node as [d [ch|] p|tag props [ch|] ct p|v p|v p|p|t]; try done;
    destruct Hk as (cs & Hcs & Hlen); cbn in Hlen.
  - by apply nil_length_inv in Hlen as ->.
  - by apply nil_length_inv in Hlen as ->.
Qed.

(** X5 (the [space] argument).  Only the exact string ["svg"] selects the
    SVG schema: the element that [toParse5] returns for an element tree is
    in the SVG namespace when [space] is ["svg"] or the element is named
    ["svg"], and in the HTML namespace for every other [space], an absent
    one among them. *)
Theorem toParse5_space fuel tree sp σ tag props ch ct pos :
  closed_below (length (objs σ)) (objs σ) = true →
  tree < length (objs σ) →
  hast_at (objs σ) tree = Some (HElement tag props ch ct pos) →
  predict fuel (objs σ) tree = VNode →
  ∃ σ' r,
    toParse5 fuel tree sp σ = (σ', Ok (Some r)) ∧
    nodeName_at (objs σ') r = Some tag ∧
    namespaceURI_at (objs σ') r
      = Some (ns (if bool_decide (sp = Some "svg") || String.eqb tag "svg"
                  then "svg" else "html")).
Proof.
  intros Hcl Htree Hnode Hpred.
  destruct (toParse5_converted fuel tree sp σ Hcl Htree Hpred)
    as (σ' & r & Hrun & HC & Hag).
  destruct fuel as [|n]; [done|].
  rewrite <-Hag in Hnode by done.
  destruct (Converted_element _ _ _ _ _ _ _ _ _ _ _ _ HC Hnode)
    as (cs & Hn & Hns & _).
  exists σ', r. split; [done|]. split; [done|]. rewrite Hns.
  unfold initial_schema, switch_schema.
  destruct (bool_decide (sp = Some "svg")); cbn [space orb].
  - change (String.eqb "svg" "html") with false. done.
  - change (String.eqb "html" "html") with true. cbn [andb].
    destruct (String.eqb_spec tag "svg") as [->|Hne].
    + by rewrite bool_decide_eq_true_2.
    + rewrite bool_decide_eq_false_2; [done|]. by intros [= ?].
Qed.

(** X6 (template content, anywhere in the tree).  In the tree that
    [toParse5] returns, the node made for an element named ["template"] has
    a [content]: a [#document-fragment] without a parent, located where the
    source content is, that holds one node for every child of the source
    content, each with the fragment as its parent.  Neither the fragment nor
    any of its nodes is among the [childNodes] of the element.  The node
    made for an element of any other name has no [content], even when the
    source has one. *)
Theorem template_content_anywhere fuel tree space σ :
  closed_below (length (objs σ)) (objs σ) = true →
  tree < length (objs σ) →
  predict fuel (objs σ) tree = VNode →
  ∃ σ' r,
    toParse5 fuel tree space σ = (σ', Ok (Some r)) ∧
    Converted fuel (objs σ') (length (objs σ)) (length (objs σ')) tree
              (initial_schema space) r ∧
    ∀ n l s a tag props ch ct pos,
      Converted n (objs σ') (length (objs σ)) (length (objs σ')) l s a →
      hast_at (objs σ) l = Some (HElement tag props ch ct pos) →
      if String.eqb tag "template"
      then ∃ c f cs fs,
             ct = Some c ∧ content_at (objs σ') a = Some f ∧
             nodeName_at (objs σ') f = Some "#document-fragment" ∧
             parent_at (objs σ') f = None ∧
             location_at (objs σ') f
               = location_of (hast_at (objs σ) c ≫= position_of) ∧
             childNodes_at (objs σ') f = Some fs ∧
             length fs = length (default [] (hast_at (objs σ) c ≫= children_of)) ∧
             childNodes_at (objs σ') a = Some cs ∧
             (f ∉ cs) ∧
             ∀ x, x ∈ fs → parent_at (objs σ') x = Some f ∧ (x ∉ cs)
      else content_at (objs σ') a = None.
Proof.
  intros Hcl Htree Hpred.
  destruct (toParse5_converted fuel tree space σ Hcl Htree Hpred)
    as (σ' & r & Hrun & HC & Hag).
  exists σ', r. split; [done|]. split; [done|].
  intros n l s a tag props ch ct pos HC' Hnode.
  pose proof (Converted_lt _ _ _ _ _ _ _ HC') as (Hl & _).
  destruct n as [|n]; [done|]. rewrite <-Hag in Hnode by done.
  pose proof HC' as (_ & _ & _ & node & Hnode' & Hb). cbn [Converted] in Hb.
  rewrite Hnode in Hnode'. injection Hnode' as <-.
  destruct Hb as (q & cs & Hq & _ & _ & _ & Hcs & Hkids & Htpl).
  cbn [content_of children_of] in *.
  destruct (String.eqb tag "template"); [|unfold content_at; by rewrite Hq].
  destruct Htpl as (c & f & -> & Hf & Haf & Hc & _ & pf & fs & Hpf & Hnf & _ & _ & Hparf
                    & Hlocf & Hfs & Hfkids).
  assert (Hpar_cs : ∀ x, x ∈ cs → parent_at (objs σ') x = Some a).
  { intros x Hx. unfold kids in Hkids.
    apply list_elem_of_lookup in Hx as [i Hi].
    destruct (Forall2_lookup_r _ _ _ _ _ Hkids Hi) as (c' & _ & _ & ? & _). done. }
  assert (Hpar_fs : ∀ x, x ∈ fs → parent_at (objs σ') x = Some f).
  { intros x Hx. unfold kids in Hfkids.
    apply list_elem_of_lookup in Hx as [i Hi].
    destruct (Forall2_lookup_r _ _ _ _ _ Hfkids Hi) as (c' & _ & _ & ? & _). done. }
  assert (Hpar_f : parent_at (objs σ') f = None).
  { unfold parent_at. by rewrite Hpf. }
  exists c, f, cs, fs. rewrite <-(Hag c) by done.
  split; [done|]. split; [unfold content_at; by rewrite Hq|].
  split; [unfold nodeName_at; by rewrite Hpf, <-Hnf|]. split; [done|].
  split; [unfold location_at; by rewrite Hpf|].
  split; [unfold childNodes_at; by rewrite Hpf|].
  split; [symmetry; by eapply Forall2_length|].
  split; [unfold childNodes_at; by rewrite Hq|].
  split.
  - intros Hin. apply Hpar_cs in Hin. congruence.
  - intros x Hx. split; [by apply Hpar_fs|].
    intros Hin. apply Hpar_cs in Hin. rewrite (Hpar_fs x Hx) in Hin.
    injection Hin as ->. lia.
Qed.

(** * Walking the returned tree *)

(** What lies directly below a produced node: its children were converted
    under the schema that [h] switched to, and so were the children of the
    fragment that is its content. *)
Lemma Converted_inv n os b hi l s r :
  Converted (S n) os b hi l s r →
  let s' := switch_schema s (hast_at os l ≫= tagName_of) in
  (b ≤ r < hi ∧ is_Some (p5_at os r)) ∧
  (∀ u, namespaceURI_at os r = Some u → u = ns (space s')) ∧
  Forall (λ a, ∃ c, Converted n os b hi c s' a) (default [] (childNodes_at os r)) ∧
  match content_at os r with
  | Some f =>
      (b ≤ f < hi ∧ is_Some (p5_at os f)) ∧
      namespaceURI_at os f = None ∧ content_at os f = None ∧
      Forall (λ a, ∃ c, Converted n os b hi c s' a) (default [] (childNodes_at os f))
  | None => True
  end.
Proof.
  intros HC. pose proof (Converted_lt _ _ _ _ _ _ _ HC) as (Hl & Hbr & Hrh).
  cbn [Converted] in HC. destruct HC as (_ & _ & _ & node & Hnode & H).
  rewrite Hnode. cbn [mbind option_bind]. cbv zeta.
  assert (Hkids : ∀ x ch s' cs, kids (Converted n os b hi) os x ch s' cs →
            Forall (λ a, ∃ c, Converted n os b hi c s' a) cs).
  { intros x ch s' cs Hk. apply Forall_forall. intros a Ha.
    apply list_elem_of_lookup in Ha as [i Hi].
    destruct (Forall2_lookup_r _ _ _ _ _ Hk Hi) as (c & _ & _ & _ & ?). eauto. }
  unfold namespaceURI_at, childNodes_at, content_at.
  destruct node as [d ch p|tag props ch ct p|v p|v p|p|t]; try done.
  - destruct H as (q & cs & Hq & _ & Hk & Hct & _ & Hcs & Hkd).
    rewrite Hq. cbn [mbind option_bind]. rewrite Hk, Hcs, Hct. cbn [default].
    repeat split; try done. cbn [tagName_of].
    replace (switch_schema s None) with s by (by destruct s). by eapply Hkids.
  - unfold built_by_h in H. cbv zeta in H.
    destruct H as (q & cs & Hq & _ & Hk & _ & Hcs & Hkd & Htpl).
    cbn [tagName_of children_of content_of] in *.
    assert (Hs : switch_schema (attr_schema s tag) (Some tag)
                 = switch_schema s (Some tag)).
    { unfold attr_schema. destruct probes; [done|]. apply switch_schema_idem. }
    rewrite Hs in *.
    rewrite Hq. cbn [mbind option_bind]. rewrite Hk, Hcs. cbn [default].
    split; [done|]. split; [by intros u [= <-]|]. split; [by eapply Hkids|].
    destruct (String.eqb tag "template").
    + destruct Htpl as (c & f & _ & -> & Hrf & _ & Hfh & pf & fs & Hpf & _ & Hkf & Hcf & _
                        & _ & Hfs & Hfk).
      rewrite Hpf. cbn [mbind option_bind]. rewrite Hkf, Hcf, Hfs. cbn [default].
      repeat split; try done; [lia|by eapply Hkids].
    + by rewrite Htpl.
  - destruct H as (q & Hq & _ & Hk & Hcs & Hct & _).
    rewrite Hq. cbn [mbind option_bind]. rewrite Hk, Hcs, Hct. by repeat split.
  - destruct H as (q & Hq & _ & Hk & Hcs & Hct & _).
    rewrite Hq. cbn [mbind option_bind]. rewrite Hk, Hcs, Hct. by repeat split.
  - destruct H as (q & Hq & _ & Hk & Hcs & Hct & _).
    rewrite Hq. cbn [mbind option_bind]. rewrite Hk, Hcs, Hct. by repeat split.
Qed.

Lemma elem_of_flat_map {A B} (f : A → list B) (l : list A) (x : B) :
  x ∈ flat_map f l ↔ ∃ y, y ∈ l ∧ x ∈ f y.
Proof.
  rewrite list_elem_of_In, in_flat_map. split; intros (y & Hy & Hx); exists y.
  - by rewrite !list_elem_of_In.
  - by rewrite <-!list_elem_of_In.
Qed.

Lemma nodes_below_cases k os r x :
  x ∈ nodes_below (S k) os r →
  x = r ∨
  (∃ a, a ∈ default [] (childNodes_at os r) ∧ x ∈ nodes_below k os a) ∨
  (∃ f, content_at os r = Some f ∧ x ∈ nodes_below k os f).
Proof.
  cbn [nodes_below]. rewrite elem_of_cons, elem_of_app, elem_of_flat_map.
  intros [?|[?|Hx]]; [auto|auto|]. right; right.
  destruct (content_at os r) as [f|]; [eauto|by apply elem_of_nil in Hx].
Qed.

Lemma svg_below os b hi : ∀ k n l s r x u,
  Converted n os b hi l s r →
  switch_schema s (hast_at os l ≫= tagName_of) = svg →
  x ∈ nodes_below k os r → namespaceURI_at os x = Some u → u = ns "svg".
Proof.
  induction k as [k IH] using lt_wf_ind. intros n l s r x u HC Hs Hx Hu.
  destruct k as [|k]; [by apply elem_of_nil in Hx|].
  destruct n as [|n]; [done|].
  destruct (Converted_inv _ _ _ _ _ _ _ HC) as (_ & Hns & Hch & Hct).
  rewrite Hs in Hns, Hch, Hct.
  assert (Hkids : ∀ cs a, Forall (λ a, ∃ c, Converted n os b hi c svg a) cs →
            a ∈ cs → ∀ k', k' < S k → x ∈ nodes_below k' os a → u = ns "svg").
  { intros cs a Hall Ha k' Hk' Hxa. rewrite Forall_forall in Hall.
    destruct (Hall a Ha) as (c & HCa). by eapply (IH k' Hk' _ _ _ _ _ _ HCa). }
  apply nodes_below_cases in Hx as [->|[(a & Ha & Hx)|(f & Hf & Hx)]].
  - by apply Hns.
  - eapply (Hkids _ a Hch Ha k); [lia|done].
  - rewrite Hf in Hct. destruct Hct as (_ & Hnf & Hcf & Hfch).
    destruct k as [|k]; [by apply elem_of_nil in Hx|].
    apply nodes_below_cases in Hx as [->|[(a & Ha & Hx)|(f' & Hf' & Hx)]].
    + congruence.
    + eapply (Hkids _ a Hfch Ha k); [lia|done].
    + congruence.
Qed.

Lemma fresh_below os b hi : ∀ k n l s r x,
  Converted n os b hi l s r → x ∈ nodes_below k os r →
  b ≤ x < hi ∧ is_Some (p5_at os x).
Proof.
  induction k as [k IH] using lt_wf_ind. intros n l s r x HC Hx.
  destruct k as [|k]; [by apply elem_of_nil in Hx|].
  destruct n as [|n]; [done|].
  destruct (Converted_inv _ _ _ _ _ _ _ HC) as (Hr & _ & Hch & Hct).
  assert (Hkids : ∀ s' cs a, Forall (λ a, ∃ c, Converted n os b hi c s' a) cs →
            a ∈ cs → ∀ k', k' < S k → x ∈ nodes_below k' os a →
            b ≤ x < hi ∧ is_Some (p5_at os x)).
  { intros s' cs a Hall Ha k' Hk' Hxa. rewrite Forall_forall in Hall.
    destruct (Hall a Ha) as (c & HCa). by eapply (IH k' Hk' _ _ _ _ _ HCa). }
  apply nodes_below_cases in Hx as [->|[(a & Ha & Hx)|(f & Hf & Hx)]].
  - done.
  - eapply (Hkids _ _ a Hch Ha k); [lia|done].
  - rewrite Hf in Hct. destruct Hct as (Hfr & _ & Hcf & Hfch).
    destruct k as [|k]; [by apply elem_of_nil in Hx|].
    apply nodes_below_cases in Hx as [->|[(a & Ha & Hx)|(f' & Hf' & Hx)]].
    + done.
    + eapply (Hkids _ _ a Hfch Ha k); [lia|done].
    + congruence.
Qed.

Lemma Converted_namespace_None n os b hi l s r node :
  Converted n os b hi l s r → hast_at os l = Some node →
  tagName_of node = None → namespaceURI_at os r = None.
Proof.
  intros HC Hnode Htag.
  destruct (Converted_kind _ _ _ _ _ _ _ HC) as (node' & Hnode' & Hk).
  rewrite Hnode in Hnode'. injection Hnode' as <-.
  unfold namespaceURI_at. unfold kind_at in Hk.
  destruct (p5_at os r) as [q|]; [|done]. cbn in *.
  destruct node as [d ch p|tag props ch ct p|v p|v p|p|t]; try done;
    destruct Hk as (_ & [= ->]); done.
Qed.

(** Below a node that was converted under the SVG schema, every produced
    node is either not an element, or the element made for a source element
    with its attributes looked up in the SVG schema. *)
Lemma svg_subtree os b hi : ∀ k n l r x,
  Converted n os b hi l svg r → x ∈ nodes_below k os r →
  namespaceURI_at os x = None ∨
  ∃ l' tag' props' ch' ct' pos',
    l' < b ∧ hast_at os l' = Some (HElement tag' props' ch' ct' pos') ∧
    nodeName_at os x = Some tag' ∧
    attrs_at os x = Some (h_values svg (toH_attributes "svg" tag' props')) ∧
    namespaceURI_at os x = Some (ns "svg").
Proof.
  induction k as [k IH] using lt_wf_ind. intros n l r x HC Hx.
  destruct k as [|k]; [by apply elem_of_nil in Hx|].
  destruct n as [|n]; [done|].
  destruct (Converted_inv _ _ _ _ _ _ _ HC) as (_ & _ & Hch & Hct).
  replace (switch_schema svg (hast_at os l ≫= tagName_of)) with svg in Hch, Hct
    by (by destruct (hast_at os l ≫= tagName_of)).
  apply nodes_below_cases in Hx as [->|[(a & Ha & Hx)|(f & Hf & Hx)]].
  - pose proof (Converted_lt _ _ _ _ _ _ _ HC) as (Hl & _).
    pose proof HC as (_ & _ & _ & node & Hnode & _).
    destruct node as [d ch p|tag props ch ct p|v p|v p|p|t];
      try (left; by eapply Converted_namespace_None).
    destruct (Converted_element _ _ _ _ _ _ _ _ _ _ _ _ HC Hnode)
      as (cs & Hn & Hns & Hattrs & _).
    right. exists l, tag, props, ch, ct, p. split; [done|]. split; [done|].
    split; [done|]. split; [|done].
    rewrite Hattrs. unfold attr_schema. by destruct probes.
  - rewrite Forall_forall in Hch. destruct (Hch a Ha) as (c & HCa).
    by eapply (IH k ltac:(lia) _ _ _ _ HCa).
  - rewrite Hf in Hct. destruct Hct as (_ & Hnf & Hcf & Hfch).
    destruct k as [|k]; [by apply elem_of_nil in Hx|].
    apply nodes_below_cases in Hx as [->|[(a & Ha & Hx)|(f' & Hf' & Hx)]].
    + by left.
    + rewrite Forall_forall in Hfch. destruct (Hfch a Ha) as (c & HCa).
      by eapply (IH k ltac:(lia) _ _ _ _ HCa).
    + congruence.
Qed.

(** C3 (the switch to SVG).  [toH] calls [h] on a [div] before the call
    that builds the element; with these calls made, in the tree that
    [toParse5] returns the node made for an element named ["svg"] that was
    met while the schema was HTML has each of its attributes looked up in
    the SVG schema, not the HTML one, and is in the SVG namespace; and every
    element below it, through [childNodes] and template content alike, is
    the element made for a source element with its attributes looked up in
    the SVG schema, in the SVG namespace. *)
Theorem svg_switch_covers_own_attributes fuel tree sp σ :
  0 < probes →
  closed_below (length (objs σ)) (objs σ) = true →
  tree < length (objs σ) →
  predict fuel (objs σ) tree = VNode →
  ∃ σ' r,
    toParse5 fuel tree sp σ = (σ', Ok (Some r)) ∧
    Converted fuel (objs σ') (length (objs σ)) (length (objs σ')) tree
              (initial_schema sp) r ∧
    ∀ n l a props ch ct pos,
      Converted n (objs σ') (length (objs σ)) (length (objs σ')) l html a →
      hast_at (objs σ) l = Some (HElement "svg" props ch ct pos) →
      attrs_at (objs σ') a
        = Some (h_values svg (toH_attributes "html" "svg" props)) ∧
      namespaceURI_at (objs σ') a = Some (ns "svg") ∧
      ∀ k x, x ∈ nodes_below k (objs σ') a → x ≠ a →
        namespaceURI_at (objs σ') x = None ∨
        ∃ l' tag' props' ch' ct' pos',
          hast_at (objs σ) l' = Some (HElement tag' props' ch' ct' pos') ∧
          nodeName_at (objs σ') x = Some tag' ∧
          attrs_at (objs σ') x
            = Some (h_values svg (toH_attributes "svg" tag' props')) ∧
          namespaceURI_at (objs σ') x = Some (ns "svg").
Proof.
  intros Hprobes Hcl Htree Hpred.
  destruct (toParse5_converted fuel tree sp σ Hcl Htree Hpred)
    as (σ' & r & Hrun & HC & Hag).
  exists σ', r. split; [done|]. split; [done|].
  intros n l a props ch ct pos HC' Hnode.
  pose proof (Converted_lt _ _ _ _ _ _ _ HC') as (Hl & _).
  destruct n as [|n]; [done|]. rewrite <-Hag in Hnode by done.
  destruct (Converted_element _ _ _ _ _ _ _ _ _ _ _ _ HC' Hnode)
    as (cs & _ & Hns & Hattrs & _).
  split; [|split; [exact Hns|]].
  { rewrite Hattrs. unfold attr_schema. destruct probes; [lia|done]. }
  assert (Hsub : ∀ k' c a' x,
            Converted n (objs σ') (length (objs σ)) (length (objs σ')) c svg a' →
            x ∈ nodes_below k' (objs σ') a' →
            namespaceURI_at (objs σ') x = None ∨
            ∃ l' tag' props' ch' ct' pos',
              hast_at (objs σ) l' = Some (HElement tag' props' ch' ct' pos') ∧
              nodeName_at (objs σ') x = Some tag' ∧
              attrs_at (objs σ') x
                = Some (h_values svg (toH_attributes "svg" tag' props')) ∧
              namespaceURI_at (objs σ') x = Some (ns "svg")).
  { intros k' c a' x HCa Hx.
    destruct (svg_subtree _ _ _ _ _ _ _ _ HCa Hx)
      as [?|(l' & tag' & props' & ch' & ct' & pos' & Hl' & Hn' & ?)]; [by left|].
    right. exists l', tag', props', ch', ct', pos'. by rewrite <-Hag. }
  destruct (Converted_inv _ _ _ _ _ _ _ HC') as (_ & _ & Hch & Hct).
  rewrite Hnode in Hch, Hct. cbn [mbind option_bind tagName_of] in Hch, Hct.
  change (switch_schema html (Some "svg")) with svg in Hch, Hct.
  intros k x Hx Hne.
  destruct k as [|k]; [by apply elem_of_nil in Hx|].
  apply nodes_below_cases in Hx as [->|[(a' & Ha' & Hx)|(f & Hf & Hx)]]; [done| |].
  - rewrite Forall_forall in Hch. destruct (Hch a' Ha') as (c & HCa). by eapply Hsub.
  - rewrite Hf in Hct. destruct Hct as (_ & Hnf & Hcf & Hfch).
    destruct k as [|k]; [by apply elem_of_nil in Hx|].
    apply nodes_below_cases in Hx as [->|[(a' & Ha' & Hx)|(f' & Hf' & Hx)]].
    + by left.
    + rewrite Forall_forall in Hfch. destruct (Hfch a' Ha') as (c & HCa). by eapply Hsub.
    + congruence.
Qed.

(** X7 (no way back from SVG).  In the tree that [toParse5] returns, below a
    node that was converted under the SVG schema, or that was made for an
    element named ["svg"], every element is in the SVG namespace, the
    elements inside the content of a template among them: no element name
    switches the schema back to HTML.  With [space] set to ["svg"] this is
    the whole returned tree. *)
Theorem svg_is_never_left fuel tree space σ :
  closed_below (length (objs σ)) (objs σ) = true →
  tree < length (objs σ) →
  predict fuel (objs σ) tree = VNode →
  ∃ σ' r,
    toParse5 fuel tree space σ = (σ', Ok (Some r)) ∧
    Converted fuel (objs σ') (length (objs σ)) (length (objs σ')) tree
              (initial_schema space) r ∧
    (∀ n l s a,
       Converted n (objs σ') (length (objs σ)) (length (objs σ')) l s a →
       s = svg ∨ hast_at (objs σ) l ≫= tagName_of = Some "svg" →
       ∀ k x u, x ∈ nodes_below k (objs σ') a →
                namespaceURI_at (objs σ') x = Some u → u = ns "svg") ∧
    (space = Some "svg" →
     ∀ k x u, x ∈ nodes_below k (objs σ') r →
              namespaceURI_at (objs σ') x = Some u → u = ns "svg").
Proof.
  intros Hcl Htree Hpred.
  destruct (toParse5_converted fuel tree space σ Hcl Htree Hpred)
    as (σ' & r & Hrun & HC & Hag).
  assert (Hany : ∀ n l s a,
            Converted n (objs σ') (length (objs σ)) (length (objs σ')) l s a →
            s = svg ∨ hast_at (objs σ) l ≫= tagName_of = Some "svg" →
            ∀ k x u, x ∈ nodes_below k (objs σ') a →
                     namespaceURI_at (objs σ') x = Some u → u = ns "svg").
  { intros n l s a HC' Hs k x u Hx Hu.
    pose proof (Converted_lt _ _ _ _ _ _ _ HC') as (Hl & _).
    eapply svg_below; [exact HC'| |exact Hx|exact Hu].
    rewrite Hag by done. destruct Hs as [-> | Hs]; [done|]. rewrite Hs. by destruct s. }
  exists σ', r. split; [done|]. split; [done|]. split; [exact Hany|].
  intros -> k x u. apply (Hany _ _ _ _ HC). by left.
Qed.

(** X8 (the result is made of new objects).  Every node of the tree that
    [toParse5] returns, at any depth and through [childNodes] and [content]
    alike, is a parse5 object that did not exist before the call: the
    result shares no object with the source tree or with the result of an
    earlier conversion. *)
Theorem result_is_fresh fuel tree space σ :
  closed_below (length (objs σ)) (objs σ) = true →
  tree < length (objs σ) →
  predict fuel (objs σ) tree = VNode →
  ∃ σ' r,
    toParse5 fuel tree space σ = (σ', Ok (Some r)) ∧
    ∀ k x, x ∈ nodes_below k (objs σ') r →
           objs σ !! x = None ∧ is_Some (p5_at (objs σ') x).
Proof.
  intros Hcl Htree Hpred.
  destruct (toParse5_converted fuel tree space σ Hcl Htree Hpred)
    as (σ' & r & Hrun & HC & Hag).
  exists σ', r. split; [done|]. intros k x Hx.
  destruct (fresh_below _ _ _ _ _ _ _ _ _ HC Hx) as ((Hb & _) & Hp).
  split; [by apply lookup_ge_None_2|done].
Qed.


(** * The text of the tree *)

Lemma omap_flat_map {A B C} (f : B → option C) (g : A → list B) (l : list A) :
  omap f (flat_map g l) = flat_map (λ x, omap f (g x)) l.
Proof. induction l as [|x l IH]; [done|]. cbn [flat_map]. by rewrite omap_app, IH. Qed.

Lemma flat_map_elem_ext {A B} (f g : A → list B) (l : list A) :
  (∀ x, x ∈ l → f x = g x) → flat_map f l = flat_map g l.
Proof.
  induction l as [|x l IH]; intros H; [done|]. cbn [flat_map].
  rewrite (H x) by constructor. rewrite IH; [done|]. intros; apply H. by constructor.
Qed.

Lemma next_agree b os os' l :
  (∀ a, a < b → os' !! a = os !! a) →
  closed_below b os = true → l < b → next os' l = next os l.
Proof.
  intros Hag Hcl Hl. unfold next. rewrite (hast_at_agree os os' l) by auto.
  destruct (hast_at os l) as [node|] eqn:Hn; [|done].
  pose proof (proj1 (closed_below_spec b os) Hcl l node Hl Hn) as Hrefs.
  destruct node as [d ch p|tag props ch [f|] p|v p|v p|p|t]; try done.
  assert (f < b) by (by eapply refs_below_content).
  by rewrite (hast_at_agree os os' f) by auto.
Qed.

Lemma texts_of_agree n b os os' : ∀ l,
  (∀ a, a < b → os' !! a = os !! a) →
  closed_below b os = true → l < b → texts_of n os' l = texts_of n os l.
Proof.
  induction n as [|n IH]; intros l Hag Hcl Hl; [done|]. cbn [texts_of].
  rewrite (hast_at_agree os os' l), (next_agree b os os' l) by auto.
  assert (flat_map (texts_of n os') (next os l) = flat_map (texts_of n os) (next os l))
    as ->; [|done].
  apply flat_map_elem_ext. intros c Hc. apply IH; [done|done|]. by eapply next_lt.
Qed.

Lemma texts_kids n os b hi k x ch s cs :
  (∀ l s r, Converted n os b hi l s r →
            omap (text_value_at os) (nodes_below k os r) = texts_of n os l) →
  kids (Converted n os b hi) os x ch s cs →
  omap (text_value_at os) (flat_map (nodes_below k os) cs)
  = flat_map (texts_of n os) (default [] ch).
Proof.
  intros IH Hk. rewrite omap_flat_map. unfold kids in Hk.
  induction Hk as [|c a cs' as' (_ & _ & HC) _ IHk]; [done|].
  cbn [flat_map]. by rewrite IHk, (IH _ _ _ HC).
Qed.

Lemma texts_Converted os b hi : ∀ n k l s r,
  Converted n os b hi l s r → 2 * n ≤ k →
  omap (text_value_at os) (nodes_below k os r) = texts_of n os l.
Proof.
  induction n as [|n IH]; intros k l s r HC Hk; [done|].
  destruct k as [|k]; [lia|]. destruct k as [|k]; [lia|].
  assert (IH1 : ∀ l s r, Converted n os b hi l s r →
            omap (text_value_at os) (nodes_below (S k) os r) = texts_of n os l).
  { intros; eapply IH; [done|lia]. }
  assert (IH2 : ∀ l s r, Converted n os b hi l s r →
            omap (text_value_at os) (nodes_below k os r) = texts_of n os l).
  { intros; eapply IH; [done|lia]. }
  cbn [Converted] in HC. destruct HC as (_ & _ & _ & node & Hnode & H).
  cbn [texts_of]. unfold next. rewrite Hnode.
  change (nodes_below (S (S k)) os r)
    with (r :: flat_map (nodes_below (S k) os) (default [] (childNodes_at os r)) ++
               match content_at os r with
               | Some f => nodes_below (S k) os f
               | None => []
               end).
  cbn [omap list_omap]. unfold text_value_at at 1, childNodes_at, content_at.
  destruct node as [d ch p|tag props ch ct p|v p|v p|p|t]; try done.
  - destruct H as (q & cs & Hq & _ & Hkd & Hct & _ & Hcs & Hkids).
    rewrite Hq. cbn [mbind option_bind]. rewrite Hkd, Hcs, Hct. cbn [default from_option id].
    rewrite app_nil_r. by eapply texts_kids.
  - unfold built_by_h in H. cbv zeta in H.
    destruct H as (q & cs & Hq & _ & Hkd & _ & Hcs & Hkids & Htpl).
    cbn [tagName_of children_of content_of] in *.
    rewrite Hq. cbn [mbind option_bind]. rewrite Hkd, Hcs. cbn [default from_option id].
    rewrite omap_app, flat_map_app, (texts_kids _ _ _ _ _ _ _ _ _ IH1 Hkids).
    f_equal. destruct (String.eqb tag "template").
    + destruct Htpl as (c & f & -> & -> & _ & _ & _ & pf & fs & Hpf & _ & Hkf & Hcf & _
                        & _ & Hfs & Hfk).
      cbn [nodes_below omap list_omap]. unfold text_value_at at 1, childNodes_at, content_at.
      rewrite Hpf. cbn [mbind option_bind]. rewrite Hkf, Hfs, Hcf. cbn [default from_option id].
      rewrite app_nil_r. by eapply texts_kids.
    + by rewrite Htpl.
  - destruct H as (q & Hq & _ & Hkd & Hcs & Hct & _).
    rewrite Hq. cbn [mbind option_bind]. rewrite Hkd, Hcs, Hct. done.
  - destruct H as (q & Hq & _ & Hkd & Hcs & Hct & _).
    rewrite Hq. cbn [mbind option_bind]. rewrite Hkd, Hcs, Hct. done.
  - destruct H as (q & Hq & _ & Hkd & Hcs & Hct & _).
    rewrite Hq. cbn [mbind option_bind]. rewrite Hkd, Hcs, Hct. done.
Qed.

(** X9 (the text is kept).  The values of the [#text] nodes of the tree
    that [toParse5] returns, read in document order (the content of a
    template after its child nodes), are the values of the text nodes of
    the source tree in the same order: no text is lost, added, changed or
    moved.  [k] is the depth to which the returned tree is walked; twice the
    levels of the source reach all of it, a content fragment being one level
    more than the source has. *)
Theorem text_is_kept fuel tree space σ :
  closed_below (length (objs σ)) (objs σ) = true →
  tree < length (objs σ) →
  predict fuel (objs σ) tree = VNode →
  ∃ σ' r,
    toParse5 fuel tree space σ = (σ', Ok (Some r)) ∧
    ∀ k, 2 * fuel ≤ k →
         omap (text_value_at (objs σ')) (nodes_below k (objs σ') r)
         = texts_of fuel (objs σ) tree.
Proof.
  intros Hcl Htree Hpred.
  pose proof (toParse5_correct fuel tree space σ Hcl Htree) as H. unfold wp in H.
  destruct (toParse5 fuel tree space σ) as [σ' o]. cbn [fst snd] in H.
  destruct H as ((_ & Hag & _) & Hv & Hres). rewrite Hpred in Hv.
  apply verdict_of_VNode in Hv as [r ->].
  destruct Hres as (_ & _ & HC & _).
  exists σ', r. split; [done|]. intros k Hk.
  rewrite (texts_Converted _ _ _ _ _ _ _ _ HC Hk).
  by apply (texts_of_agree fuel (length (objs σ))).
Qed.

(** X10 (the attributes of every element).  In the tree that [toParse5]
    returns, the node made for an element that was converted under the
    schema [s] carries the attributes that the loop of [h] makes of the
    attribute object that [toH] builds from the element's properties for
    the space of [s]: in their order, looked up in [s], or in the schema
    that [h] switches to when [toH] has called [h] for this element before. *)
Theorem element_attributes fuel tree sp σ :
  closed_below (length (objs σ)) (objs σ) = true →
  tree < length (objs σ) →
  predict fuel (objs σ) tree = VNode →
  ∃ σ' r,
    toParse5 fuel tree sp σ = (σ', Ok (Some r)) ∧
    Converted fuel (objs σ') (length (objs σ)) (length (objs σ')) tree
              (initial_schema sp) r ∧
    ∀ n l s a tag props ch ct pos,
      Converted n (objs σ') (length (objs σ)) (length (objs σ')) l s a →
      hast_at (objs σ) l = Some (HElement tag props ch ct pos) →
      attrs_at (objs σ') a
      = Some (h_values (match probes with
                        | 0 => s
                        | S _ => switch_schema s (Some tag)
                        end)
                       (toH_attributes (space s) tag props)).
Proof.
  intros Hcl Htree Hpred.
  destruct (toParse5_converted fuel tree sp σ Hcl Htree Hpred)
    as (σ' & r & Hrun & HC & Hag).
  exists σ', r. split; [done|]. split; [done|].
  intros n l s a tag props ch ct pos HC' Hnode.
  pose proof (Converted_lt _ _ _ _ _ _ _ HC') as (Hl & _).
  destruct n as [|n]; [done|]. rewrite <-Hag in Hnode by done.
  destruct (Converted_element _ _ _ _ _ _ _ _ _ _ _ _ HC' Hnode)
    as (cs & _ & _ & Hattrs & _).
  exact Hattrs.
Qed.

(** * The attributes of the elements of the returned tree *)

Lemma h_attribute_value schema key v :
  value <$> h_attribute schema key v
  = spec_attribute_value (boolean (find schema key)) v.
Proof.
  unfold h_attribute, spec_attribute_value.
  destruct v as [[|]|str|num]; cbn [is_false is_true ToBoolean]; [|done| |].
  - rewrite andb_false_r.
    by destruct (foreign_space (find schema key)); [destruct (String.index 0 ":" key)|].
  - destruct (boolean (find schema key) && negb (negb (String.eqb str ""))); [done|].
    by destruct (foreign_space (find schema key)); [destruct (String.index 0 ":" key)|].
  - destruct (boolean (find schema key) && negb (ToBoolean_number num)); [done|].
    by destruct (foreign_space (find schema key)); [destruct (String.index 0 ":" key)|].
Qed.


Lemma h_values_giving (R : string * AttrValue → P5Attribute → Prop) schema attrs :
  (∀ key v a, h_attribute schema key v = Some a → R (key, v) a) →
  Forall2 R (giving_entries schema attrs) (h_values schema attrs).
Proof.
  intros HR. unfold giving_entries, h_values.
  induction attrs as [|[key v] attrs IH]; [constructor|].
  cbn [filter list_filter omap list_omap fst snd].
  pose proof (h_attribute_value schema key v) as Hv.
  destruct (h_attribute schema key v) as [a|] eqn:Ha; cbn in Hv; rewrite <-Hv.
  - rewrite decide_True by eauto. constructor; [by apply HR|done].
  - rewrite decide_False by (by intros [? [=]]). done.
Qed.


(** C9, as the code has it.  In the tree that [toParse5] returns, the
    [attrs] entries of the node made for an element stand, one for one and
    in order, for the entries of the attribute object that [toH] hands to
    [h] (each property under its attribute name) that give an entry.  When
    the active schema gives such a key a space other than the empty string,
    ["html"] and ["svg"], the entry carries the resolved namespace and a
    [prefix]: without a colon in the key, the name is the whole key and the
    prefix is the empty string, present; with a colon, the key is split at
    its first colon into prefix and name.  Otherwise the entry has the key
    as its name and neither a prefix nor a namespace. *)
Theorem attrs_foreign_of_elements fuel tree sp σ :
  closed_below (length (objs σ)) (objs σ) = true →
  tree < length (objs σ) →
  predict fuel (objs σ) tree = VNode →
  ∃ σ' r,
    toParse5 fuel tree sp σ = (σ', Ok (Some r)) ∧
    Converted fuel (objs σ') (length (objs σ)) (length (objs σ')) tree
              (initial_schema sp) r ∧
    ∀ n l s a tag props ch ct pos,
      Converted n (objs σ') (length (objs σ)) (length (objs σ')) l s a →
      hast_at (objs σ) l = Some (HElement tag props ch ct pos) →
      let active := match probes with
                    | 0 => s
                    | S _ => switch_schema s (Some tag)
                    end in
      ∃ vs,
        attrs_at (objs σ') a = Some vs ∧
        Forall2
          (λ kv x,
             match info_space (find active kv.1) with
             | Some fsp =>
                 if String.eqb fsp "" || String.eqb fsp "html" || String.eqb fsp "svg"
                 then name x = kv.1 ∧ prefix x = None ∧ namespace x = None
                 else
                   namespace x = Some (ns fsp) ∧
                   match String.index 0 ":" kv.1 with
                   | None => name x = kv.1 ∧ prefix x = Some ""
                   | Some _ =>
                       ∃ pre, prefix x = Some pre ∧
                              kv.1 = (pre ++ ":" ++ name x)%string ∧
                              String.index 0 ":" pre = None
                   end
             | None => name x = kv.1 ∧ prefix x = None ∧ namespace x = None
             end)
          (giving_entries active (toH_attributes (space s) tag props)) vs.
Proof.
  intros Hcl Htree Hpred.
  destruct (toParse5_converted fuel tree sp σ Hcl Htree Hpred)
    as (σ' & r & Hrun & HC & Hag).
  exists σ', r. split; [done|]. split; [done|].
  intros n l s a tag props ch ct pos HC' Hnode active.
  pose proof (Converted_lt _ _ _ _ _ _ _ HC') as (Hl & _).
  destruct n as [|n]; [done|]. rewrite <-Hag in Hnode by done.
  destruct (Converted_element _ _ _ _ _ _ _ _ _ _ _ _ HC' Hnode)
    as (cs & _ & _ & Hattrs & _).
  eexists. split; [exact Hattrs|].
  apply h_values_giving. intros key v x Hx. cbn [fst].
  exact (h_attribute_foreign _ _ _ _ Hx).
Qed.

(** * The conversion of a tree and of its parts *)

Lemma toParse5_converted_frame fuel tree space σ :
  closed_below (length (objs σ)) (objs σ) = true →
  tree < length (objs σ) →
  predict fuel (objs σ) tree = VNode →
  ∃ σ' r,
    toParse5 fuel tree space σ = (σ', Ok (Some r)) ∧
    Converted fuel (objs σ') (length (objs σ)) (length (objs σ')) tree
              (initial_schema space) r ∧
    (∀ a, a < length (objs σ) → objs σ' !! a = objs σ !! a).
Proof.
  intros Hcl Htree Hpred.
  pose proof (toParse5_correct fuel tree space σ Hcl Htree) as H. unfold wp in H.
  destruct (toParse5 fuel tree space σ) as [σ' o]. cbn [fst snd] in H.
  destruct H as ((_ & Hag & _) & Hv & Hres). rewrite Hpred in Hv.
  apply verdict_of_VNode in Hv as [r ->].
  destruct Hres as (_ & _ & HC & _). by exists σ', r.
Qed.

Lemma Converted_kids n os b hi l s r node :
  Converted (S n) os b hi l s r → hast_at os l = Some node →
  Forall2 (λ c a, Converted n os b hi c (switch_schema s (tagName_of node)) a)
          (default [] (children_of node)) (default [] (childNodes_at os r)).
Proof.
  cbn [Converted]. intros (_ & _ & _ & node' & Hnode' & H) Hnode.
  rewrite Hnode in Hnode'. injection Hnode' as <-.
  assert (Hkids : ∀ ch s' cs, kids (Converted n os b hi) os r ch s' cs →
            Forall2 (λ c a, Converted n os b hi c s' a) (default [] ch) cs).
  { intros ch s' cs Hk. eapply Forall2_impl; [exact Hk|]. by intros c a (_ & _ & ?). }
  unfold childNodes_at.
  destruct node as [d ch p|tag props ch ct p|v p|v p|p|t]; try done.
  - destruct H as (q & cs & Hq & _ & _ & _ & _ & Hcs & Hk).
    rewrite Hq. cbn [mbind option_bind tagName_of]. rewrite Hcs.
    replace (switch_schema s None) with s by (by destruct s).
    by apply Hkids.
  - unfold built_by_h in H. cbv zeta in H.
    destruct H as (q & cs & Hq & _ & _ & _ & Hcs & Hk & _).
    cbn [tagName_of children_of] in *.
    assert (Hs : switch_schema (attr_schema s tag) (Some tag)
                 = switch_schema s (Some tag)).
    { unfold attr_schema. destruct probes; [done|]. apply switch_schema_idem. }
    rewrite Hs in Hk. rewrite Hq. cbn [mbind option_bind]. rewrite Hcs. by apply Hkids.
  - destruct H as (q & Hq & _ & _ & Hcs & _).
    rewrite Hq. cbn [mbind option_bind]. rewrite Hcs. constructor.
  - destruct H as (q & Hq & _ & _ & Hcs & _).
    rewrite Hq. cbn [mbind option_bind]. rewrite Hcs. constructor.
  - destruct H as (q & Hq & _ & _ & Hcs & _).
    rewrite Hq. cbn [mbind option_bind]. rewrite Hcs. constructor.
Qed.

Lemma predict_all_node_inv (f : loc → Verdict) cs c :
  predict_all f cs = VNode → c ∈ cs → f c = VNode.
Proof.
  induction cs as [|c' cs IH]; intros H Hc; [by apply elem_of_nil in Hc|].
  simpl in H. apply elem_of_cons in Hc as [->|Hc].
  - by destruct (f c').
  - destruct (f c'); try done. by apply IH.
Qed.

Lemma predict_child n os l node c :
  hast_at os l = Some node → predict (S n) os l = VNode →
  c ∈ default [] (children_of node) → predict n os c = VNode.
Proof.
  intros Hnode Hpred Hc. cbn [predict] in Hpred. rewrite Hnode in Hpred.
  destruct node as [d ch p|tag props ch ct p|v p|v p|p|t];
    try (by apply elem_of_nil in Hc); cbn [children_of] in Hc.
  - by eapply predict_all_node_inv.
  - destruct (predict_all (predict n os) (default [] ch)) eqn:Hch; try done.
    by eapply predict_all_node_inv.
Qed.

(** X11 (a tree and its parts).  The tree that [toParse5] returns for a
    node holds, as its i-th child, a tree equal up to addresses to the one
    that [toParse5] returns for the i-th source child converted on its
    own, in the same space, or in the space ["svg"] when the node is an
    element named ["svg"]: the conversion of a child does not depend on
    its parent or on its siblings. *)
Theorem conversion_composes n tree sp σ node :
  closed_below (length (objs σ)) (objs σ) = true →
  tree < length (objs σ) →
  hast_at (objs σ) tree = Some node →
  predict (S n) (objs σ) tree = VNode →
  ∃ σ' r,
    toParse5 (S n) tree sp σ = (σ', Ok (Some r)) ∧
    Forall2 (λ c a,
               ∃ σ2 r2,
                 toParse5 n c (if bool_decide (tagName_of node = Some "svg")
                               then Some "svg" else sp) σ
                 = (σ2, Ok (Some r2)) ∧
                 structurally_equal (objs σ') (objs σ2) a r2)
            (default [] (children_of node))
            (default [] (childNodes_at (objs σ') r)).
Proof.
  intros Hcl Htree Hnode Hpred.
  destruct (toParse5_converted_frame (S n) tree sp σ Hcl Htree Hpred)
    as (σ' & r & Hrun & HC & Hag).
  exists σ', r. split; [done|].
  assert (Hnode' : hast_at (objs σ') tree = Some node).
  { rewrite <-Hnode. by apply hast_at_agree, Hag. }
  pose proof (Converted_kids _ _ _ _ _ _ _ _ HC Hnode') as Hkids.
  set (sp' := if bool_decide (tagName_of node = Some "svg") then Some "svg" else sp).
  assert (Hs : switch_schema (initial_schema sp) (tagName_of node) = initial_schema sp').
  { unfold sp', switch_schema, initial_schema.
    destruct (bool_decide (tagName_of node = Some "svg")).
    - rewrite andb_true_r. change (bool_decide (Some "svg" = Some "svg")) with true.
      by destruct (bool_decide (sp = Some "svg")).
    - by rewrite andb_false_r. }
  rewrite Hs in Hkids.
  apply Forall2_same_length_lookup. split; [by eapply Forall2_length|].
  intros i c a Hi Ha.
  pose proof (Forall2_lookup_lr _ _ _ _ _ _ Hkids Hi Ha) as HCa.
  assert (Hc : c ∈ default [] (children_of node)) by (by eapply list_elem_of_lookup_2).
  pose proof (Converted_lt _ _ _ _ _ _ _ HCa) as (Hcb & _).
  pose proof (predict_child _ _ _ _ _ Hnode Hpred Hc) as Hpc.
  destruct (toParse5_converted_frame n c sp' σ Hcl Hcb Hpc)
    as (σ2 & r2 & Hrun2 & HC2 & Hag2).
  exists σ2, r2. split; [done|].
  eapply Converted_structurally_equal; [|exact HCa|exact HC2].
  intros x Hx. by rewrite Hag, Hag2.
Qed.

End Conversion.

Arguments VBool {number} b.
Arguments VString {number} s.
Arguments VNumber {number} n.
Arguments mkPoint {number} line column offset.
Arguments mkPosition {number} start end_.
Arguments HRoot {number Properties} data children position.
Arguments HElement {number Properties} tagName properties children content position.
Arguments HText {number Properties} value position.
Arguments HComment {number Properties} value position.
Arguments HDoctype {number Properties} position.
Arguments HOther {number Properties} type.
Arguments mkLocation {number} startLine startCol startOffset endLine endCol endOffset.
Arguments mkP5 {number} nodeName kind childNodes content parentNode sourceCodeLocation.
Arguments OHast {number Properties} n.
Arguments OP5 {number Properties} p.
Arguments OHastAssigned {number Properties} n assigned.
Arguments mkState {number Properties} objs plog.
Arguments objs {number Properties} s.
Arguments plog {number Properties} s.
Arguments hast_at {number Properties} os l.
Arguments parent_at {number Properties} os a.
Arguments childNodes_at {number Properties} os a.
Arguments attrs_at {number Properties} os a.
Arguments namespaceURI_at {number Properties} os a.
Arguments location_at {number Properties} os a.
Arguments closed_below {number Properties} b os.
Arguments predict {number Properties} n os l.
Arguments predict_h {number Properties} n os node name.
Arguments steps_to {number Properties} os l c.
Arguments structurally_equal {number Properties} os1 os2 _ _.
Arguments svg_example {number Properties} pdiv psvg prect pspan.
Arguments template_example {number Properties} ptemplate.
Arguments nodeName_at {number Properties} os a.
Arguments kind_at {number Properties} os a.
Arguments content_at {number Properties} os a.
Arguments next {number Properties} os l.
Arguments fits {number Properties} n os l.
Arguments has_handler {number Properties} os x.
Arguments lacks_content {number Properties} os x.
Arguments nodes_below {number Properties} n os r.
Arguments texts_of {number Properties} n os l.
Arguments text_value_at {number Properties} os x.

(** * An instance of the collaborators, and inputs to run the conversion on *)

Definition sample_String_number (n : Z) : string := pretty n.

Definition sample_ToBoolean_number (n : Z) : bool := bool_decide (n ≠ 0%Z).

(** A few entries of property-information: [hidden] and [disabled] are
    boolean in HTML and unknown to SVG; [xlink:href], [xml:lang] and [xmlns]
    belong to the namespaces [xlink], [xml] and [xmlns] in both schemas. *)
Definition sample_find (schema : Schema) (key : string) : Info :=
  if String.eqb key "hidden" || String.eqb key "disabled" then
    match schema with html => mkInfo true (Some "html") | svg => mkInfo false None end
  else if String.eqb key "xlink:href" then mkInfo false (Some "xlink")
  else if String.eqb key "xml:lang" then mkInfo false (Some "xml")
  else if String.eqb key "xmlns" then mkInfo false (Some "xmlns")
  else mkInfo false None.

(** The table of web-namespaces. *)
Definition sample_ns (key : string) : JsString :=
  if String.eqb key "html" then Some "http://www.w3.org/1999/xhtml"
  else if String.eqb key "mathml" then Some "http://www.w3.org/1998/Math/MathML"
  else if String.eqb key "svg" then Some "http://www.w3.org/2000/svg"
  else if String.eqb key "xlink" then Some "http://www.w3.org/1999/xlink"
  else if String.eqb key "xml" then Some "http://www.w3.org/XML/1998/namespace"
  else if String.eqb key "xmlns" then Some "http://www.w3.org/2000/xmlns/"
  else None.

(** Properties that are attributes already. *)
Definition sample_toH_attributes (space tagName : string) (properties : Attrs Z) : Attrs Z :=
  properties.

Definition sample_toParse5 (probes fuel : nat) (tree : loc) (space : option string)
    : M Z (Attrs Z) (option loc) :=
  toParse5 Z sample_String_number sample_ToBoolean_number (Attrs Z)
           sample_find sample_ns sample_toH_attributes probes fuel tree space.

Definition sample_h (node : loc) (schema : Schema) (name : string) (attrs : Attrs Z)
    : M Z (Attrs Z) (loc * Schema) :=
  h Z sample_String_number sample_ToBoolean_number (Attrs Z) sample_find sample_ns
    (one Z sample_String_number sample_ToBoolean_number (Attrs Z)
         sample_find sample_ns sample_toH_attributes 0 1)
    node schema name attrs.

Definition sample_h_values : Schema → Attrs Z → list P5Attribute :=
  h_values Z sample_String_number sample_ToBoolean_number sample_find sample_ns.

Definition sample_h_attribute : Schema → string → AttrValue Z → option P5Attribute :=
  h_attribute Z sample_String_number sample_ToBoolean_number sample_find sample_ns.

(** [<div><svg hidden="" xlink:href="#a"><rect/></svg><span/></div>] *)
Definition sample_svg_state : State Z (Attrs Z) :=
  mkState (svg_example [] [("hidden", VString ""); ("xlink:href", VString "#a")] [] []) [].

(** A text node with a position, below a root. *)
Definition sample_position : Position Z :=
  mkPosition (Some (mkPoint 1%Z 1%Z (Some 0%Z))) (Some (mkPoint 1%Z 4%Z (Some 3%Z))).

Definition sample_text_state : State Z (Attrs Z) :=
  mkState [OHast (HRoot None (Some [1; 2]) None);
           OHast (HText "abc" (Some sample_position));
           OHast (HComment "no position" None)] [].

(** A node of an unknown type, alone and as a child. *)
Definition sample_unknown_state : State Z (Attrs Z) :=
  mkState [OHast (HOther "mystery")] [].

Definition sample_unknown_child_state : State Z (Attrs Z) :=
  mkState [OHast (HRoot None (Some [1]) None);
           OHast (HElement "p" [] (Some [2]) None None);
           OHast (HOther "mystery")] [].

(** A template element without content, below a root. *)
Definition sample_template_state : State Z (Attrs Z) :=
  mkState [OHast (HRoot None (Some [1]) None);
           OHast (HElement "template" [] (Some []) None None)] [].

(** An [<svg hidden="">] on its own. *)
Definition sample_svg_alone : State Z (Attrs Z) :=
  mkState [OHast (HElement "svg" [("hidden", VString "")] (Some []) None None)] [].

(** A few entries of property-information more: the attribute name under
    which [toH] hands a property to its callback. *)
Definition sample_attribute_name (property : string) : string :=
  if String.eqb property "xLinkHref" then "xlink:href"
  else if String.eqb property "xmlLang" then "xml:lang"
  else if String.eqb property "className" then "class"
  else property.

Definition named_toH_attributes (space tagName : string) (properties : Attrs Z) : Attrs Z :=
  map (λ kv, (sample_attribute_name kv.1, kv.2)) properties.

(** [toParse5] with properties under their hast names, and [toH] calling
    back on a [div] three times before it builds. *)
Definition named_toParse5 (fuel : nat) (tree : loc) (space : option string)
    : M Z (Attrs Z) (option loc) :=
  toParse5 Z sample_String_number sample_ToBoolean_number (Attrs Z)
           sample_find sample_ns named_toH_attributes 3 fuel tree space.

(** [<a xLinkHref="#a" xmlns="u">] *)
Definition sample_link_state : State Z (Attrs Z) :=
  mkState [OHast (HElement "a" [("xLinkHref", VString "#a"); ("xmlns", VString "u")]
                           (Some []) None None)] [].


(** * The conversion run on the inputs *)

Example boolean_attribute_false :
  sample_h_values html [("disabled", VBool false)] = [].
Proof. reflexivity. Qed.

Example boolean_attribute_true :
  sample_h_values html [("disabled", VBool true)] = [mkAttr "disabled" "" None None].
Proof. reflexivity. Qed.

Example boolean_attribute_falsy_string :
  sample_h_values html [("hidden", VString ""); ("id", VString "")]
  = [mkAttr "id" "" None None].
Proof. reflexivity. Qed.

Example number_attribute :
  sample_h_values html [("width", VNumber 100%Z); ("tabindex", VNumber (-1)%Z)]
  = [mkAttr "width" "100" None None; mkAttr "tabindex" "-1" None None].
Proof. vm_compute. reflexivity. Qed.

Example foreign_attribute_without_colon :
  sample_h_attribute html "xmlns" (VString "u")
  = Some (mkAttr "xmlns" "u" (Some "") (Some (Some "http://www.w3.org/2000/xmlns/"))).
Proof. reflexivity. Qed.

Example foreign_attribute_with_colon :
  sample_h_attribute html "xml:lang" (VString "en")
  = Some (mkAttr "lang" "en" (Some "xml")
                 (Some (Some "http://www.w3.org/XML/1998/namespace"))).
Proof. reflexivity. Qed.

Example text_and_comment_below_a_root :
  sample_toParse5 0 2 0 None sample_text_state
  = (mkState
       (objs sample_text_state ++
        [OP5 (mkP5 "#document" (KDocument "no-quirks") (Some [4; 5]) None None None);
         OP5 (mkP5 "#text" (KText (Some "abc")) None None (Some 3)
                   (Some (mkLocation 1%Z 1%Z (Some 0%Z) 1%Z 4%Z (Some 3%Z))));
         OP5 (mkP5 "#comment" (KComment (Some "no position")) None None (Some 3) None)])
       [(4, 3); (5, 3)],
     Ok (Some 3)).
Proof. vm_compute. reflexivity. Qed.

Example quirks_mode :
  (sample_toParse5 0 1 0 None
     (mkState [OHast (HRoot (Some (mkData (Some true))) None None)] [])).1
  = mkState [OHast (HRoot (Some (mkData (Some true))) None None);
             OP5 (mkP5 "#document" (KDocument "quirks") (Some []) None None None)] [].
Proof. vm_compute. reflexivity. Qed.

Example doctype_defaults :
  (sample_toParse5 0 1 0 None (mkState [OHast (HDoctype None)] [])).1
  = mkState [OHast (HDoctype None);
             OP5 (mkP5 "#documentType" (KDoctype "html" "" "") None None None None)] [].
Proof. vm_compute. reflexivity. Qed.

Example unknown_child_throws :
  (sample_toParse5 0 3 0 None sample_unknown_child_state).2
  = Throw TypeError_set_of_undefined.
Proof. vm_compute. reflexivity. Qed.

Example template_without_content :
  (sample_toParse5 0 2 1 None sample_template_state).2
  = Throw TypeError_read_of_undefined.
Proof. vm_compute. reflexivity. Qed.

(** The same [<svg hidden="">] through [toParse5]: a [toH] that calls [h]
    once leaves the lookup to the HTML schema, one that has called it before
    finds the variable switched. *)
Example svg_attributes_by_number_of_calls :
  attrs_at (objs (sample_toParse5 0 1 0 None sample_svg_alone).1) 2 = Some [] ∧
  attrs_at (objs (sample_toParse5 1 1 0 None sample_svg_alone).1) 3
    = Some [mkAttr "hidden" "" None None].
Proof. split; vm_compute; reflexivity. Qed.

(** An assignment made on a source object shows in the store: had [all]
    assigned [parentNode] on the source child instead of the produced one,
    the source would have changed. *)
Example assignment_on_a_source_object :
  objs (assign Z (Attrs Z) 1 (set_parentNode Z 3) sample_text_state).1 !! 1
  = Some (OHastAssigned (HText "abc" (Some sample_position)) [set_parentNode Z 3]) ∧
  objs (sample_toParse5 3 2 0 None sample_text_state).1 !! 1
  = Some (OHast (HText "abc" (Some sample_position))).
Proof. split; reflexivity. Qed.

(** * The theorems at work *)

Lemma toParse5_parent_links_witness :
  closed_below 4 (objs sample_svg_state) = true ∧
  0 < length (objs sample_svg_state) ∧
  predict 3 (objs sample_svg_state) 0 = VNode ∧
  ∃ σ' r lg,
    sample_toParse5 0 3 0 None sample_svg_state = (σ', Ok (Some r)) ∧
    plog σ' = lg ∧
    parent_at (objs σ') r = None.
Proof.
  split; [reflexivity|]. split; [cbn; lia|]. split; [reflexivity|].
  destruct (toParse5_parent_links Z sample_String_number sample_ToBoolean_number (Attrs Z)
              sample_find sample_ns sample_toH_attributes 0 3 0 None sample_svg_state
              eq_refl ltac:(cbn; lia) eq_refl)
    as (σ' & r & lg & Hrun & Hlog & Hpar & _).
  exists σ', r, lg. split; [exact Hrun|]. split; [exact Hlog|exact Hpar].
Defined.

Lemma svg_switch_covers_own_attributes_witness :
  0 < 3 ∧
  closed_below 4 (objs sample_svg_state) = true ∧
  1 < length (objs sample_svg_state) ∧
  predict 2 (objs sample_svg_state) 1 = VNode ∧
  ∃ σ' r,
    sample_toParse5 3 2 1 None sample_svg_state = (σ', Ok (Some r)) ∧
    attrs_at (objs σ') r
      = Some [mkAttr "hidden" "" None None;
              mkAttr "href" "#a" (Some "xlink") (Some (Some "http://www.w3.org/1999/xlink"))] ∧
    namespaceURI_at (objs σ') r = Some (Some "http://www.w3.org/2000/svg").
Proof.
  split; [lia|]. split; [reflexivity|]. split; [cbn; lia|]. split; [reflexivity|].
  destruct (svg_switch_covers_own_attributes Z sample_String_number sample_ToBoolean_number
              (Attrs Z) sample_find sample_ns sample_toH_attributes 3 2 1 None
              sample_svg_state ltac:(lia) eq_refl ltac:(cbn; lia) eq_refl)
    as (σ' & r & Hrun & HC & Hall).
  exists σ', r. split; [exact Hrun|].
  destruct (Hall _ _ _ [("hidden", VString ""); ("xlink:href", VString "#a")]
                 (Some [2]) None None HC eq_refl) as (Hattrs & Hns & _).
  split; [exact Hattrs|exact Hns].
Defined.


(** C9 as stated fails for the names of properties: the property
    [xLinkHref] has no colon in its name and its schema entry gives it the
    space [xlink], yet its [attrs] entry does not keep the property name
    with an empty prefix; it is named [href] with the prefix [xlink],
    because [h] is handed the property under its attribute name,
    [xlink:href]. *)
Lemma foreign_property_is_split_at_its_attribute_name :
  String.index 0 ":" "xLinkHref" = None ∧
  info_space (sample_find html (sample_attribute_name "xLinkHref")) = Some "xlink" ∧
  (named_toParse5 1 0 None sample_link_state).2 = Ok (Some 5) ∧
  attrs_at (objs (named_toParse5 1 0 None sample_link_state).1) 5
  = Some [mkAttr "href" "#a" (Some "xlink") (Some (Some "http://www.w3.org/1999/xlink"));
          mkAttr "xmlns" "u" (Some "") (Some (Some "http://www.w3.org/2000/xmlns/"))].
Proof. repeat split; vm_compute; reflexivity. Qed.

Lemma attrs_foreign_of_elements_witness :
  closed_below 1 (objs sample_link_state) = true ∧
  0 < length (objs sample_link_state) ∧
  predict 1 (objs sample_link_state) 0 = VNode ∧
  ∃ σ' r x1 x2,
    named_toParse5 1 0 None sample_link_state = (σ', Ok (Some r)) ∧
    attrs_at (objs σ') r = Some [x1; x2] ∧
    namespace x1 = Some (Some "http://www.w3.org/1999/xlink") ∧
    (∃ pre, prefix x1 = Some pre ∧
            "xlink:href" = (pre ++ ":" ++ name x1)%string ∧
            String.index 0 ":" pre = None) ∧
    namespace x2 = Some (Some "http://www.w3.org/2000/xmlns/") ∧
    name x2 = "xmlns" ∧ prefix x2 = Some "".
Proof.
  split; [reflexivity|]. split; [cbn; lia|]. split; [reflexivity|].
  destruct (attrs_foreign_of_elements Z sample_String_number sample_ToBoolean_number
              (Attrs Z) sample_find sample_ns named_toH_attributes 3 1 0 None
              sample_link_state eq_refl ltac:(cbn; lia) eq_refl)
    as (σ' & r & Hrun & HC & Hall).
  destruct (Hall _ _ _ _ "a" [("xLinkHref", VString "#a"); ("xmlns", VString "u")]
                 (Some []) None None HC eq_refl) as (vs & Hattrs & HF).
  change (giving_entries _ _ _ _ _ _)
    with [("xlink:href", VString (number := Z) "#a"); ("xmlns", VString "u")] in HF.
  apply Forall2_cons_inv_l in HF as (x1 & vs1 & H1 & HF & ->).
  apply Forall2_cons_inv_l in HF as (x2 & vs2 & H2 & HF & ->).
  apply Forall2_nil_inv_l in HF as ->.
  exists σ', r, x1, x2. split; [exact Hrun|]. split; [exact Hattrs|].
  cbn in H1, H2. destruct H1 as (Hns1 & Hsplit1). destruct H2 as (Hns2 & Hn2 & Hp2).
  split; [exact Hns1|]. split; [exact Hsplit1|]. split; [exact Hns2|].
  split; [exact Hn2|exact Hp2].
Defined.

Lemma location_passthrough_witness :
  closed_below 3 (objs sample_text_state) = true ∧
  1 < length (objs sample_text_state) ∧
  predict 1 (objs sample_text_state) 1 = VNode ∧
  ∃ σ' r,
    sample_toParse5 0 1 1 None sample_text_state = (σ', Ok (Some r)) ∧
    location_at (objs σ') r
      = Some (mkLocation 1%Z 1%Z (Some 0%Z) 1%Z 4%Z (Some 3%Z)).
Proof.
  split; [reflexivity|]. split; [cbn; lia|]. split; [reflexivity|].
  destruct (location_passthrough Z sample_String_number sample_ToBoolean_number (Attrs Z)
              sample_find sample_ns sample_toH_attributes 0 1 1 None sample_text_state
              eq_refl ltac:(cbn; lia) eq_refl)
    as (σ' & r & Hrun & HC & Hloc).
  exists σ', r. split; [exact Hrun|].
  destruct (Hloc _ _ _ _ HC) as (node & Hnode & Hl).
  injection Hnode as <-. exact Hl.
Defined.

(** C7 as stated fails: a lone node of a type without a handler is not
    rejected; [toParse5] returns [undefined] and throws nothing. *)
Lemma toParse5_unknown_type_returns_undefined :
  sample_toParse5 0 1 0 None sample_unknown_state = (sample_unknown_state, Ok None).
Proof. vm_compute. reflexivity. Qed.

Lemma unknown_type_outcomes_witness :
  closed_below 3 (objs sample_unknown_child_state) = true ∧
  0 < length (objs sample_unknown_child_state) ∧
  steps_to (objs sample_unknown_child_state) 0 1 ∧
  rtc (steps_to (objs sample_unknown_child_state)) 1 2 ∧
  hast_at (objs sample_unknown_child_state) 2 = Some (HOther "mystery") ∧
  predict 3 (objs sample_unknown_child_state) 0 ≠ VFuel ∧
  (∀ z, rtc (steps_to (objs sample_unknown_child_state)) 0 z →
        lacks_content (objs sample_unknown_child_state) z = false) ∧
  ∃ σ', sample_toParse5 0 3 0 None sample_unknown_child_state
        = (σ', Throw TypeError_set_of_undefined).
Proof.
  assert (H01 : steps_to (objs sample_unknown_child_state) 0 1) by (cbn; constructor).
  assert (H12 : rtc (steps_to (objs sample_unknown_child_state)) 1 2).
  { apply rtc_once. cbn. left. constructor. }
  assert (Hfuel : predict 3 (objs sample_unknown_child_state) 0 ≠ VFuel) by (vm_compute; discriminate).
  assert (Hall : ∀ z, rtc (steps_to (objs sample_unknown_child_state)) 0 z →
                      lacks_content (objs sample_unknown_child_state) z = false).
  { intros z Hz.
    assert (z < 3) as Hlt.
    { exact (rtc_steps_lt Z (Attrs Z) 3 (objs sample_unknown_child_state) 0 z
               eq_refl ltac:(lia) Hz). }
    destruct z as [|[|[|z]]]; [reflexivity..|lia]. }
  split; [reflexivity|]. split; [cbn; lia|]. split; [exact H01|]. split; [exact H12|].
  split; [reflexivity|]. split; [exact Hfuel|]. split; [exact Hall|].
  destruct (proj2 (unknown_type_outcomes Z sample_String_number sample_ToBoolean_number
                     (Attrs Z) sample_find sample_ns sample_toH_attributes 0 3 0 None
                     sample_unknown_child_state eq_refl ltac:(cbn; lia))
                  1 2 "mystery" H01 H12 eq_refl Hfuel)
    as (σ' & e & Hrun & _ & He).
  exists σ'. rewrite <-(He Hall). exact Hrun.
Defined.

Lemma toParse5_leaves_input_witness :
  closed_below 4 (objs sample_svg_state) = true ∧
  0 < length (objs sample_svg_state) ∧
  (∀ a, a < 4 →
     objs (sample_toParse5 0 3 0 None sample_svg_state).1 !! a
     = objs sample_svg_state !! a) ∧
  structurally_equal
    (objs (sample_toParse5 0 3 0 None sample_svg_state).1)
    (objs (sample_toParse5 0 3 0 None (sample_toParse5 0 3 0 None sample_svg_state).1).1)
    5 13.
Proof.
  pose proof (toParse5_leaves_input Z sample_String_number sample_ToBoolean_number (Attrs Z)
                sample_find sample_ns sample_toH_attributes 0 3 0 None sample_svg_state)
    as (Hframe & _ & Hsame).
  split; [reflexivity|]. split; [cbn; lia|]. split; [exact Hframe|].
  destruct (Hsame eq_refl ltac:(cbn; lia)) as (_ & Heq).
  apply Heq; vm_compute; reflexivity.
Defined.


(** * The further theorems at work *)

(** A template with the text ["x"] as its content. *)
Definition sample_template_content : State Z (Attrs Z) :=
  mkState (template_example []) [].

Lemma toParse5_returns_node_witness :
  closed_below 3 (objs sample_text_state) = true ∧
  0 < length (objs sample_text_state) ∧
  fits 2 (objs sample_text_state) 0 = true ∧
  (∀ x, rtc (steps_to (objs sample_text_state)) 0 x →
        has_handler (objs sample_text_state) x = true ∧
        lacks_content (objs sample_text_state) x = false) ∧
  ∃ σ' r, sample_toParse5 0 2 0 None sample_text_state = (σ', Ok (Some r)).
Proof.
  assert (Hgood : ∀ x, rtc (steps_to (objs sample_text_state)) 0 x →
            has_handler (objs sample_text_state) x = true ∧
            lacks_content (objs sample_text_state) x = false).
  { intros x Hx.
    assert (x < 3) as Hlt.
    { exact (rtc_steps_lt Z (Attrs Z) 3 (objs sample_text_state) 0 x
               eq_refl ltac:(lia) Hx). }
    destruct x as [|[|[|x]]]; [split; reflexivity..|lia]. }
  split; [reflexivity|]. split; [cbn; lia|]. split; [reflexivity|]. split; [exact Hgood|].
  destruct (toParse5_returns_node Z sample_String_number sample_ToBoolean_number (Attrs Z)
              sample_find sample_ns sample_toH_attributes 0 2 0 None sample_text_state
              eq_refl ltac:(cbn; lia) eq_refl Hgood)
    as (σ' & r & Hrun & _).
  exists σ', r. exact Hrun.
Defined.

Lemma toParse5_failure_causes_witness :
  closed_below 3 (objs sample_unknown_child_state) = true ∧
  0 < length (objs sample_unknown_child_state) ∧
  (sample_toParse5 0 3 0 None sample_unknown_child_state).2
    = Throw TypeError_set_of_undefined ∧
  ∃ p x, rtc (steps_to (objs sample_unknown_child_state)) 0 p ∧
         steps_to (objs sample_unknown_child_state) p x ∧
         has_handler (objs sample_unknown_child_state) x = false.
Proof.
  assert (Hrun : (sample_toParse5 0 3 0 None sample_unknown_child_state).2
                 = Throw TypeError_set_of_undefined) by (vm_compute; reflexivity).
  split; [reflexivity|]. split; [cbn; lia|]. split; [exact Hrun|].
  pose proof (toParse5_failure_causes Z sample_String_number sample_ToBoolean_number
                (Attrs Z) sample_find sample_ns sample_toH_attributes 0 3 0 None
                sample_unknown_child_state eq_refl ltac:(cbn; lia)) as H.
  unfold sample_toParse5 in Hrun. rewrite Hrun in H.
  destruct H as [(_ & Hcause)|(Habs & _)]; [exact Hcause|discriminate Habs].
Defined.

Lemma node_kinds_witness :
  closed_below 3 (objs sample_text_state) = true ∧
  0 < length (objs sample_text_state) ∧
  predict 2 (objs sample_text_state) 0 = VNode ∧
  ∃ σ' r,
    sample_toParse5 0 2 0 None sample_text_state = (σ', Ok (Some r)) ∧
    nodeName_at (objs σ') r = Some "#document" ∧
    kind_at (objs σ') r = Some (KDocument "no-quirks").
Proof.
  split; [reflexivity|]. split; [cbn; lia|]. split; [reflexivity|].
  destruct (node_kinds Z sample_String_number sample_ToBoolean_number (Attrs Z)
              sample_find sample_ns sample_toH_attributes 0 2 0 None sample_text_state
              eq_refl ltac:(cbn; lia) eq_refl)
    as (σ' & r & Hrun & HC & Hall).
  exists σ', r. split; [exact Hrun|].
  destruct (Hall _ _ _ _ HC) as (node & Hnode & Hk).
  injection Hnode as <-. exact Hk.
Defined.

Lemma childNodes_shape_witness :
  closed_below 3 (objs sample_text_state) = true ∧
  0 < length (objs sample_text_state) ∧
  predict 2 (objs sample_text_state) 0 = VNode ∧
  ∃ σ' r cs,
    sample_toParse5 0 2 0 None sample_text_state = (σ', Ok (Some r)) ∧
    childNodes_at (objs σ') r = Some cs ∧ length cs = 2.
Proof.
  split; [reflexivity|]. split; [cbn; lia|]. split; [reflexivity|].
  destruct (childNodes_shape Z sample_String_number sample_ToBoolean_number (Attrs Z)
              sample_find sample_ns sample_toH_attributes 0 2 0 None sample_text_state
              eq_refl ltac:(cbn; lia) eq_refl)
    as (σ' & r & Hrun & HC & Hall).
  destruct (Hall _ _ _ _ HC) as (node & Hnode & Hk).
  injection Hnode as <-. destruct Hk as (cs & Hcs & Hlen).
  exists σ', r, cs. split; [exact Hrun|]. split; [exact Hcs|exact Hlen].
Defined.

Lemma toParse5_space_witness :
  closed_below 4 (objs sample_svg_state) = true ∧
  0 < length (objs sample_svg_state) ∧
  hast_at (objs sample_svg_state) 0
    = Some (HElement "div" [] (Some [1; 3]) None None) ∧
  predict 3 (objs sample_svg_state) 0 = VNode ∧
  ∃ σ' r,
    sample_toParse5 0 3 0 (Some "SVG") sample_svg_state = (σ', Ok (Some r)) ∧
    nodeName_at (objs σ') r = Some "div" ∧
    namespaceURI_at (objs σ') r = Some (Some "http://www.w3.org/1999/xhtml").
Proof.
  split; [reflexivity|]. split; [cbn; lia|]. split; [reflexivity|]. split; [reflexivity|].
  exact (toParse5_space Z sample_String_number sample_ToBoolean_number (Attrs Z)
           sample_find sample_ns sample_toH_attributes 0 3 0 (Some "SVG") sample_svg_state
           "div" [] (Some [1; 3]) None None
           eq_refl ltac:(cbn; lia) eq_refl eq_refl).
Defined.

Lemma template_content_anywhere_witness :
  closed_below 3 (objs sample_template_content) = true ∧
  0 < length (objs sample_template_content) ∧
  predict 2 (objs sample_template_content) 0 = VNode ∧
  ∃ σ' r f fs,
    sample_toParse5 0 2 0 None sample_template_content = (σ', Ok (Some r)) ∧
    content_at (objs σ') r = Some f ∧
    nodeName_at (objs σ') f = Some "#document-fragment" ∧
    parent_at (objs σ') f = None ∧
    childNodes_at (objs σ') f = Some fs ∧ length fs = 1 ∧
    (f ∉ default [] (childNodes_at (objs σ') r)).
Proof.
  split; [reflexivity|]. split; [cbn; lia|]. split; [reflexivity|].
  destruct (template_content_anywhere Z sample_String_number sample_ToBoolean_number
              (Attrs Z) sample_find sample_ns sample_toH_attributes 0 2 0 None
              sample_template_content eq_refl ltac:(cbn; lia) eq_refl)
    as (σ' & r & Hrun & HC & Hall).
  pose proof (Hall _ _ _ _ "template" [] (Some []) (Some 1) None HC eq_refl) as H.
  change (String.eqb "template" "template") with true in H. cbv iota in H.
  destruct H as (c & f & cs & fs & Hc & Hf & Hn & Hp & _ & Hfs & Hlen & Hcs & Hnot & _).
  injection Hc as <-.
  exists σ', r, f, fs. split; [exact Hrun|]. split; [exact Hf|]. split; [exact Hn|].
  split; [exact Hp|]. split; [exact Hfs|]. split; [exact Hlen|].
  rewrite Hcs. exact Hnot.
Defined.

Lemma svg_is_never_left_witness :
  closed_below 4 (objs sample_svg_state) = true ∧
  0 < length (objs sample_svg_state) ∧
  predict 3 (objs sample_svg_state) 0 = VNode ∧
  ∃ σ' r,
    sample_toParse5 0 3 0 (Some "svg") sample_svg_state = (σ', Ok (Some r)) ∧
    ∀ k x u, x ∈ nodes_below k (objs σ') r →
             namespaceURI_at (objs σ') x = Some u →
             u = Some "http://www.w3.org/2000/svg".
Proof.
  split; [reflexivity|]. split; [cbn; lia|]. split; [reflexivity|].
  destruct (svg_is_never_left Z sample_String_number sample_ToBoolean_number (Attrs Z)
              sample_find sample_ns sample_toH_attributes 0 3 0 (Some "svg")
              sample_svg_state eq_refl ltac:(cbn; lia) eq_refl)
    as (σ' & r & Hrun & _ & _ & Hall).
  exists σ', r. split; [exact Hrun|]. exact (Hall eq_refl).
Defined.

Lemma result_is_fresh_witness :
  closed_below 3 (objs sample_text_state) = true ∧
  0 < length (objs sample_text_state) ∧
  predict 2 (objs sample_text_state) 0 = VNode ∧
  ∃ σ' r,
    sample_toParse5 0 2 0 None sample_text_state = (σ', Ok (Some r)) ∧
    ∀ k x, x ∈ nodes_below k (objs σ') r →
           objs sample_text_state !! x = None ∧ is_Some (p5_at Z (Attrs Z) (objs σ') x).
Proof.
  split; [reflexivity|]. split; [cbn; lia|]. split; [reflexivity|].
  exact (result_is_fresh Z sample_String_number sample_ToBoolean_number (Attrs Z)
           sample_find sample_ns sample_toH_attributes 0 2 0 None sample_text_state
           eq_refl ltac:(cbn; lia) eq_refl).
Defined.

Lemma text_is_kept_witness :
  closed_below 3 (objs sample_text_state) = true ∧
  0 < length (objs sample_text_state) ∧
  predict 2 (objs sample_text_state) 0 = VNode ∧
  ∃ σ' r,
    sample_toParse5 0 2 0 None sample_text_state = (σ', Ok (Some r)) ∧
    omap (text_value_at (objs σ')) (nodes_below 4 (objs σ') r) = ["abc"].
Proof.
  split; [reflexivity|]. split; [cbn; lia|]. split; [reflexivity|].
  destruct (text_is_kept Z sample_String_number sample_ToBoolean_number (Attrs Z)
              sample_find sample_ns sample_toH_attributes 0 2 0 None sample_text_state
              eq_refl ltac:(cbn; lia) eq_refl)
    as (σ' & r & Hrun & Htexts).
  exists σ', r. split; [exact Hrun|]. exact (Htexts 4 ltac:(lia)).
Defined.

Lemma element_attributes_witness :
  closed_below 1 (objs sample_svg_alone) = true ∧
  0 < length (objs sample_svg_alone) ∧
  predict 1 (objs sample_svg_alone) 0 = VNode ∧
  ∃ σ' r,
    sample_toParse5 3 1 0 None sample_svg_alone = (σ', Ok (Some r)) ∧
    attrs_at (objs σ') r = Some [mkAttr "hidden" "" None None].
Proof.
  split; [reflexivity|]. split; [cbn; lia|]. split; [reflexivity|].
  destruct (element_attributes Z sample_String_number sample_ToBoolean_number (Attrs Z)
              sample_find sample_ns sample_toH_attributes 3 1 0 None sample_svg_alone
              eq_refl ltac:(cbn; lia) eq_refl)
    as (σ' & r & Hrun & HC & Hall).
  exists σ', r. split; [exact Hrun|].
  exact (Hall _ _ _ _ "svg" [("hidden", VString "")] (Some []) None None HC eq_refl).
Defined.

Lemma conversion_composes_witness :
  closed_below 3 (objs sample_text_state) = true ∧
  0 < length (objs sample_text_state) ∧
  hast_at (objs sample_text_state) 0 = Some (HRoot None (Some [1; 2]) None) ∧
  predict 2 (objs sample_text_state) 0 = VNode ∧
  ∃ σ' r,
    sample_toParse5 0 2 0 None sample_text_state = (σ', Ok (Some r)) ∧
    Forall2 (λ c a,
               ∃ σ2 r2,
                 sample_toParse5 0 1 c None sample_text_state = (σ2, Ok (Some r2)) ∧
                 structurally_equal (objs σ') (objs σ2) a r2)
            [1; 2] (default [] (childNodes_at (objs σ') r)).
Proof.
  split; [reflexivity|]. split; [cbn; lia|]. split; [reflexivity|]. split; [reflexivity|].
  exact (conversion_composes Z sample_String_number sample_ToBoolean_number (Attrs Z)
           sample_find sample_ns sample_toH_attributes 0 1 0 None sample_text_state
           (HRoot None (Some [1; 2]) None) eq_refl ltac:(cbn; lia) eq_refl eq_refl).
Defined.
